(** * Digital business card backend: a shallow embedding of [main.py]

    The handlers of [main.py] are embedded as computations in a small
    state-and-exception monad over a model of the document store.  A
    MongoDB document is a finite map from field names to values, a
    collection is the list of its documents in natural order, and the
    database maps collection names to collections. *)

From stdpp Require Import gmap strings list fin_maps.
From Stdlib Require Import ZArith Ascii String.

Open Scope Z_scope.
Open Scope string_scope.
Open Scope list_scope.
Open Scope stdpp_scope.

(** ** Python values that occur in documents *)

(** A [bson.ObjectId] is determined by its twelve bytes; it is kept as
    the lowercase hexadecimal text that [str] prints for it. *)
Record oid := Oid { oid_hex : string }.

#[global] Instance oid_eq_dec : EqDecision oid.
Proof. solve_decision. Defined.

Inductive value :=
| VNone
| VBool (b : bool)
| VStr (s : string)
| VOid (o : oid)
| VDate (t : Z).

#[global] Instance value_eq_dec : EqDecision value.
Proof. solve_decision. Defined.

#[global] Instance value_inhabited : Inhabited value := populate VNone.

(** A document (a Python [dict] with string keys). *)
Abbreviation doc := (gmap string value).

(** [d.get(k)]: the value under [k], [None] when the key is missing. *)
Definition get (d : doc) (k : string) : value := default VNone (d !! k).

(** [d.get(k, dflt)]. *)
Definition get_default (d : doc) (k : string) (dflt : value) : value :=
  default dflt (d !! k).

(** Truth value of a Python object, as [bool(v)] and [if v] compute it. *)
Definition truthy (v : value) : bool :=
  match v with
  | VNone => false
  | VBool b => b
  | VStr s => negb (String.eqb s "")
  | VOid _ => true
  | VDate _ => true
  end.

(** Truth value of the result of [find_one]: [None] and the empty dict
    are false. *)
Definition truthy_doc (o : option doc) : bool :=
  match o with
  | None => false
  | Some d => negb (bool_decide (d = ∅))
  end.

(** ** Strings *)

Definition CRLF : string := String (ascii_of_nat 13) (String (ascii_of_nat 10) "").

(** [s.replace(old, new)] for one-character [old] and [new]. *)
Fixpoint replace (old new : ascii) (s : string) : string :=
  match s with
  | EmptyString => EmptyString
  | String a s' =>
      String (if Ascii.eqb a old then new else a) (replace old new s')
  end.

(** [sep.join(lines)]. *)
Definition join (sep : string) (lines : list string) : string :=
  String.concat sep lines.

(** ** [bson.ObjectId] from text *)

Definition is_hex (a : ascii) : bool :=
  let n := nat_of_ascii a in
  ((48 <=? n) && (n <=? 57) || (97 <=? n) && (n <=? 102)
   || (65 <=? n) && (n <=? 70))%nat.

Definition lower (a : ascii) : ascii :=
  let n := nat_of_ascii a in
  if ((65 <=? n) && (n <=? 90))%nat then ascii_of_nat (n + 32) else a.

Fixpoint all_hex (s : string) : bool :=
  match s with
  | EmptyString => true
  | String a s' => is_hex a && all_hex s'
  end.

Fixpoint lowercase (s : string) : string :=
  match s with
  | EmptyString => EmptyString
  | String a s' => String (lower a) (lowercase s')
  end.

(** [ObjectId(s)] for a [str]: twenty-four hexadecimal digits in either
    case, anything else is [InvalidId] (here [None]). *)
Definition parse_oid (s : string) : option oid :=
  if (String.length s =? 24)%nat && all_hex s then Some (Oid (lowercase s))
  else None.

(** ** Exceptions and results *)

Inductive exn :=
| HTTPException (status_code : Z) (detail : string)
| InvalidId
| TypeError
| KeyError
| AttributeError
| DuplicateKeyError
| PyMongoError.

#[global] Instance exn_eq_dec : EqDecision exn.
Proof. solve_decision. Defined.

Inductive result (A : Type) :=
| Ok (a : A)
| Raise (e : exn).
Arguments Ok {A} a.
Arguments Raise {A} e.

(** The status line the framework answers with: the code of an
    [HTTPException], 500 for any other exception that escapes the
    handler, 200 otherwise. *)
Definition http_status {A} (r : result A) : Z :=
  match r with
  | Ok _ => 200
  | Raise (HTTPException c _) => c
  | Raise _ => 500
  end.

(** ** The world a request runs in *)

(** What the handlers cannot decide: how [str] prints a [datetime], what
    the clock reads, which [ObjectId] is generated next, and whether a
    call to the store fails. *)
Record env := Env {
  str_datetime : Z → string;
  utcnow : nat → Z;
  new_oid : nat → oid;
  raises : nat → bool;
}.

(** [db] is the module-level handle ([None] when no store is
    configured); the counters number the clock readings, the generated
    ids and the store calls made so far. *)
Record world := World {
  db : option (gmap string (list doc));
  ticks : nat;
  made : nat;
  calls : nat;
}.

Definition M (A : Type) : Type := world → result A * world.

Definition ret {A} (a : A) : M A := λ w, (Ok a, w).

Definition raise {A} (e : exn) : M A := λ w, (Raise e, w).

Definition bind {A B} (c : M A) (k : A → M B) : M B :=
  λ w, match c w with
       | (Ok a, w') => k a w'
       | (Raise e, w') => (Raise e, w')
       end.

(** [try: c  except Exception: h]. *)
Definition try_except {A} (c : M A) (h : M A) : M A :=
  λ w, match c w with
       | (Ok a, w') => (Ok a, w')
       | (Raise _, w') => h w'
       end.

Declare Scope py_scope.
Delimit Scope py_scope with py.
Notation "'let*' x := c 'in' k" := (bind c (λ x, k))
  (at level 10, x name, c at level 100, k at level 200) : py_scope.
Notation "c ;; k" := (bind c (λ _, k))
  (at level 100, k at level 200, right associativity) : py_scope.
Open Scope py_scope.

(** ** The store: [pymongo] on lists of documents *)

Abbreviation store := (gmap string (list doc)).

(** A filter document with a single field, [{k: v}]: it selects the
    documents whose field [k] equals [v]; a filter on [None] also
    selects the documents that lack the field. *)
Definition matches (q : string * value) (d : doc) : Prop := get d q.1 = q.2.

#[global] Instance matches_dec q d : Decision (matches q d).
Proof. unfold matches. apply _. Defined.

(** The [_id] fields of a collection, in order. *)
Definition doc_ids (l : list doc) : list (option value) := (λ d, d !! "_id") <$> l.

(** The first document selected by [q], if any. *)
Definition first_match (q : string * value) (l : list doc) : option doc :=
  head (filter (matches q) l).

(** [$set]: the first selected document takes the fields of [upd]. *)
Fixpoint set_first (q : string * value) (upd : doc) (l : list doc) : list doc :=
  match l with
  | [] => []
  | d :: l' =>
      if decide (matches q d) then (upd ∪ d) :: l' else d :: set_first q upd l'
  end.

(** Removal of the first selected document. *)
Fixpoint drop_first (q : string * value) (l : list doc) : list doc :=
  match l with
  | [] => []
  | d :: l' => if decide (matches q d) then l' else d :: drop_first q l'
  end.

(** Removal of every selected document. *)
Definition drop_all (q : string * value) (l : list doc) : list doc :=
  filter (λ d, ¬ matches q d) l.

(** [1] when some document is selected, [0] otherwise: the
    [matched_count] of [update_one], the [deleted_count] of
    [delete_one]. *)
Definition count_first (q : string * value) (l : list doc) : Z :=
  if first_match q l is Some _ then 1 else 0.

Definition set_db (s : store) (w : world) : world :=
  World (Some s) (ticks w) (made w) (calls w).

Definition tick (w : world) : world :=
  World (db w) (S (ticks w)) (made w) (calls w).

Definition mint (w : world) : world :=
  World (db w) (ticks w) (S (made w)) (calls w).

Definition called (w : world) : world :=
  World (db w) (ticks w) (made w) (S (calls w)).

(** ** Request and response models *)

(** [Optional[str]] and [Optional[bool]] fields as Python values. *)
Definition opt_str (o : option string) : value := from_option VStr VNone o.
Definition opt_bool (o : option bool) : value := from_option VBool VNone o.

(** [{k: v for k, v in items if v is not None}]. *)
Definition dict_not_none (items : list (string * value)) : doc :=
  list_to_map (filter (λ kv, kv.2 ≠ VNone) items).

Module ProfileUpdate.
Record t := Build {
  job_title : option string;
  company : option string;
  phone_number : option string;
  bio : option string;
}.
Definition model_dump (p : t) : list (string * value) :=
  [("job_title", opt_str (job_title p)); ("company", opt_str (company p));
   ("phone_number", opt_str (phone_number p)); ("bio", opt_str (bio p))].
End ProfileUpdate.

Module SocialLinkCreate.
Record t := Build { platform : string; url : string }.
End SocialLinkCreate.

Module AdminUserUpdate.
Record t := Build {
  name : option string;
  email : option string;
  is_admin : option bool;
  profile_slug : option string;
}.
Definition model_dump (p : t) : list (string * value) :=
  [("name", opt_str (name p)); ("email", opt_str (email p));
   ("is_admin", opt_bool (is_admin p));
   ("profile_slug", opt_str (profile_slug p))].
End AdminUserUpdate.

(** The dict built by [serialize_user]. *)
Module User.
Record t := Build {
  id : string;
  name : value;
  email : value;
  is_admin : bool;
  profile_slug : value;
}.
End User.

(** The ["profile"] dict of a bundle. *)
Module Profile.
Record t := Build {
  job_title : value;
  company : value;
  phone_number : value;
  bio : value;
  profile_image_path : value;
}.
End Profile.

(** An entry of the ["social_links"] list of a bundle. *)
Module Link.
Record t := Build { id : string; platform : value; url : value }.
End Link.

Module Bundle.
Record t := Build {
  user : User.t;
  profile : Profile.t;
  social_links : list Link.t;
}.
End Bundle.

(** [StreamingResponse(iter(chunks), media_type=..., headers=...)]. *)
Record StreamingResponse := Streaming {
  body : list string;
  media_type : string;
  headers : list (string * string);
}.

(** The JSON bodies the handlers return. *)
Inductive json :=
| JMessage (message : string)
| JStatus (status : string)
| JId (id : string)
| JUser (u : User.t)
| JUsers (us : list User.t)
| JBundle (b : Bundle.t).

#[global] Instance user_eq_dec : EqDecision User.t.
Proof. solve_decision. Defined.

#[global] Instance profile_eq_dec : EqDecision Profile.t.
Proof. solve_decision. Defined.

#[global] Instance link_eq_dec : EqDecision Link.t.
Proof. solve_decision. Defined.

#[global] Instance bundle_eq_dec : EqDecision Bundle.t.
Proof. solve_decision. Defined.

#[global] Instance streaming_eq_dec : EqDecision StreamingResponse.
Proof. solve_decision. Defined.

#[global] Instance json_eq_dec : EqDecision json.
Proof. solve_decision. Defined.

#[global] Instance result_eq_dec {A} `{EqDecision A} : EqDecision (result A).
Proof. solve_decision. Defined.

#[global] Instance world_eq_dec : EqDecision world.
Proof. solve_decision. Defined.

(** ** The handlers *)

Section Handlers.
Context (E : env).

(** [str(v)], which is also how an f-string prints [v]. *)
Definition py_str (v : value) : string :=
  match v with
  | VNone => "None"
  | VBool true => "True"
  | VBool false => "False"
  | VStr s => s
  | VOid o => oid_hex o
  | VDate t => str_datetime E t
  end.

(** [v or w]. *)
Definition py_or (v w : value) : value := if truthy v then v else w.

(** [datetime.now(timezone.utc)]. *)
Definition now : M Z := λ w, (Ok (utcnow E (ticks w)), tick w).

(** [ObjectId()]: a newly generated id. *)
Definition generate : M oid := λ w, (Ok (new_oid E (made w)), mint w).

(** [ObjectId(v)]. *)
Definition ObjectId (v : value) : M oid :=
  match v with
  | VNone => generate
  | VOid o => ret o
  | VStr s => if parse_oid s is Some o then ret o else raise InvalidId
  | _ => raise TypeError
  end.

(** [db[c]]: subscripting [None] is a [TypeError]; otherwise the
    handle of the collection, which is its name. *)
Definition getitem (c : string) : M string :=
  λ w, if db w is Some _ then (Ok c, w) else (Raise TypeError, w).

(** [d[k]] on a dict. *)
Definition subscript (d : doc) (k : string) : M value :=
  if d !! k is Some v then ret v else raise KeyError.

(** One call to the store: it is counted, and it either fails in the
    driver or acts on the collections. *)
Definition call {A} (f : store → result A * store) : M A :=
  λ w, match db w with
       | None => (Raise TypeError, w)
       | Some s =>
           if raises E (calls w) then (Raise PyMongoError, called w)
           else let '(r, s') := f s in (r, called (set_db s' w))
       end.

Definition find_one (c : string) (q : string * value) : M (option doc) :=
  call (λ s, (Ok (first_match q (s !!! c)), s)).

(** [list(coll.find(q))]. *)
Definition find (c : string) (q : string * value) : M (list doc) :=
  call (λ s, (Ok (filter (matches q) (s !!! c)), s)).

(** [list(coll.find())]. *)
Definition find_all (c : string) : M (list doc) :=
  call (λ s, (Ok (s !!! c), s)).

(** The server side of an insert: [_id] is unique in a collection. *)
Definition store_insert (c : string) (d : doc) (s : store)
  : result value * store :=
  if bool_decide (d !! "_id" ∈ doc_ids (s !!! c)) then (Raise DuplicateKeyError, s)
  else (Ok (get d "_id"), <[c := (s !!! c) ++ [d]]> s).

(** The client side: a document without [_id] is given a new one. *)
Definition with_id (d : doc) : M doc :=
  if d !! "_id" is Some _ then ret d
  else let* o := generate in ret (<["_id" := VOid o]> d).

(** [coll.insert_one(d).inserted_id]. *)
Definition insert_one (c : string) (d : doc) : M value :=
  let* d' := with_id d in
  call (store_insert c d').

Fixpoint with_ids (ds : list doc) : M (list doc) :=
  match ds with
  | [] => ret []
  | d :: ds' =>
      let* d' := with_id d in
      let* ds'' := with_ids ds' in
      ret (d' :: ds'')
  end.

Fixpoint store_insert_many (c : string) (ds : list doc) (s : store)
  : result unit * store :=
  match ds with
  | [] => (Ok (), s)
  | d :: ds' =>
      match store_insert c d s with
      | (Ok _, s') => store_insert_many c ds' s'
      | (Raise e, s') => (Raise e, s')
      end
  end.

(** [coll.insert_many(ds)], ordered: it stops at the first failure. *)
Definition insert_many (c : string) (ds : list doc) : M unit :=
  let* ds' := with_ids ds in
  call (store_insert_many c ds').

(** [coll.update_one(q, {"$set": upd}).matched_count]. *)
Definition update_one (c : string) (q : string * value) (upd : doc) : M Z :=
  call (λ s, (Ok (count_first q (s !!! c)), alter (set_first q upd) c s)).

(** [coll.delete_one(q).deleted_count]. *)
Definition delete_one (c : string) (q : string * value) : M Z :=
  call (λ s, (Ok (count_first q (s !!! c)), alter (drop_first q) c s)).

(** [coll.delete_many(q)]. *)
Definition delete_many (c : string) (q : string * value) : M unit :=
  call (λ s, (Ok (), alter (drop_all q) c s)).

(** The dict behind a [find_one] result that tested true. *)
Definition the (o : option doc) : doc := default ∅ o.

(** *** Demo auth helpers *)

Definition ensure_demo_user : M (option doc) :=
  λ w0,
    (if db w0 is None then ret None
     else
       let* c := getitem "user" in
       let* user := find_one c ("email", VStr "demo@flamesblue.com") in
       if negb (truthy_doc user) then
         let* c := getitem "user" in
         let* t1 := now in
         let* t2 := now in
         let* user_id :=
           insert_one c
             (list_to_map
                [("name", VStr "Flames Blue");
                 ("email", VStr "demo@flamesblue.com");
                 ("password_hash", VStr "demo");
                 ("is_admin", VBool true);
                 ("profile_slug", VStr "flames-blue");
                 ("created_at", VDate t1);
                 ("updated_at", VDate t2)]) in
         let* c := getitem "profile" in
         let* t1 := now in
         let* t2 := now in
         insert_one c
           (list_to_map
              [("user_id", VStr (py_str user_id));
               ("job_title", VStr "Vibe Coding Agent");
               ("company", VStr "FlamesBlue");
               ("phone_number", VStr "+1 555 123 4567");
               ("bio", VStr "We build beautiful digital identity experiences.");
               ("profile_image_path", VNone);
               ("created_at", VDate t1);
               ("updated_at", VDate t2)]) ;;
         let* c := getitem "sociallink" in
         let* a1 := now in
         let* a2 := now in
         let* b1 := now in
         let* b2 := now in
         let* c1 := now in
         let* c2 := now in
         insert_many c
           [list_to_map
              [("user_id", VStr (py_str user_id)); ("platform", VStr "website");
               ("url", VStr "https://flamesblue.com");
               ("created_at", VDate a1); ("updated_at", VDate a2)];
            list_to_map
              [("user_id", VStr (py_str user_id)); ("platform", VStr "linkedin");
               ("url", VStr "https://linkedin.com/company/flamesblue");
               ("created_at", VDate b1); ("updated_at", VDate b2)];
            list_to_map
              [("user_id", VStr (py_str user_id)); ("platform", VStr "github");
               ("url", VStr "https://github.com/");
               ("created_at", VDate c1); ("updated_at", VDate c2)]] ;;
         let* c := getitem "user" in
         let* o := ObjectId user_id in
         find_one c ("_id", VOid o)
       else ret user) w0.

Definition get_current_user : M doc :=
  let* user := ensure_demo_user in
  if negb (truthy_doc user) then
    raise (HTTPException 500 "Database not configured")
  else ret (the user).

(** *** Utility *)

Definition serialize_user (user_doc : doc) : User.t :=
  {| User.id := py_str (get user_doc "_id");
     User.name := get user_doc "name";
     User.email := get user_doc "email";
     User.is_admin := truthy (get_default user_doc "is_admin" (VBool false));
     User.profile_slug := get user_doc "profile_slug" |}.

(** [str(user["_id"]) if isinstance(user.get("_id"), ObjectId)
    else user.get("_id")]. *)
Definition uid_of (user : doc) : value :=
  match get user "_id" with
  | VOid o => VStr (py_str (VOid o))
  | v => v
  end.

(** [profile.get(k) if profile else None]. *)
Definition profile_field (profile : option doc) (k : string) : value :=
  if truthy_doc profile then get (the profile) k else VNone.

Definition profile_json (profile : option doc) : Profile.t :=
  {| Profile.job_title := profile_field profile "job_title";
     Profile.company := profile_field profile "company";
     Profile.phone_number := profile_field profile "phone_number";
     Profile.bio := profile_field profile "bio";
     Profile.profile_image_path := profile_field profile "profile_image_path" |}.

Definition link_json (l : doc) : Link.t :=
  {| Link.id := py_str (get l "_id");
     Link.platform := get l "platform";
     Link.url := get l "url" |}.

Definition fetch_profile_bundle_by_slug (slug : string) : M (option Bundle.t) :=
  let* c := getitem "user" in
  let* user := find_one c ("profile_slug", VStr slug) in
  if negb (truthy_doc user) then ret None
  else
    let uid := uid_of (the user) in
    let* c := getitem "profile" in
    let* profile := find_one c ("user_id", uid) in
    let* c := getitem "sociallink" in
    let* links := find c ("user_id", uid) in
    ret (Some {| Bundle.user := serialize_user (the user);
                 Bundle.profile := profile_json profile;
                 Bundle.social_links := link_json <$> links |}).

(** *** Public routes *)

Definition root : M json := ret (JMessage "Digital Business Card API (demo)").

Definition get_public_profile (slug : string) : M json :=
  let* bundle := fetch_profile_bundle_by_slug slug in
  if bundle is Some b then ret (JBundle b)
  else raise (HTTPException 404 "Profile not found").

(** [l.get("platform") in ("website", "link", "url")]. *)
Definition is_website (l : Link.t) : Prop :=
  Link.platform l ∈ [VStr "website"; VStr "link"; VStr "url"].

#[global] Instance is_website_dec l : Decision (is_website l).
Proof. unfold is_website. apply _. Defined.

(** The list [lines] of [get_vcard] when it is joined.  The dicts
    [user] and [profile] of a bundle hold every key that is read, so
    the defaults of their [get] are never taken. *)
Definition vcard_lines (bundle : Bundle.t) : list string :=
  let user := Bundle.user bundle in
  let profile := Bundle.profile bundle in
  let lines :=
    ["BEGIN:VCARD";
     "VERSION:3.0";
     "N:" +:+ py_str (User.name user) +:+ ";";
     "FN:" +:+ py_str (User.name user);
     "ORG:" +:+ py_str (py_or (Profile.company profile) (VStr ""));
     "TITLE:" +:+ py_str (py_or (Profile.job_title profile) (VStr ""))] in
  let lines :=
    if truthy (Profile.phone_number profile)
    then lines ++ ["TEL;TYPE=CELL:" +:+ py_str (Profile.phone_number profile)]
    else lines in
  let lines :=
    if truthy (User.email user)
    then lines ++ ["EMAIL;TYPE=INTERNET:" +:+ py_str (User.email user)]
    else lines in
  let first_website := head (filter is_website (Bundle.social_links bundle)) in
  let lines :=
    if first_website is Some l then lines ++ ["URL:" +:+ py_str (Link.url l)]
    else lines in
  lines ++ ["END:VCARD"].

(** [name.replace(' ', '_')]: the method of [str] replaces the spaces;
    a [datetime] has a [replace] of its own, which takes the fields of
    a date and rejects these two arguments with a [TypeError]; [None],
    a [bool] and an [ObjectId] have no such attribute. *)
Definition vcard_filename (bundle : Bundle.t) : M string :=
  match User.name (Bundle.user bundle) with
  | VStr s => ret (replace " " "_" s +:+ ".vcf")
  | VDate _ => raise TypeError
  | _ => raise AttributeError
  end.

Definition get_vcard (slug : string) : M StreamingResponse :=
  let* bundle := fetch_profile_bundle_by_slug slug in
  if bundle is Some bundle then
    let vcard_str := join CRLF (vcard_lines bundle) in
    let* filename := vcard_filename bundle in
    ret {| body := [vcard_str];
           media_type := "text/vcard";
           headers := [("Content-Disposition",
                        "attachment; filename=" +:+ filename)] |}
  else raise (HTTPException 404 "Profile not found").

(** *** Protected user routes *)

Definition get_me (user : doc) : M json :=
  let uid := uid_of user in
  let* c := getitem "profile" in
  let* profile := find_one c ("user_id", uid) in
  let* c := getitem "sociallink" in
  let* links := find c ("user_id", uid) in
  ret (JBundle {| Bundle.user := serialize_user user;
                  Bundle.profile := profile_json profile;
                  Bundle.social_links := link_json <$> links |}).

Definition update_profile (payload : ProfileUpdate.t) (user : doc) : M json :=
  let uid := uid_of user in
  let* now := now in
  let* c := getitem "profile" in
  let* existing := find_one c ("user_id", uid) in
  let update_doc := dict_not_none (ProfileUpdate.model_dump payload) in
  let update_doc := <["updated_at" := VDate now]> update_doc in
  (if truthy_doc existing then
     let* c := getitem "profile" in
     let* i := subscript (the existing) "_id" in
     update_one c ("_id", i) update_doc ;;
     ret ()
   else
     let update_doc :=
       <["created_at" := VDate now]> (<["user_id" := uid]> update_doc) in
     let* c := getitem "profile" in
     insert_one c update_doc ;;
     ret ()) ;;
  ret (JStatus "ok").

Definition create_social_link (payload : SocialLinkCreate.t) (user : doc)
  : M json :=
  let uid := uid_of user in
  let* now := now in
  let doc : doc :=
    list_to_map
      [("user_id", uid);
       ("platform", VStr (SocialLinkCreate.platform payload));
       ("url", VStr (SocialLinkCreate.url payload));
       ("created_at", VDate now);
       ("updated_at", VDate now)] in
  let* c := getitem "sociallink" in
  let* inserted_id := insert_one c doc in
  ret (JId (py_str inserted_id)).

Definition delete_social_link (sid : string) (user : doc) : M json :=
  let uid := uid_of user in
  let* c := getitem "sociallink" in
  let* o := ObjectId (VStr sid) in
  let* doc := find_one c ("_id", VOid o) in
  if negb (truthy_doc doc) || negb (bool_decide (get (the doc) "user_id" = uid))
  then raise (HTTPException 404 "Not found")
  else
    let* c := getitem "sociallink" in
    let* o := ObjectId (VStr sid) in
    delete_one c ("_id", VOid o) ;;
    ret (JStatus "deleted").

(** *** Admin routes *)

Definition require_admin (user : doc) : M doc :=
  if negb (truthy (get_default user "is_admin" (VBool false)))
  then raise (HTTPException 403 "Admin only")
  else ret user.

Definition admin_list_users (admin : doc) : M json :=
  let* c := getitem "user" in
  let* users := find_all c in
  ret (JUsers (serialize_user <$> users)).

Definition admin_get_user (uid : string) (admin : doc) : M json :=
  let* doc :=
    try_except
      (let* c := getitem "user" in
       let* o := ObjectId (VStr uid) in
       find_one c ("_id", VOid o))
      (ret None) in
  if negb (truthy_doc doc) then raise (HTTPException 404 "User not found")
  else ret (JUser (serialize_user (the doc))).

Definition admin_update_user (uid : string) (payload : AdminUserUpdate.t)
    (admin : doc) : M json :=
  let update_doc := dict_not_none (AdminUserUpdate.model_dump payload) in
  if bool_decide (update_doc = ∅) then ret (JStatus "no_changes")
  else
    let* t := now in
    let update_doc := <["updated_at" := VDate t]> update_doc in
    let* matched_count :=
      try_except
        (let* c := getitem "user" in
         let* o := ObjectId (VStr uid) in
         update_one c ("_id", VOid o) update_doc)
        (raise (HTTPException 400 "Invalid user id")) in
    if bool_decide (matched_count = 0)
    then raise (HTTPException 404 "User not found")
    else
      let* c := getitem "user" in
      let* o := ObjectId (VStr uid) in
      let* doc := find_one c ("_id", VOid o) in
      if doc is Some d then ret (JUser (serialize_user d))
      else raise AttributeError.

Definition admin_delete_user (uid : string) (admin : doc) : M json :=
  let* deleted_count :=
    try_except
      (let* c := getitem "user" in
       let* o := ObjectId (VStr uid) in
       delete_one c ("_id", VOid o))
      (raise (HTTPException 400 "Invalid user id")) in
  if bool_decide (deleted_count = 0)
  then raise (HTTPException 404 "User not found")
  else
    let* c := getitem "profile" in
    delete_many c ("user_id", VStr uid) ;;
    let* c := getitem "sociallink" in
    delete_many c ("user_id", VStr uid) ;;
    ret (JStatus "deleted").

(** [Depends(dep)]: the framework runs the dependency and hands its
    result to the handler. *)
Definition Depends {A B} (dep : M A) (handler : A → M B) : M B :=
  let* a := dep in handler a.
End Handlers.

(** ** Sample data *)

Module Sample.
Definition hex_digit (n : nat) : string :=
  String.substring n 1 "0123456789abcdef".

(** A healthy environment: the store never fails, the clock advances
    by one second per reading, generated ids count upwards. *)
Definition E : env :=
  {| str_datetime := λ _, "2024-01-01 00:00:00+00:00";
     utcnow := λ n, 1704067200 + Z.of_nat n;
     new_oid := λ n, Oid ("65a0000000000000000000"
                          +:+ hex_digit (n / 16) +:+ hex_digit (n mod 16));
     raises := λ _, false |}.

(** The same environment with the store out of reach. *)
Definition E_down : env :=
  {| str_datetime := str_datetime E;
     utcnow := utcnow E;
     new_oid := new_oid E;
     raises := λ _, true |}.

Definition jane_id : string := "5f00000000000000000000a1".
Definition admin_id : string := "5f00000000000000000000a2".
Definition anon_id : string := "5f00000000000000000000a3".

Definition jane : doc :=
  list_to_map
    [("_id", VOid (Oid jane_id)); ("name", VStr "Jane Doe");
     ("email", VStr "jane@acme.com"); ("password_hash", VStr "x");
     ("is_admin", VBool false); ("profile_slug", VStr "jane")].

Definition admin : doc :=
  list_to_map
    [("_id", VOid (Oid admin_id)); ("name", VStr "Flames Blue");
     ("email", VStr "demo@flamesblue.com"); ("password_hash", VStr "demo");
     ("is_admin", VBool true); ("profile_slug", VStr "flames-blue")].

(** A user with an empty display name and no profile document. *)
Definition anon : doc :=
  list_to_map
    [("_id", VOid (Oid anon_id)); ("name", VStr "");
     ("email", VStr "anon@acme.com"); ("password_hash", VStr "y");
     ("is_admin", VBool false); ("profile_slug", VStr "anon")].

Definition jane_profile : doc :=
  list_to_map
    [("_id", VOid (Oid "5f00000000000000000000b1")); ("user_id", VStr jane_id);
     ("job_title", VStr "Engineer"); ("company", VStr "Acme");
     ("phone_number", VStr "+1 555"); ("bio", VStr "Hello");
     ("profile_image_path", VNone); ("updated_at", VDate 1700000000)].

Definition admin_profile : doc :=
  list_to_map
    [("_id", VOid (Oid "5f00000000000000000000b2")); ("user_id", VStr admin_id);
     ("job_title", VStr "Vibe Coding Agent"); ("company", VStr "FlamesBlue")].

Definition jane_link_id : string := "5f00000000000000000000c1".
Definition admin_link_id : string := "5f00000000000000000000c2".

Definition jane_link : doc :=
  list_to_map
    [("_id", VOid (Oid jane_link_id)); ("user_id", VStr jane_id);
     ("platform", VStr "website"); ("url", VStr "https://j.example")].

Definition admin_link : doc :=
  list_to_map
    [("_id", VOid (Oid admin_link_id)); ("user_id", VStr admin_id);
     ("platform", VStr "github"); ("url", VStr "https://github.com/")].

Definition s0 : store :=
  list_to_map
    [("user", [jane; admin; anon]);
     ("profile", [jane_profile; admin_profile]);
     ("sociallink", [jane_link; admin_link])].

Definition w0 : world := World (Some s0) 0 0 0.
End Sample.

(** More sample data: a store whose only user has no [name] field and
    whose first link has a platform, ["Website"], that the vCard does
    not take for a web site. *)
Module Sample2.
Definition nameless_id : string := "5f00000000000000000000d1".

Definition nameless : doc :=
  list_to_map
    [("_id", VOid (Oid nameless_id)); ("email", VStr "n@acme.com");
     ("profile_slug", VStr "nameless")].

Definition links : list doc :=
  [list_to_map
     [("_id", VOid (Oid "5f00000000000000000000e1")); ("user_id", VStr nameless_id);
      ("platform", VStr "Website"); ("url", VStr "https://upper.example")];
   list_to_map
     [("_id", VOid (Oid "5f00000000000000000000e2")); ("user_id", VStr nameless_id);
      ("platform", VStr "link"); ("url", VStr "https://first.example")];
   list_to_map
     [("_id", VOid (Oid "5f00000000000000000000e3")); ("user_id", VStr nameless_id);
      ("platform", VStr "website"); ("url", VStr "https://second.example")]].

Definition s1 : store :=
  list_to_map [("user", [nameless]); ("sociallink", links)].

Definition w1 : world := World (Some s1) 0 0 0.
End Sample2.

(** ** Vocabulary of the statements *)

(** The store answers every call. *)
Definition healthy (E : env) : Prop := ∀ n, raises E n = false.

(** A collection as the store keeps it: every document has an [_id]
    and no two documents share one. *)
Definition well_formed (l : list doc) : Prop :=
  NoDup (doc_ids l) ∧ None ∉ doc_ids l.

(** Field [k] of a dumped payload was given the non-null value [v]. *)
Definition provided (items : list (string * value)) (k : string) (v : value) : Prop :=
  (k, v) ∈ items ∧ v ≠ VNone.

(** Field [k] was not given, or given as null. *)
Definition not_provided (items : list (string * value)) (k : string) : Prop :=
  ∀ v, (k, v) ∈ items → v = VNone.

(** The dict [update_doc] that [update_profile] sends at time [t]. *)
Definition profile_update_doc (payload : ProfileUpdate.t) (t : Z) : doc :=
  <["updated_at" := VDate t]> (dict_not_none (ProfileUpdate.model_dump payload)).

(** The document that [update_profile] inserts in world [w] when the
    user has no profile yet: the payload's fields, the two timestamps,
    the owner and the new [_id]. *)
Definition created_profile (E : env) (payload : ProfileUpdate.t) (user : doc)
    (w : world) : doc :=
  <["_id" := VOid (new_oid E (made w))]>
    (<["created_at" := VDate (utcnow E (ticks w))]>
       (<["user_id" := uid_of E user]>
          (profile_update_doc payload (utcnow E (ticks w))))).

(** The document that [create_social_link] inserts in world [w]. *)
Definition created_link (E : env) (payload : SocialLinkCreate.t) (user : doc)
    (w : world) : doc :=
  <["_id" := VOid (new_oid E (made w))]>
    (list_to_map
       [("user_id", uid_of E user);
        ("platform", VStr (SocialLinkCreate.platform payload));
        ("url", VStr (SocialLinkCreate.url payload));
        ("created_at", VDate (utcnow E (ticks w)));
        ("updated_at", VDate (utcnow E (ticks w)))]).

(** The collection named [c] in world [w] (empty when there is none). *)
Definition collection (c : string) (w : world) : list doc :=
  default ∅ (db w) !!! c.

(** A collection with the update timestamps left out. *)
Definition forget_updated_at (l : list doc) : list doc :=
  delete "updated_at" <$> l.

(** A computation that only reads: whatever it returns or raises, the
    collections are what they were. *)
Definition read_only {A} (c : M A) : Prop := ∀ w, db (c w).2 = db w.

(** A computation that writes nothing unless it succeeds. *)
Definition all_or_nothing {A} (c : M A) : Prop :=
  ∀ w, (∃ e, (c w).1 = Raise e) → db (c w).2 = db w.

(** A computation that cannot raise. *)
Definition never_raises {A} (c : M A) : Prop := ∀ w, ∃ a, (c w).1 = Ok a.

(** A computation that keeps a property of the collections, whether it
    returns or raises. *)
Definition keeps {A} (I : option store → Prop) (c : M A) : Prop :=
  ∀ w, I (db w) → I (db (c w).2).

(** Every collection of the store is well formed. *)
Definition unique_ids (d : option store) : Prop :=
  ∀ s c, d = Some s → well_formed (s !!! c).

(** The number of documents of a collection selected by a filter. *)
Definition count_matches (q : string * value) (l : list doc) : nat :=
  Datatypes.length (filter (matches q) l).

(** ** Running the primitives *)

(** Closed decidable statements are settled by evaluation. *)
Ltac by_computation := apply (bool_decide_unpack _); vm_compute; exact I.

Section Runs.
Context (E : env).

Lemma set_db_same w s : db w = Some s → set_db s w = w.
Proof. destruct w; simpl; intros ->; reflexivity. Qed.

Lemma getitem_run c w s : db w = Some s → getitem c w = (Ok c, w).
Proof. unfold getitem; intros ->; reflexivity. Qed.

Lemma getitem_unset c w : db w = None → getitem c w = (Raise TypeError, w).
Proof. unfold getitem; intros ->; reflexivity. Qed.

Lemma call_run {A} (f : store → result A * store) w s :
  db w = Some s → raises E (calls w) = false →
  call E f w = (let '(r, s') := f s in (r, called (set_db s' w))).
Proof. unfold call; intros -> ->; reflexivity. Qed.

Lemma call_fails {A} (f : store → result A * store) w s :
  db w = Some s → raises E (calls w) = true →
  call E f w = (Raise PyMongoError, called w).
Proof. unfold call; intros -> ->; reflexivity. Qed.

Lemma find_one_run c q w s :
  db w = Some s → raises E (calls w) = false →
  find_one E c q w = (Ok (first_match q (s !!! c)), called w).
Proof.
  intros Hdb Hr. unfold find_one. rewrite (call_run _ w s Hdb Hr).
  by rewrite set_db_same.
Qed.

Lemma find_run c q w s :
  db w = Some s → raises E (calls w) = false →
  find E c q w = (Ok (filter (matches q) (s !!! c)), called w).
Proof.
  intros Hdb Hr. unfold find. rewrite (call_run _ w s Hdb Hr).
  by rewrite set_db_same.
Qed.

Lemma ObjectId_str_run sid o w :
  parse_oid sid = Some o → ObjectId E (VStr sid) w = (Ok o, w).
Proof. unfold ObjectId; intros ->; reflexivity. Qed.

Lemma ObjectId_str_invalid sid w :
  parse_oid sid = None → ObjectId E (VStr sid) w = (Raise InvalidId, w).
Proof. unfold ObjectId; intros ->; reflexivity. Qed.

(** The body of the [try] of the three admin routes that take an id
    raises as soon as the handle is unset, the id is malformed or the
    store fails; the store is left as it was. *)
Lemma lookup_raises {A} (op : string → string * value → M A) uid w :
  (∀ c q w s, db w = Some s → raises E (calls w) = true →
              op c q w = (Raise PyMongoError, called w)) →
  db w = None ∨ parse_oid uid = None ∨ raises E (calls w) = true →
  ∃ e w', (let* c := getitem "user" in
           let* o := ObjectId E (VStr uid) in
           op c ("_id", VOid o)) w = (Raise e, w') ∧ db w' = db w.
Proof.
  intros Hop H. unfold bind.
  destruct (db w) as [s|] eqn:Hdb.
  - rewrite (getitem_run _ _ _ Hdb).
    destruct (parse_oid uid) as [o|] eqn:Ho.
    + rewrite (ObjectId_str_run _ _ _ Ho).
      destruct H as [H|[H|H]]; try discriminate.
      rewrite (Hop _ _ _ _ Hdb H). eauto.
    + rewrite (ObjectId_str_invalid _ _ Ho). eauto.
  - rewrite (getitem_unset _ _ Hdb). eauto.
Qed.
End Runs.

(** ** Filters and updates on a collection *)

Section Documents.
Implicit Types (d upd : doc) (l : list doc) (q : string * value).

Lemma first_match_cons q d l :
  first_match q (d :: l) = if decide (matches q d) then Some d else first_match q l.
Proof. unfold first_match. rewrite filter_cons. by case_decide. Qed.

Lemma first_match_Some q l d :
  first_match q l = Some d → d ∈ l ∧ matches q d.
Proof.
  induction l as [|x l IH]; [done|]. rewrite first_match_cons.
  case_decide.
  - intros [= ->]. split; [left|done].
  - intros Hd. destruct (IH Hd). split; [by right|done].
Qed.

Lemma first_match_snoc q l d :
  first_match q l = None → matches q d → first_match q (l ++ [d]) = Some d.
Proof.
  intros Hnone Hd. unfold first_match in *.
  rewrite filter_app, head_app, Hnone.
  by rewrite filter_cons_True.
Qed.

(** [$set] does not touch the fields it does not name. *)
Lemma get_union_other upd d k : upd !! k = None → get (upd ∪ d) k = get d k.
Proof. intros H. unfold get. by rewrite lookup_union_r. Qed.

Lemma matches_union q upd d :
  upd !! q.1 = None → matches q (upd ∪ d) ↔ matches q d.
Proof. intros H. unfold matches. by rewrite get_union_other. Qed.

(** A filter on a field that [$set] does not name selects, after the
    update, the document it selected before, updated or not. *)
Lemma first_match_set_first q q' upd l d :
  upd !! q.1 = None →
  first_match q l = Some d →
  ∃ d1, first_match q (set_first q' upd l) = Some d1 ∧ (d1 = d ∨ d1 = upd ∪ d).
Proof.
  intros Hupd. induction l as [|x l IH]; [done|].
  rewrite first_match_cons. simpl. intros Hd.
  destruct (decide (matches q' x)).
  - rewrite first_match_cons.
    destruct (decide (matches q x)) as [Hx|Hx].
    + injection Hd as ->. rewrite decide_True by by apply matches_union. eauto.
    + rewrite decide_False by by rewrite matches_union. eauto.
  - rewrite first_match_cons.
    destruct (decide (matches q x)); [injection Hd as ->; eauto|by apply IH].
Qed.

(** In a well-formed collection the document found by any filter is
    the one that [update_one] reaches through its [_id]. *)
Lemma first_match_set_first_by_id q upd l d i :
  well_formed l →
  upd !! q.1 = None →
  first_match q l = Some d →
  d !! "_id" = Some i →
  first_match q (set_first ("_id", i) upd l) = Some (upd ∪ d).
Proof.
  intros [Hnd Hids] Hupd. induction l as [|x l IH]; [done|].
  rewrite first_match_cons. simpl. intros Hd Hi.
  unfold doc_ids in *. rewrite fmap_cons in *.
  apply NoDup_cons in Hnd as [Hx Hnd].
  apply not_elem_of_cons in Hids as [Hxid Hids].
  destruct (decide (matches q x)) as [Hqx|Hqx].
  - injection Hd as ->.
    rewrite decide_True by (unfold matches, get; simpl; by rewrite Hi).
    rewrite first_match_cons. by rewrite decide_True by by apply matches_union.
  - destruct (first_match_Some _ _ _ Hd) as [Hin _].
    rewrite decide_False; last first.
    { unfold matches, get; simpl. intros Heq. apply Hx.
      destruct (x !! "_id") as [j|] eqn:Hj; [|done]. simpl in Heq. subst j.
      rewrite <- Hi. by apply (list_elem_of_fmap_2 (λ d, d !! "_id")). }
    rewrite first_match_cons, decide_False by done. by apply IH.
Qed.

(** [update_one] keeps every document in its place and changes at
    most the named fields. *)
Lemma set_first_lookup q upd l n d :
  l !! n = Some d →
  ∃ d1, set_first q upd l !! n = Some d1 ∧ (d1 = d ∨ d1 = upd ∪ d).
Proof.
  revert n. induction l as [|x l IH]; intros n; [done|]. simpl.
  destruct (decide (matches q x)).
  - destruct n as [|n]; simpl; [intros [= ->]; eauto|eauto].
  - destruct n as [|n]; simpl; [intros [= ->]; eauto|by apply IH].
Qed.

Lemma set_first_length q upd l :
  Datatypes.length (set_first q upd l) = Datatypes.length l.
Proof.
  induction l as [|x l IH]; [done|]. simpl.
  case_decide; simpl; congruence.
Qed.

(** Two updates through the same id amount to one update. *)
Lemma set_first_twice q upd1 upd2 l :
  upd1 !! q.1 = None →
  set_first q upd2 (set_first q upd1 l) = set_first q (upd2 ∪ upd1) l.
Proof.
  intros Hupd. induction l as [|x l IH]; [done|]. simpl.
  destruct (decide (matches q x)) as [Hx|Hx]; simpl.
  - rewrite decide_True by by apply matches_union.
    by rewrite (assoc_L (∪)).
  - rewrite decide_False by done. by rewrite IH.
Qed.

Lemma set_first_forget q upd1 upd2 l :
  delete "updated_at" upd1 = delete "updated_at" upd2 →
  forget_updated_at (set_first q upd1 l) = forget_updated_at (set_first q upd2 l).
Proof.
  intros Hupd. unfold forget_updated_at.
  induction l as [|x l IH]; [done|]. cbn [set_first].
  case_decide; rewrite !fmap_cons; [|by rewrite IH].
  f_equal. apply map_eq. intros k.
  destruct (decide (k = "updated_at")) as [->|Hk].
  - by rewrite !lookup_delete_eq.
  - rewrite !lookup_delete_ne, !lookup_union by done.
    apply (f_equal (λ m : doc, m !! k)) in Hupd.
    rewrite !lookup_delete_ne in Hupd by done. by rewrite Hupd.
Qed.
End Documents.

(** ** Admin routes: empty payloads and failing lookups *)

(** C9. An admin update whose payload has no non-null field answers
    [{"status": "no_changes"}] for every id string, in every world, and
    the world is the one it started from: no call was made to the store
    and the user collection is what it was. *)
Theorem admin_update_user_no_changes (E : env) (uid : string)
    (payload : AdminUserUpdate.t) (admin : doc) (w : world) :
  (∀ k, not_provided (AdminUserUpdate.model_dump payload) k) →
  admin_update_user E uid payload admin w = (Ok (JStatus "no_changes"), w)
  ∧ calls (admin_update_user E uid payload admin w).2 = calls w
  ∧ collection "user" (admin_update_user E uid payload admin w).2
    = collection "user" w.
Proof.
  intros Hnone.
  assert (payload = AdminUserUpdate.Build None None None None) as ->.
  { destruct payload as [name email is_admin profile_slug].
    assert (opt_str name = VNone) as Hn by (apply (Hnone "name"); set_solver).
    assert (opt_str email = VNone) as He by (apply (Hnone "email"); set_solver).
    assert (opt_bool is_admin = VNone) as Ha
      by (apply (Hnone "is_admin"); set_solver).
    assert (opt_str profile_slug = VNone) as Hp
      by (apply (Hnone "profile_slug"); set_solver).
    by destruct name, email, is_admin, profile_slug. }
  by split.
Qed.

Lemma admin_update_user_no_changes_witness :
  admin_update_user Sample.E "not-an-id" (AdminUserUpdate.Build None None None None)
    Sample.admin Sample.w0
  = (Ok (JStatus "no_changes"), Sample.w0)
  ∧ calls (admin_update_user Sample.E "not-an-id"
             (AdminUserUpdate.Build None None None None) Sample.admin Sample.w0).2
    = calls Sample.w0
  ∧ collection "user"
      (admin_update_user Sample.E "not-an-id"
         (AdminUserUpdate.Build None None None None) Sample.admin Sample.w0).2
    = collection "user" Sample.w0.
Proof.
  apply (admin_update_user_no_changes Sample.E "not-an-id"
           (AdminUserUpdate.Build None None None None) Sample.admin Sample.w0).
  intros k v Hv. apply list_elem_of_In in Hv. simpl in Hv.
  destruct Hv as [Hv|[Hv|[Hv|[Hv|[]]]]]; by inversion Hv.
Defined.

(** C4, as the claim states it, fails: with the store out of reach the
    lookup of a well-formed id of an existing user is answered 404. *)
Lemma admin_get_user_store_failure_is_404 :
  raises Sample.E_down (calls Sample.w0) = true ∧
  (admin_get_user Sample.E_down Sample.jane_id Sample.admin Sample.w0).1
  = Raise (HTTPException 404 "User not found") ∧
  http_status
    (admin_get_user Sample.E_down Sample.jane_id Sample.admin Sample.w0).1 ≠ 400.
Proof. repeat split; by_computation. Qed.

(** What the three admin routes answer when the lookup of the id
    raises. *)
Lemma admin_lookup_raises (E : env) (uid : string) (admin : doc)
    (payload : AdminUserUpdate.t) (w : world) :
  db w = None ∨ parse_oid uid = None ∨ raises E (calls w) = true →
  dict_not_none (AdminUserUpdate.model_dump payload) ≠ ∅ →
  (admin_get_user E uid admin w).1 = Raise (HTTPException 404 "User not found")
  ∧ (admin_update_user E uid payload admin w).1
    = Raise (HTTPException 400 "Invalid user id")
  ∧ (admin_delete_user E uid admin w).1
    = Raise (HTTPException 400 "Invalid user id").
Proof.
  intros H Hne. split; [|split].
  - destruct (lookup_raises E (find_one E) uid w) as (e & w' & Hrun & _); [|done|].
    { intros c q w1 s Hdb Hr. unfold find_one. by apply call_fails with s. }
    unfold admin_get_user, bind at 1, try_except. by rewrite Hrun.
  - unfold admin_update_user. rewrite bool_decide_eq_false_2 by done.
    destruct (lookup_raises E (λ c q, update_one E c q
                (<["updated_at" := VDate (utcnow E (ticks w))]>
                   (dict_not_none (AdminUserUpdate.model_dump payload))))
                uid (tick w)) as (e & w' & Hrun & _); [|done|].
    { intros c q w1 s Hdb Hr. unfold update_one. by apply call_fails with s. }
    unfold bind at 1, now. unfold bind at 1, try_except. by rewrite Hrun.
  - destruct (lookup_raises E (delete_one E) uid w) as (e & w' & Hrun & _); [|done|].
    { intros c q w1 s Hdb Hr. unfold delete_one. by apply call_fails with s. }
    unfold admin_delete_user, bind at 1, try_except. by rewrite Hrun.
Qed.

(** C4, amended.  Whatever is raised while the id is looked up (the
    handle is unset, the id is malformed, the store fails), the admin
    single-user lookup answers 404 "User not found"; it is the update
    with a non-empty payload and the delete that answer 400 "Invalid
    user id". *)
Theorem admin_lookup_failure_status (E : env) (uid : string) (admin : doc)
    (payload : AdminUserUpdate.t) (w : world) :
  db w = None ∨ parse_oid uid = None ∨ raises E (calls w) = true →
  dict_not_none (AdminUserUpdate.model_dump payload) ≠ ∅ →
  http_status (admin_get_user E uid admin w).1 = 404
  ∧ (admin_get_user E uid admin w).1 = Raise (HTTPException 404 "User not found")
  ∧ (admin_update_user E uid payload admin w).1
    = Raise (HTTPException 400 "Invalid user id")
  ∧ (admin_delete_user E uid admin w).1
    = Raise (HTTPException 400 "Invalid user id").
Proof.
  intros H Hne.
  destruct (admin_lookup_raises E uid admin payload w H Hne) as (Hget & Hrest).
  split; [by rewrite Hget|]. by split.
Qed.

Lemma admin_lookup_failure_status_witness :
  http_status
    (admin_get_user Sample.E_down Sample.jane_id Sample.admin Sample.w0).1 = 404
  ∧ (admin_get_user Sample.E_down Sample.jane_id Sample.admin Sample.w0).1
    = Raise (HTTPException 404 "User not found")
  ∧ (admin_update_user Sample.E_down Sample.jane_id
       (AdminUserUpdate.Build (Some "J") None None None) Sample.admin Sample.w0).1
    = Raise (HTTPException 400 "Invalid user id")
  ∧ (admin_delete_user Sample.E_down Sample.jane_id Sample.admin Sample.w0).1
    = Raise (HTTPException 400 "Invalid user id").
Proof.
  apply (admin_lookup_failure_status Sample.E_down Sample.jane_id Sample.admin
           (AdminUserUpdate.Build (Some "J") None None None) Sample.w0).
  - right; right; reflexivity.
  - by_computation.
Defined.

(** ** Deleting a social link *)

(** C10. A path id that is not the text of an [ObjectId] makes
    [delete_social_link] raise [InvalidId] out of the handler (a 500),
    not the 404 of a missing link, and nothing is sent to the store;
    the admin routes catch the same failure and answer 404 or 400. *)
Theorem delete_social_link_malformed_id (E : env) (sid : string) (user admin : doc)
    (payload : AdminUserUpdate.t) (w : world) (s : store) :
  parse_oid sid = None →
  db w = Some s →
  dict_not_none (AdminUserUpdate.model_dump payload) ≠ ∅ →
  delete_social_link E sid user w = (Raise InvalidId, w)
  ∧ http_status (delete_social_link E sid user w).1 = 500
  ∧ http_status (admin_get_user E sid admin w).1 = 404
  ∧ http_status (admin_update_user E sid payload admin w).1 = 400
  ∧ http_status (admin_delete_user E sid admin w).1 = 400.
Proof.
  intros Hsid Hdb Hne.
  assert (delete_social_link E sid user w = (Raise InvalidId, w)) as Hrun.
  { unfold delete_social_link, bind.
    by rewrite (getitem_run _ _ _ Hdb), (ObjectId_str_invalid _ _ _ Hsid). }
  destruct (admin_lookup_raises E sid admin payload w)
    as (Hget & Hupd & Hdel); [by right; left|done|].
  by rewrite Hrun, Hget, Hupd, Hdel.
Qed.

Lemma delete_social_link_malformed_id_witness :
  delete_social_link Sample.E "not-an-id" Sample.jane Sample.w0
  = (Raise InvalidId, Sample.w0)
  ∧ http_status (delete_social_link Sample.E "not-an-id" Sample.jane Sample.w0).1 = 500
  ∧ http_status (admin_get_user Sample.E "not-an-id" Sample.admin Sample.w0).1 = 404
  ∧ http_status
      (admin_update_user Sample.E "not-an-id"
         (AdminUserUpdate.Build None None (Some true) None)
         Sample.admin Sample.w0).1 = 400
  ∧ http_status (admin_delete_user Sample.E "not-an-id" Sample.admin Sample.w0).1 = 400.
Proof.
  apply (delete_social_link_malformed_id Sample.E "not-an-id" Sample.jane
           Sample.admin (AdminUserUpdate.Build None None (Some true) None)
           Sample.w0 Sample.s0).
  - reflexivity.
  - reflexivity.
  - by_computation.
Defined.

(** C7, as the claim states it, fails on an id that is not the text of
    an [ObjectId]: no link of the store is listed under ["not-an-id"],
    yet deleting it is answered by [InvalidId], a 500, whereas deleting
    a link of another user is answered 404. *)
Lemma delete_social_link_missing_id_is_500 :
  ("not-an-id"
   ∉ (λ d, py_str Sample.E (get d "_id")) <$> (Sample.s0 !!! "sociallink"))
  ∧ (delete_social_link Sample.E "not-an-id" Sample.jane Sample.w0).1
    = Raise InvalidId
  ∧ http_status (delete_social_link Sample.E "not-an-id" Sample.jane Sample.w0).1
    = 500
  ∧ (delete_social_link Sample.E Sample.admin_link_id Sample.jane Sample.w0).1
    = Raise (HTTPException 404 "Not found")
  ∧ (delete_social_link Sample.E "not-an-id" Sample.jane Sample.w0).1
    ≠ (delete_social_link Sample.E Sample.admin_link_id Sample.jane Sample.w0).1.
Proof. repeat apply conj; by_computation. Qed.

(** C7, amended.  For a well-formed link id (the text of an
    [ObjectId]) and a store that answers the lookup, a link owned by
    somebody else and a link that is not in the store get the very same
    answer, 404 "Not found" (never 403); the handler has made its one
    lookup and the collections are what they were. *)
Theorem delete_social_link_foreign_as_missing (E : env) (sid : string) (user : doc)
    (w : world) (s : store) (o : oid) :
  db w = Some s →
  raises E (calls w) = false →
  parse_oid sid = Some o →
  first_match ("_id", VOid o) (s !!! "sociallink") = None
  ∨ (∃ d, first_match ("_id", VOid o) (s !!! "sociallink") = Some d
          ∧ get d "user_id" ≠ uid_of E user) →
  delete_social_link E sid user w
  = (Raise (HTTPException 404 "Not found"), called w)
  ∧ db (called w) = Some s.
Proof.
  intros Hdb Hr Ho Hcase. split; [|done].
  unfold delete_social_link, bind.
  rewrite (getitem_run _ _ _ Hdb), (ObjectId_str_run _ _ _ _ Ho).
  rewrite (find_one_run _ _ _ _ _ Hdb Hr).
  destruct Hcase as [-> | (d & -> & Hne)]; [done|].
  rewrite (bool_decide_eq_false_2 _ Hne). simpl.
  by rewrite orb_true_r.
Qed.

Lemma delete_social_link_foreign_as_missing_witness :
  (delete_social_link Sample.E Sample.admin_link_id Sample.jane Sample.w0
   = (Raise (HTTPException 404 "Not found"), called Sample.w0)
   ∧ db (called Sample.w0) = Some Sample.s0)
  ∧ (delete_social_link Sample.E "5f00000000000000000000ff" Sample.jane Sample.w0
     = (Raise (HTTPException 404 "Not found"), called Sample.w0)
     ∧ db (called Sample.w0) = Some Sample.s0).
Proof.
  split.
  - apply (delete_social_link_foreign_as_missing Sample.E Sample.admin_link_id
             Sample.jane Sample.w0 Sample.s0 (Oid Sample.admin_link_id)).
    + reflexivity.
    + reflexivity.
    + reflexivity.
    + right. exists Sample.admin_link. split; by_computation.
  - apply (delete_social_link_foreign_as_missing Sample.E "5f00000000000000000000ff"
             Sample.jane Sample.w0 Sample.s0 (Oid "5f00000000000000000000ff")).
    + reflexivity.
    + reflexivity.
    + reflexivity.
    + left. by_computation.
Defined.

(** ** The profile bundle *)

(** C8. When the slug names a user and no profile document carries that
    user's id, the assembler returns a bundle (it raises nothing) whose
    five profile fields are all [None]; the user part is the serialized
    user and the store is left as it was. *)
Theorem fetch_profile_bundle_without_profile (E : env) (slug : string) (w : world)
    (s : store) (u : doc) :
  db w = Some s →
  healthy E →
  first_match ("profile_slug", VStr slug) (s !!! "user") = Some u →
  first_match ("user_id", uid_of E u) (s !!! "profile") = None →
  ∃ b w',
    fetch_profile_bundle_by_slug E slug w = (Ok (Some b), w')
    ∧ Bundle.profile b = Profile.Build VNone VNone VNone VNone VNone
    ∧ Bundle.user b = serialize_user E u
    ∧ db w' = Some s.
Proof.
  intros Hdb Hh Hu Hp.
  assert (u ≠ ∅) as Hne.
  { destruct (first_match_Some _ _ _ Hu) as [_ Hslug]. intros ->.
    unfold matches, get in Hslug. by rewrite lookup_empty in Hslug. }
  unfold fetch_profile_bundle_by_slug, bind.
  rewrite (getitem_run _ _ _ Hdb), (find_one_run _ _ _ _ _ Hdb (Hh _)), Hu.
  simpl. rewrite (bool_decide_eq_false_2 _ Hne). simpl.
  rewrite (getitem_run _ (called w) s Hdb),
    (find_one_run _ _ _ (called w) s Hdb (Hh _)), Hp.
  rewrite (getitem_run _ (called (called w)) s Hdb),
    (find_run _ _ _ (called (called w)) s Hdb (Hh _)).
  eexists _, _. split; [reflexivity|]. done.
Qed.

Lemma fetch_profile_bundle_without_profile_witness :
  ∃ b w',
    fetch_profile_bundle_by_slug Sample.E "anon" Sample.w0 = (Ok (Some b), w')
    ∧ Bundle.profile b = Profile.Build VNone VNone VNone VNone VNone
    ∧ Bundle.user b = serialize_user Sample.E Sample.anon
    ∧ db w' = Some Sample.s0.
Proof.
  apply (fetch_profile_bundle_without_profile Sample.E "anon" Sample.w0
           Sample.s0 Sample.anon).
  - reflexivity.
  - intros n; reflexivity.
  - by_computation.
  - by_computation.
Defined.

(** ** The vCard *)

(** For a bundle whose user name is a [str], the endpoint answers with
    the joined lines and the name with its spaces replaced. *)
Lemma get_vcard_run (E : env) (slug : string) (w w' : world) (b : Bundle.t) (n : string) :
  fetch_profile_bundle_by_slug E slug w = (Ok (Some b), w') →
  User.name (Bundle.user b) = VStr n →
  get_vcard E slug w
  = (Ok {| body := [join CRLF (vcard_lines E b)];
           media_type := "text/vcard";
           headers := [("Content-Disposition",
                        "attachment; filename=" +:+ replace " " "_" n +:+ ".vcf")] |},
     w').
Proof.
  intros Hb Hn. unfold get_vcard, bind, vcard_filename. by rewrite Hb, Hn.
Qed.

(** C1. The bundle of Jane Doe at Acme, with her phone, her e-mail and
    a single "website" link, is served as the ten expected lines joined
    by CRLF, under the file name [Jane_Doe.vcf]. *)
Theorem get_vcard_jane_doe (E : env) (slug : string) (w w' : world) (b : Bundle.t)
    (link_id : string) :
  fetch_profile_bundle_by_slug E slug w = (Ok (Some b), w') →
  User.name (Bundle.user b) = VStr "Jane Doe" →
  User.email (Bundle.user b) = VStr "jane@acme.com" →
  Profile.company (Bundle.profile b) = VStr "Acme" →
  Profile.job_title (Bundle.profile b) = VStr "Engineer" →
  Profile.phone_number (Bundle.profile b) = VStr "+1 555" →
  Bundle.social_links b
  = [Link.Build link_id (VStr "website") (VStr "https://j.example")] →
  get_vcard E slug w
  = (Ok {| body :=
             [join CRLF
                ["BEGIN:VCARD";
                 "VERSION:3.0";
                 "N:Jane Doe;";
                 "FN:Jane Doe";
                 "ORG:Acme";
                 "TITLE:Engineer";
                 "TEL;TYPE=CELL:+1 555";
                 "EMAIL;TYPE=INTERNET:jane@acme.com";
                 "URL:https://j.example";
                 "END:VCARD"]];
           media_type := "text/vcard";
           headers := [("Content-Disposition",
                        "attachment; filename=Jane_Doe.vcf")] |},
     w').
Proof.
  intros Hb Hname Hemail Hcompany Htitle Hphone Hlinks.
  rewrite (get_vcard_run E slug w w' b "Jane Doe" Hb Hname).
  unfold vcard_lines. rewrite Hname, Hemail, Hcompany, Htitle, Hphone, Hlinks.
  reflexivity.
Qed.

Lemma get_vcard_jane_doe_witness :
  get_vcard Sample.E "jane" Sample.w0
  = (Ok {| body :=
             [join CRLF
                ["BEGIN:VCARD";
                 "VERSION:3.0";
                 "N:Jane Doe;";
                 "FN:Jane Doe";
                 "ORG:Acme";
                 "TITLE:Engineer";
                 "TEL;TYPE=CELL:+1 555";
                 "EMAIL;TYPE=INTERNET:jane@acme.com";
                 "URL:https://j.example";
                 "END:VCARD"]];
           media_type := "text/vcard";
           headers := [("Content-Disposition",
                        "attachment; filename=Jane_Doe.vcf")] |},
     called (called (called Sample.w0))).
Proof.
  apply (get_vcard_jane_doe Sample.E "jane" Sample.w0
           (called (called (called Sample.w0)))
           (Bundle.Build
              (User.Build Sample.jane_id (VStr "Jane Doe") (VStr "jane@acme.com")
                 false (VStr "jane"))
              (Profile.Build (VStr "Engineer") (VStr "Acme") (VStr "+1 555")
                 (VStr "Hello") VNone)
              [Link.Build Sample.jane_link_id (VStr "website")
                 (VStr "https://j.example")])
           Sample.jane_link_id).
  - by_computation.
  - reflexivity.
  - reflexivity.
  - reflexivity.
  - reflexivity.
  - reflexivity.
  - reflexivity.
Defined.

(** C5, on the code.  For the user whose name is the empty string the
    endpoint answers with the file name [.vcf]: the name is always a key
    of the serialized user, so the default of
    [get('name', 'contact')] is never taken. *)
Theorem get_vcard_empty_name_filename :
  User.name (serialize_user Sample.E Sample.anon) = VStr ""
  ∧ (get_vcard Sample.E "anon" Sample.w0).1
    = Ok {| body :=
              [join CRLF
                 ["BEGIN:VCARD";
                  "VERSION:3.0";
                  "N:;";
                  "FN:";
                  "ORG:";
                  "TITLE:";
                  "EMAIL;TYPE=INTERNET:anon@acme.com";
                  "END:VCARD"]];
            media_type := "text/vcard";
            headers := [("Content-Disposition", "attachment; filename=.vcf")] |}.
Proof. split; by_computation. Qed.

(** ** Deleting a user *)

Section Cascade.
Context (E : env).

Lemma lookup_total_alter_nil (f : list doc → list doc) (c c' : string) (s : store) :
  f [] = [] →
  alter f c s !!! c' = if decide (c = c') then f (s !!! c') else s !!! c'.
Proof.
  intros Hf. rewrite lookup_total_alter. case_decide; [subst c'|done].
  rewrite lookup_total_alt. by destruct (s !! c).
Qed.

Lemma first_match_count q l : count_first q l = 0 ↔ first_match q l = None.
Proof. unfold count_first. by destruct (first_match q l). Qed.

(** What [admin_delete_user] does once the id is well formed and the
    store answers its three calls. *)
Lemma admin_delete_user_run uid admin w s o :
  db w = Some s →
  parse_oid uid = Some o →
  raises E (calls w) = false →
  raises E (S (calls w)) = false →
  raises E (S (S (calls w))) = false →
  first_match ("_id", VOid o) (s !!! "user") ≠ None →
  admin_delete_user E uid admin w
  = (Ok (JStatus "deleted"),
     World
       (Some (alter (drop_all ("user_id", VStr uid)) "sociallink"
                (alter (drop_all ("user_id", VStr uid)) "profile"
                   (alter (drop_first ("_id", VOid o)) "user" s))))
       (ticks w) (made w) (S (S (S (calls w))))).
Proof.
  intros Hdb Ho H0 H1 H2 Hfound.
  unfold admin_delete_user, bind at 1, try_except, bind at 1.
  rewrite (getitem_run _ _ _ Hdb). unfold bind at 1.
  rewrite (ObjectId_str_run _ _ _ _ Ho).
  unfold delete_one at 1. rewrite (call_run _ _ _ _ Hdb H0).
  rewrite bool_decide_eq_false_2 by by rewrite first_match_count.
  destruct w as [d t m n]; simpl in *; subst d.
  unfold bind, getitem, delete_many, call; simpl.
  rewrite H1; simpl. by rewrite H2.
Qed.

(** A successful [admin_delete_user] went through those steps. *)
Lemma admin_delete_user_inv uid admin w r :
  (admin_delete_user E uid admin w).1 = Ok r →
  ∃ s o, db w = Some s ∧ parse_oid uid = Some o
         ∧ raises E (calls w) = false
         ∧ raises E (S (calls w)) = false
         ∧ raises E (S (S (calls w))) = false
         ∧ first_match ("_id", VOid o) (s !!! "user") ≠ None.
Proof.
  intros Hok.
  destruct (db w) as [s|] eqn:Hdb; last first.
  { destruct (admin_lookup_raises E uid admin
                (AdminUserUpdate.Build (Some "") None None None) w)
      as (_ & _ & Hdel); [by left|done|congruence]. }
  destruct (parse_oid uid) as [o|] eqn:Ho; last first.
  { destruct (admin_lookup_raises E uid admin
                (AdminUserUpdate.Build (Some "") None None None) w)
      as (_ & _ & Hdel); [by right; left|done|congruence]. }
  destruct (raises E (calls w)) eqn:H0.
  { destruct (admin_lookup_raises E uid admin
                (AdminUserUpdate.Build (Some "") None None None) w)
      as (_ & _ & Hdel); [by right; right|done|congruence]. }
  exists s, o. repeat split; try done.
  - revert Hok.
    unfold admin_delete_user, bind at 1, try_except, bind at 1.
    rewrite (getitem_run _ _ _ Hdb). unfold bind at 1.
    rewrite (ObjectId_str_run _ _ _ _ Ho).
    unfold delete_one at 1. rewrite (call_run _ _ _ _ Hdb H0).
    case_bool_decide; [done|].
    destruct w as [d t m n]; simpl in *; subst d.
    unfold bind, getitem, delete_many, call; simpl.
    by destruct (raises E (S n)).
  - revert Hok.
    unfold admin_delete_user, bind at 1, try_except, bind at 1.
    rewrite (getitem_run _ _ _ Hdb). unfold bind at 1.
    rewrite (ObjectId_str_run _ _ _ _ Ho).
    unfold delete_one at 1. rewrite (call_run _ _ _ _ Hdb H0).
    case_bool_decide; [done|].
    destruct w as [d t m n]; simpl in *; subst d.
    unfold bind, getitem, delete_many, call; simpl.
    destruct (raises E (S n)); [done|]. simpl.
    by destruct (raises E (S (S n))).
  - intros Hnone. revert Hok.
    unfold admin_delete_user, bind at 1, try_except, bind at 1.
    rewrite (getitem_run _ _ _ Hdb). unfold bind at 1.
    rewrite (ObjectId_str_run _ _ _ _ Ho).
    unfold delete_one at 1. rewrite (call_run _ _ _ _ Hdb H0).
    by rewrite bool_decide_eq_true_2 by by rewrite first_match_count.
Qed.
End Cascade.

(** What a successful [admin_delete_user] removes, in terms of the
    text [uid] of the path: the profile and social-link collections lose
    exactly the documents whose [user_id] is that text and keep all the
    others, in order and unchanged; the user collection loses the one
    user whose [_id] is the [ObjectId] that the text denotes; no other
    collection is touched. *)
Theorem admin_delete_user_cascade (E : env) (uid : string) (admin : doc)
    (w : world) (r : json) :
  (admin_delete_user E uid admin w).1 = Ok r →
  ∃ s s' o,
    db w = Some s
    ∧ db (admin_delete_user E uid admin w).2 = Some s'
    ∧ parse_oid uid = Some o
    ∧ r = JStatus "deleted"
    ∧ s' !!! "profile"
      = filter (λ d, get d "user_id" ≠ VStr uid) (s !!! "profile")
    ∧ s' !!! "sociallink"
      = filter (λ d, get d "user_id" ≠ VStr uid) (s !!! "sociallink")
    ∧ s' !!! "user" = drop_first ("_id", VOid o) (s !!! "user")
    ∧ ∀ c, c ∉ ["user"; "profile"; "sociallink"] → s' !! c = s !! c.
Proof.
  intros Hok.
  destruct (admin_delete_user_inv E uid admin w r Hok)
    as (s & o & Hdb & Ho & H0 & H1 & H2 & Hfound).
  rewrite (admin_delete_user_run E uid admin w s o Hdb Ho H0 H1 H2 Hfound) in Hok |- *.
  simpl in Hok. injection Hok as <-.
  eexists s, _, o. split; [done|]. split; [reflexivity|].
  split; [done|]. split; [done|].
  rewrite !lookup_total_alter_nil by done. simpl.
  repeat split.
  intros c Hc. rewrite !lookup_alter_ne; [done|set_solver..].
Qed.

Lemma admin_delete_user_cascade_witness :
  ∃ s s' o,
    db Sample.w0 = Some s
    ∧ db (admin_delete_user Sample.E Sample.jane_id Sample.admin Sample.w0).2 = Some s'
    ∧ parse_oid Sample.jane_id = Some o
    ∧ JStatus "deleted" = JStatus "deleted"
    ∧ s' !!! "profile"
      = filter (λ d, get d "user_id" ≠ VStr Sample.jane_id) (s !!! "profile")
    ∧ s' !!! "sociallink"
      = filter (λ d, get d "user_id" ≠ VStr Sample.jane_id) (s !!! "sociallink")
    ∧ s' !!! "user" = drop_first ("_id", VOid o) (s !!! "user")
    ∧ ∀ c, c ∉ ["user"; "profile"; "sociallink"] → s' !! c = s !! c.
Proof.
  apply (admin_delete_user_cascade Sample.E Sample.jane_id Sample.admin Sample.w0
           (JStatus "deleted")).
  by_computation.
Defined.

(** ** Updating a profile *)

Section Payloads.
Implicit Types (items : list (string * value)) (p : ProfileUpdate.t).

Lemma dict_not_none_Some items k v :
  NoDup items.*1 → dict_not_none items !! k = Some v ↔ provided items k v.
Proof.
  intros Hnd. unfold dict_not_none, provided.
  rewrite <- elem_of_list_to_map, list_elem_of_filter.
  - simpl. tauto.
  - eapply sublist_NoDup; [done|]. apply fmap_sublist, sublist_filter.
Qed.

Lemma dict_not_none_None items k :
  dict_not_none items !! k = None ↔ not_provided items k.
Proof.
  unfold dict_not_none, not_provided.
  rewrite <- not_elem_of_list_to_map, list_elem_of_fmap. split.
  - intros Hk v Hv. destruct (decide (v = VNone)) as [|Hne]; [done|].
    destruct Hk. exists (k, v). split; [done|]. by apply list_elem_of_filter.
  - intros Hk ([k' v] & -> & [Hne Hin]%list_elem_of_filter). simpl in *.
    by apply Hne, Hk.
Qed.

Lemma model_dump_key p k v :
  (k, v) ∈ ProfileUpdate.model_dump p →
  k ∈ ["job_title"; "company"; "phone_number"; "bio"].
Proof. intros H. by apply (list_elem_of_fmap_2 fst) in H. Qed.

(** A name that is not a field of the model is not provided. *)
Lemma not_a_field p k :
  k ∉ ["job_title"; "company"; "phone_number"; "bio"] →
  not_provided (ProfileUpdate.model_dump p) k.
Proof. intros Hk v Hv. by apply model_dump_key in Hv. Qed.

Lemma profile_update_doc_provided p t k v :
  provided (ProfileUpdate.model_dump p) k v → profile_update_doc p t !! k = Some v.
Proof.
  intros Hp. unfold profile_update_doc.
  rewrite lookup_insert_ne.
  - apply dict_not_none_Some; [|done].
    simpl. by_computation.
  - destruct Hp as [Hin%model_dump_key _]. intros <-.
    revert Hin. by_computation.
Qed.

Lemma profile_update_doc_not_provided p t k :
  not_provided (ProfileUpdate.model_dump p) k → k ≠ "updated_at" →
  profile_update_doc p t !! k = None.
Proof.
  intros Hp Hk. unfold profile_update_doc.
  rewrite lookup_insert_ne by done. by apply dict_not_none_None.
Qed.

Lemma profile_update_doc_updated_at p t :
  profile_update_doc p t !! "updated_at" = Some (VDate t).
Proof. apply lookup_insert_eq. Qed.
End Payloads.

Section UpdateProfile.
Context (E : env).
Implicit Types (payload : ProfileUpdate.t) (user d : doc) (w : world) (s : store).

Lemma profile_update_doc_no_id payload t : profile_update_doc payload t !! "_id" = None.
Proof.
  apply profile_update_doc_not_provided; [|done].
  apply not_a_field. by_computation.
Qed.

Lemma profile_update_doc_no_user_id payload t :
  profile_update_doc payload t !! "user_id" = None.
Proof.
  apply profile_update_doc_not_provided; [|done].
  apply not_a_field. by_computation.
Qed.

(** The profile exists: one [$set] through its [_id]. *)
Lemma update_profile_run_existing payload user w s d i :
  db w = Some s →
  raises E (calls w) = false →
  raises E (S (calls w)) = false →
  first_match ("user_id", uid_of E user) (s !!! "profile") = Some d →
  d !! "_id" = Some i →
  update_profile E payload user w
  = (Ok (JStatus "ok"),
     World
       (Some (alter (set_first ("_id", i)
                       (profile_update_doc payload (utcnow E (ticks w))))
                "profile" s))
       (S (ticks w)) (made w) (S (S (calls w)))).
Proof.
  intros Hdb H0 H1 Hd Hi.
  assert (d ≠ ∅) as Hne by (intros ->; by rewrite lookup_empty in Hi).
  destruct w as [o t m n]; simpl in *; subst o.
  unfold update_profile, bind, now, getitem, find_one, call; simpl.
  rewrite H0, Hd. simpl. rewrite (bool_decide_eq_false_2 _ Hne). simpl.
  unfold subscript. rewrite Hi. unfold ret at 1.
  unfold update_one, call; simpl. by rewrite H1.
Qed.

(** The profile that is found has no [_id]: [existing["_id"]] raises
    and nothing is written. *)
Lemma update_profile_run_no_id payload user w s d :
  db w = Some s →
  raises E (calls w) = false →
  first_match ("user_id", uid_of E user) (s !!! "profile") = Some d →
  d ≠ ∅ →
  d !! "_id" = None →
  update_profile E payload user w
  = (Raise KeyError, World (Some s) (S (ticks w)) (made w) (S (calls w))).
Proof.
  intros Hdb H0 Hd Hne Hi.
  destruct w as [o t m n]; simpl in *; subst o.
  unfold update_profile, bind, now, getitem, find_one, call; simpl.
  rewrite H0, Hd. simpl. rewrite (bool_decide_eq_false_2 _ Hne). simpl.
  unfold subscript. by rewrite Hi.
Qed.

(** No profile yet: one insert at the end of the collection. *)
Lemma update_profile_run_create payload user w s :
  db w = Some s →
  raises E (calls w) = false →
  raises E (S (calls w)) = false →
  first_match ("user_id", uid_of E user) (s !!! "profile") = None →
  Some (VOid (new_oid E (made w))) ∉ doc_ids (s !!! "profile") →
  update_profile E payload user w
  = (Ok (JStatus "ok"),
     World
       (Some (<["profile" := (s !!! "profile") ++ [created_profile E payload user w]]> s))
       (S (ticks w)) (S (made w)) (S (S (calls w)))).
Proof.
  intros Hdb H0 H1 Hd Hfresh.
  destruct w as [o t m n]; simpl in *; subst o.
  unfold update_profile, bind, now, getitem, find_one, call; simpl.
  rewrite H0, Hd. simpl.
  unfold insert_one, bind, with_id.
  fold (profile_update_doc payload (utcnow E t)).
  do 2 rewrite lookup_insert_ne by done.
  rewrite profile_update_doc_no_id.
  unfold bind, generate, ret, call, store_insert; simpl.
  rewrite H1, lookup_insert_eq.
  by rewrite (bool_decide_eq_false_2 _ Hfresh).
Qed.
End UpdateProfile.

Section CreatedProfile.
Context (E : env).
Implicit Types (payload : ProfileUpdate.t) (user : doc) (w : world).

Lemma created_profile_user_id payload user w :
  created_profile E payload user w !! "user_id" = Some (uid_of E user).
Proof.
  unfold created_profile.
  by rewrite !lookup_insert_ne, lookup_insert_eq by done.
Qed.

Lemma created_profile_created_at payload user w :
  created_profile E payload user w !! "created_at"
  = Some (VDate (utcnow E (ticks w))).
Proof.
  unfold created_profile.
  by rewrite lookup_insert_ne, lookup_insert_eq by done.
Qed.

Lemma created_profile_other payload user w k :
  k ∉ ["user_id"; "created_at"; "_id"] →
  created_profile E payload user w !! k
  = profile_update_doc payload (utcnow E (ticks w)) !! k.
Proof.
  intros Hk. unfold created_profile.
  apply not_elem_of_cons in Hk as [? Hk].
  apply not_elem_of_cons in Hk as [? Hk].
  apply not_elem_of_cons in Hk as [? _].
  by rewrite !lookup_insert_ne.
Qed.

Lemma field_not_reserved payload k v :
  (k, v) ∈ ProfileUpdate.model_dump payload →
  k ∉ ["user_id"; "created_at"; "_id"].
Proof.
  intros Hin%model_dump_key. revert Hin.
  rewrite !elem_of_cons, elem_of_nil.
  intros [->|[->|[->|[->|[]]]]]; by_computation.
Qed.

Lemma not_reserved k :
  k ∉ ["updated_at"; "user_id"; "created_at"; "_id"] →
  k ≠ "updated_at" ∧ k ∉ ["user_id"; "created_at"; "_id"].
Proof. by intros [? ?]%not_elem_of_cons. Qed.
End CreatedProfile.

(** C3. On a healthy store whose profile collection is well formed,
    [update_profile] answers [{"status": "ok"}] and the profile then
    found for the acting user has: every field provided with a non-null
    value (the empty string included) set to that value, and
    [updated_at] set to the time of the call.  When a profile existed,
    no document is added and every field that was not provided, or
    provided as null, is what it was; when none existed, one document is
    appended, owned by the acting user, stamped [created_at], and
    without the fields that were not provided. *)
Theorem update_profile_effect (E : env) (payload : ProfileUpdate.t) (user : doc)
    (w : world) (s : store) :
  db w = Some s →
  healthy E →
  well_formed (s !!! "profile") →
  Some (VOid (new_oid E (made w))) ∉ doc_ids (s !!! "profile") →
  let items := ProfileUpdate.model_dump payload in
  let uid := uid_of E user in
  let t := utcnow E (ticks w) in
  ∃ w' s' d',
    update_profile E payload user w = (Ok (JStatus "ok"), w')
    ∧ db w' = Some s'
    ∧ first_match ("user_id", uid) (s' !!! "profile") = Some d'
    ∧ (∀ k v, provided items k v → d' !! k = Some v)
    ∧ d' !! "updated_at" = Some (VDate t)
    ∧ match first_match ("user_id", uid) (s !!! "profile") with
      | Some d =>
          Datatypes.length (s' !!! "profile") = Datatypes.length (s !!! "profile")
          ∧ ∀ k, not_provided items k → k ≠ "updated_at" → d' !! k = d !! k
      | None =>
          s' !!! "profile" = (s !!! "profile") ++ [d']
          ∧ d' !! "user_id" = Some uid
          ∧ d' !! "created_at" = Some (VDate t)
          ∧ ∀ k, not_provided items k →
                 k ∉ ["updated_at"; "user_id"; "created_at"; "_id"] →
                 d' !! k = None
      end.
Proof.
  intros Hdb Hh Hwf Hfresh items uid t.
  destruct (first_match ("user_id", uid) (s !!! "profile")) as [d|] eqn:Hd.
  - destruct (first_match_Some _ _ _ Hd) as [Hin _].
    destruct (d !! "_id") as [i|] eqn:Hi; last first.
    { destruct Hwf as [_ []]. rewrite <- Hi.
      by apply (list_elem_of_fmap_2 (λ d, d !! "_id")). }
    eexists _, _, (profile_update_doc payload t ∪ d).
    split; [by apply update_profile_run_existing with d|].
    split; [reflexivity|].
    rewrite lookup_total_alter_nil, decide_True by done.
    split.
    { apply first_match_set_first_by_id; [done| |done..].
      apply profile_update_doc_no_user_id. }
    split.
    { intros k v Hp. by apply lookup_union_Some_l, profile_update_doc_provided. }
    split.
    { apply lookup_union_Some_l, profile_update_doc_updated_at. }
    split; [apply set_first_length|].
    intros k Hp Hk. by apply lookup_union_r, profile_update_doc_not_provided.
  - eexists _, _, (created_profile E payload user w).
    split; [by apply update_profile_run_create|].
    split; [reflexivity|].
    rewrite lookup_total_insert_eq.
    split.
    { apply first_match_snoc; [done|].
      unfold matches, get; simpl. by rewrite created_profile_user_id. }
    split.
    { intros k v Hp. rewrite created_profile_other.
      - by apply profile_update_doc_provided.
      - destruct Hp as [Hin _]. by apply field_not_reserved in Hin. }
    split.
    { rewrite created_profile_other; [apply profile_update_doc_updated_at|].
      by_computation. }
    split; [done|].
    split; [apply created_profile_user_id|].
    split; [apply created_profile_created_at|].
    intros k Hp [Hk Hk']%not_reserved. rewrite created_profile_other by done.
    by apply profile_update_doc_not_provided.
Qed.

Lemma update_profile_effect_witness :
  ∃ w' s' d',
    update_profile Sample.E
      (ProfileUpdate.Build None (Some "Initech") None (Some "")) Sample.jane Sample.w0
    = (Ok (JStatus "ok"), w')
    ∧ db w' = Some s'
    ∧ first_match ("user_id", VStr Sample.jane_id) (s' !!! "profile") = Some d'
    ∧ d' !! "company" = Some (VStr "Initech")
    ∧ d' !! "bio" = Some (VStr "")
    ∧ d' !! "job_title" = Sample.jane_profile !! "job_title"
    ∧ d' !! "updated_at" = Some (VDate 1704067200).
Proof.
  destruct (update_profile_effect Sample.E
              (ProfileUpdate.Build None (Some "Initech") None (Some ""))
              Sample.jane Sample.w0 Sample.s0)
    as (w' & s' & d' & Hrun & Hdb & Hfound & Hprov & Hupd & Hrest).
  - reflexivity.
  - intros n; reflexivity.
  - split; by_computation.
  - by_computation.
  - assert (first_match ("user_id", uid_of Sample.E Sample.jane)
              (Sample.s0 !!! "profile") = Some Sample.jane_profile) as Hjane
      by by_computation.
    rewrite Hjane in Hrest. destruct Hrest as [_ Hkeep].
    exists w', s', d'. repeat split; try done.
    + apply Hprov. split; [|done]. by_computation.
    + apply Hprov. split; [|done]. by_computation.
    + apply Hkeep; [|done]. intros v Hv.
      apply list_elem_of_In in Hv. simpl in Hv.
      destruct Hv as [Hv|[Hv|[Hv|[Hv|[]]]]]; by inversion Hv.
Defined.

(** ** Updating a profile twice *)

Section Twice.
Context (E : env).
Implicit Types (payload : ProfileUpdate.t) (user d : doc) (w : world) (s : store).

(** The later [update_doc] overrides the earlier one entirely. *)
Lemma profile_update_doc_union payload t1 t2 :
  profile_update_doc payload t2 ∪ profile_update_doc payload t1
  = profile_update_doc payload t2.
Proof.
  apply map_eq. intros k. unfold profile_update_doc. rewrite lookup_union.
  destruct (decide (k = "updated_at")) as [->|Hk].
  - by rewrite !lookup_insert_eq.
  - rewrite !lookup_insert_ne by done.
    by destruct (dict_not_none (ProfileUpdate.model_dump payload) !! k).
Qed.

Lemma profile_update_doc_forget payload t1 t2 :
  delete "updated_at" (profile_update_doc payload t1)
  = delete "updated_at" (profile_update_doc payload t2).
Proof. unfold profile_update_doc. by rewrite !delete_insert_eq. Qed.

(** A field that the payload does not provide is the same in [d] and
    in [d] after [$set]. *)
Lemma untouched_field payload t d d1 k :
  d1 = d ∨ d1 = profile_update_doc payload t ∪ d →
  not_provided (ProfileUpdate.model_dump payload) k →
  k ≠ "updated_at" →
  d1 !! k = d !! k.
Proof.
  intros [->| ->] Hp Hk; [done|].
  by apply lookup_union_r, profile_update_doc_not_provided.
Qed.

(** Two updates of an existing profile, seen from the first world. *)
Lemma update_profile_twice_run payload user w s d i :
  db w = Some s →
  healthy E →
  first_match ("user_id", uid_of E user) (s !!! "profile") = Some d →
  d !! "_id" = Some i →
  let upd t := profile_update_doc payload (utcnow E t) in
  update_profile E payload user w
  = (Ok (JStatus "ok"),
     World (Some (alter (set_first ("_id", i) (upd (ticks w))) "profile" s))
       (S (ticks w)) (made w) (S (S (calls w))))
  ∧ update_profile E payload user (update_profile E payload user w).2
    = (Ok (JStatus "ok"),
       World (Some (alter (set_first ("_id", i) (upd (S (ticks w)))) "profile" s))
         (S (S (ticks w))) (made w) (S (S (S (S (calls w)))))).
Proof.
  intros Hdb Hh Hd Hi upd.
  pose proof (update_profile_run_existing E payload user w s d i
                Hdb (Hh _) (Hh _) Hd Hi) as Hrun1.
  split; [done|]. rewrite Hrun1. simpl.
  destruct (first_match_set_first ("user_id", uid_of E user) ("_id", i)
              (upd (ticks w)) (s !!! "profile") d) as (d1 & Hd1 & Hcase);
    [apply profile_update_doc_no_user_id|done|].
  assert (d1 !! "_id" = Some i) as Hi1.
  { destruct Hcase as [->| ->]; [done|].
    rewrite lookup_union_r; [done|apply profile_update_doc_no_id]. }
  erewrite update_profile_run_existing; [|reflexivity|apply Hh|apply Hh| |exact Hi1];
    last by rewrite lookup_total_alter_nil, decide_True by done.
  simpl. do 3 f_equal.
  rewrite alter_alter_eq. apply alter_ext. intros l _. simpl.
  rewrite set_first_twice by apply profile_update_doc_no_id.
  by rewrite profile_update_doc_union.
Qed.
End Twice.

(** C2, as the claim states it, fails: the second of two identical
    updates stamps the profile anew, so the stored document is not the
    one the first update left. *)
Lemma update_profile_twice_restamps :
  let payload := ProfileUpdate.Build None (Some "Initech") None None in
  let once := update_profile Sample.E payload Sample.jane Sample.w0 in
  let twice := update_profile Sample.E payload Sample.jane once.2 in
  let stamp w :=
    first_match ("user_id", VStr Sample.jane_id) (collection "profile" w)
      ≫= (.!! "updated_at") in
  once.1 = Ok (JStatus "ok")
  ∧ twice.1 = Ok (JStatus "ok")
  ∧ stamp once.2 = Some (VDate 1704067200)
  ∧ stamp twice.2 = Some (VDate 1704067201)
  ∧ collection "profile" twice.2 ≠ collection "profile" once.2.
Proof. repeat split; by_computation. Qed.

(** C2, amended.  For an existing profile, two updates with the same
    payload leave the store that a single update made at the time of
    the second would leave: the same profile documents as after the
    first update apart from [updated_at] (and the very same when the
    clock reads the same), and the other collections as they were.  An
    update keeps every profile document in place, and in each of them
    every field, other than [updated_at], that the payload does not
    provide with a non-null value. *)
Theorem update_profile_twice (E : env) (payload : ProfileUpdate.t) (user : doc)
    (w : world) (s : store) (d : doc) :
  db w = Some s →
  healthy E →
  first_match ("user_id", uid_of E user) (s !!! "profile") = Some d →
  d ≠ ∅ →
  let once := update_profile E payload user w in
  let twice := update_profile E payload user once.2 in
  let later := update_profile E payload user (tick w) in
  ∃ s1 s2,
    db once.2 = Some s1
    ∧ db twice.2 = Some s2
    ∧ twice.1 = once.1
    ∧ db later.2 = Some s2
    ∧ forget_updated_at (s2 !!! "profile") = forget_updated_at (s1 !!! "profile")
    ∧ (utcnow E (S (ticks w)) = utcnow E (ticks w) → s2 = s1)
    ∧ (∀ c, c ≠ "profile" → s2 !! c = s !! c ∧ s1 !! c = s !! c)
    ∧ ∀ n d0, (s !!! "profile") !! n = Some d0 →
        ∃ d1, (s1 !!! "profile") !! n = Some d1
              ∧ ∀ k, not_provided (ProfileUpdate.model_dump payload) k →
                     k ≠ "updated_at" → d1 !! k = d0 !! k.
Proof.
  intros Hdb Hh Hd Hne once twice later.
  destruct (d !! "_id") as [i|] eqn:Hi.
  - destruct (update_profile_twice_run E payload user w s d i Hdb Hh Hd Hi)
      as [Hrun1 Hrun2].
    assert (later = (Ok (JStatus "ok"),
              World (Some (alter (set_first ("_id", i)
                                    (profile_update_doc payload (utcnow E (S (ticks w)))))
                             "profile" s))
                (S (S (ticks w))) (made w) (S (S (calls w))))) as Hlater.
    { unfold later. by erewrite update_profile_run_existing by (done || apply Hh). }
    subst once twice. rewrite Hrun2, Hrun1, Hlater. simpl.
    eexists _, _. split; [reflexivity|]. split; [reflexivity|].
    split; [done|]. split; [done|].
    rewrite !lookup_total_alter_nil, !decide_True by done.
    split; [apply set_first_forget, profile_update_doc_forget|].
    split; [by intros ->|].
    split; [intros c Hc; by rewrite !lookup_alter_ne|].
    intros n d0 Hd0.
    destruct (set_first_lookup ("_id", i)
                (profile_update_doc payload (utcnow E (ticks w)))
                (s !!! "profile") n d0 Hd0) as (d1 & Hd1 & Hcase).
    exists d1. split; [done|]. intros k. by apply untouched_field with (utcnow E (ticks w)).
  - pose proof (update_profile_run_no_id E payload user w s d
                  Hdb (Hh _) Hd Hne Hi) as Hrun1.
    assert (twice.1 = Raise KeyError ∧ db twice.2 = Some s) as [Hr2 Hdb2].
    { subst twice once. rewrite Hrun1. simpl.
      by erewrite update_profile_run_no_id by (done || apply Hh). }
    assert (db later.2 = Some s) as Hlater.
    { unfold later. by erewrite update_profile_run_no_id by (done || apply Hh). }
    subst once. rewrite Hrun1. simpl.
    exists s, s. repeat split; try done.
    intros n d0 Hd0. by exists d0.
Qed.

Lemma update_profile_twice_witness :
  let payload := ProfileUpdate.Build None (Some "Initech") None None in
  let once := update_profile Sample.E payload Sample.jane Sample.w0 in
  let twice := update_profile Sample.E payload Sample.jane once.2 in
  let later := update_profile Sample.E payload Sample.jane (tick Sample.w0) in
  ∃ s1 s2,
    db once.2 = Some s1
    ∧ db twice.2 = Some s2
    ∧ twice.1 = once.1
    ∧ db later.2 = Some s2
    ∧ forget_updated_at (s2 !!! "profile") = forget_updated_at (s1 !!! "profile")
    ∧ (utcnow Sample.E (S (ticks Sample.w0)) = utcnow Sample.E (ticks Sample.w0) →
       s2 = s1)
    ∧ (∀ c, c ≠ "profile" → s2 !! c = Sample.s0 !! c ∧ s1 !! c = Sample.s0 !! c)
    ∧ ∀ n d0, (Sample.s0 !!! "profile") !! n = Some d0 →
        ∃ d1, (s1 !!! "profile") !! n = Some d1
              ∧ ∀ k, not_provided (ProfileUpdate.model_dump payload) k →
                     k ≠ "updated_at" → d1 !! k = d0 !! k.
Proof.
  apply (update_profile_twice Sample.E
           (ProfileUpdate.Build None (Some "Initech") None None)
           Sample.jane Sample.w0 Sample.s0 Sample.jane_profile).
  - reflexivity.
  - intros n; reflexivity.
  - by_computation.
  - by_computation.
Defined.

(** ** The path id of [admin_delete_user] is compared as text *)

(** When the path id is the text that [str] prints for the deleted
    user's [_id], the documents removed are those the bundle assembler
    attaches to that user. *)
Lemma admin_delete_user_canonical (E : env) (uid : string) (s : store) (o : oid)
    (u : doc) :
  first_match ("_id", VOid o) (s !!! "user") = Some u →
  oid_hex o = uid →
  uid_of E u = VStr uid.
Proof.
  intros [_ Hu]%first_match_Some <-. unfold matches in Hu. simpl in Hu.
  unfold uid_of. by rewrite Hu.
Qed.

(** Removing the documents of one owner keeps those of another. *)
Lemma filter_matches_drop_all (k : string) (v v' : value) (l : list doc) :
  v ≠ v' →
  filter (matches (k, v)) (drop_all (k, v') l) = filter (matches (k, v)) l.
Proof.
  intros Hne. unfold drop_all. induction l as [|d l IH]; [done|].
  destruct (decide (matches (k, v') d)) as [Hd|Hd].
  - rewrite (filter_cons_False (λ d, ¬ matches (k, v') d)) by tauto.
    rewrite (filter_cons_False (matches (k, v))); [done|].
    unfold matches in *. simpl in *. congruence.
  - rewrite (filter_cons_True (λ d, ¬ matches (k, v') d)) by done.
    destruct (decide (matches (k, v) d)).
    + rewrite !(filter_cons_True (matches (k, v))) by done. by rewrite IH.
    + by rewrite !(filter_cons_False (matches (k, v))) by done.
Qed.

(** C6. The user is deleted under the [ObjectId] that the path denotes,
    the cleanup is keyed on the text of the path.  [ObjectId] reads
    hexadecimal digits in either case, so when the path spells the id
    otherwise than [str] prints it, the delete succeeds, the user is
    removed, and every profile and link document of that user (those
    whose [user_id] is the text of the user's id, as [update_profile],
    [create_social_link] and the bundle assembler key them) is still in
    the store: the claimed cascade does not take place. *)
Theorem admin_delete_user_orphans (E : env) (uid : string) (admin : doc)
    (w : world) (s : store) (o : oid) (u : doc) :
  db w = Some s →
  healthy E →
  parse_oid uid = Some o →
  oid_hex o ≠ uid →
  first_match ("_id", VOid o) (s !!! "user") = Some u →
  ∃ s',
    admin_delete_user E uid admin w
    = (Ok (JStatus "deleted"),
       World (Some s') (ticks w) (made w) (S (S (S (calls w)))))
    ∧ s' !!! "user" = drop_first ("_id", VOid o) (s !!! "user")
    ∧ uid_of E u = VStr (oid_hex o)
    ∧ filter (matches ("user_id", uid_of E u)) (s' !!! "profile")
      = filter (matches ("user_id", uid_of E u)) (s !!! "profile")
    ∧ filter (matches ("user_id", uid_of E u)) (s' !!! "sociallink")
      = filter (matches ("user_id", uid_of E u)) (s !!! "sociallink").
Proof.
  intros Hdb Hh Ho Hne Hu.
  assert (first_match ("_id", VOid o) (s !!! "user") ≠ None) as Hfound
    by by rewrite Hu.
  rewrite (admin_delete_user_run E uid admin w s o Hdb Ho (Hh _) (Hh _) (Hh _) Hfound).
  eexists. split; [reflexivity|].
  rewrite !lookup_total_alter_nil by done. simpl.
  rewrite (admin_delete_user_canonical E (oid_hex o) s o u Hu eq_refl).
  repeat apply conj; [done|done|..];
    apply filter_matches_drop_all; congruence.
Qed.

Lemma admin_delete_user_orphans_witness :
  ∃ s',
    admin_delete_user Sample.E "5F00000000000000000000A1" Sample.admin Sample.w0
    = (Ok (JStatus "deleted"),
       World (Some s') (ticks Sample.w0) (made Sample.w0)
         (S (S (S (calls Sample.w0)))))
    ∧ s' !!! "user"
      = drop_first ("_id", VOid (Oid Sample.jane_id)) (Sample.s0 !!! "user")
    ∧ uid_of Sample.E Sample.jane = VStr (oid_hex (Oid Sample.jane_id))
    ∧ filter (matches ("user_id", uid_of Sample.E Sample.jane)) (s' !!! "profile")
      = filter (matches ("user_id", uid_of Sample.E Sample.jane))
          (Sample.s0 !!! "profile")
    ∧ filter (matches ("user_id", uid_of Sample.E Sample.jane)) (s' !!! "sociallink")
      = filter (matches ("user_id", uid_of Sample.E Sample.jane))
          (Sample.s0 !!! "sociallink").
Proof.
  apply (admin_delete_user_orphans Sample.E "5F00000000000000000000A1" Sample.admin
           Sample.w0 Sample.s0 (Oid Sample.jane_id) Sample.jane).
  - reflexivity.
  - intros n; reflexivity.
  - reflexivity.
  - by_computation.
  - by_computation.
Defined.

(** Written in upper case, the id still names Jane, who is deleted, but
    it is not the [user_id] of her profile, which stays. *)
Example admin_delete_user_upper_case :
  let run :=
    admin_delete_user Sample.E "5F00000000000000000000A1" Sample.admin Sample.w0 in
  run.1 = Ok (JStatus "deleted")
  ∧ collection "user" run.2 = [Sample.admin; Sample.anon]
  ∧ collection "profile" run.2 = [Sample.jane_profile; Sample.admin_profile].
Proof. repeat split; by_computation. Qed.

(** ** The routes on sample stores *)

(** On a configured but empty store the first protected request creates
    the demo user, its profile and its three links, and [get_me] then
    serves them. *)
Example demo_bootstrap :
  (Depends (get_current_user Sample.E) (get_me Sample.E) (World (Some ∅) 0 0 0)).1
  = Ok (JBundle
          {| Bundle.user :=
               {| User.id := "65a000000000000000000000";
                  User.name := VStr "Flames Blue";
                  User.email := VStr "demo@flamesblue.com";
                  User.is_admin := true;
                  User.profile_slug := VStr "flames-blue" |};
             Bundle.profile :=
               {| Profile.job_title := VStr "Vibe Coding Agent";
                  Profile.company := VStr "FlamesBlue";
                  Profile.phone_number := VStr "+1 555 123 4567";
                  Profile.bio :=
                    VStr "We build beautiful digital identity experiences.";
                  Profile.profile_image_path := VNone |};
             Bundle.social_links :=
               [Link.Build "65a000000000000000000002" (VStr "website")
                  (VStr "https://flamesblue.com");
                Link.Build "65a000000000000000000003" (VStr "linkedin")
                  (VStr "https://linkedin.com/company/flamesblue");
                Link.Build "65a000000000000000000004" (VStr "github")
                  (VStr "https://github.com/")] |}).
Proof. by_computation. Qed.

(** Once the demo user is there, resolving the acting user is a single
    lookup that writes nothing. *)
Example demo_user_present :
  get_current_user Sample.E Sample.w0 = (Ok Sample.admin, called Sample.w0).
Proof. by_computation. Qed.

(** Without a store every protected route stops at 500. *)
Example demo_unconfigured :
  get_current_user Sample.E (World None 0 0 0)
  = (Raise (HTTPException 500 "Database not configured"), World None 0 0 0).
Proof. by_computation. Qed.

(** X8. A slug that no user carries is answered 404 "Profile not
    found" by both public routes, after a single lookup. *)
Lemma unknown_slug_not_found (E : env) (slug : string) (w : world) (s : store) :
  db w = Some s →
  raises E (calls w) = false →
  first_match ("profile_slug", VStr slug) (s !!! "user") = None →
  get_public_profile E slug w
  = (Raise (HTTPException 404 "Profile not found"), called w)
  ∧ get_vcard E slug w
    = (Raise (HTTPException 404 "Profile not found"), called w).
Proof.
  intros Hdb Hr Hu.
  assert (fetch_profile_bundle_by_slug E slug w = (Ok None, called w)) as Hb.
  { unfold fetch_profile_bundle_by_slug, bind.
    by rewrite (getitem_run _ _ _ Hdb), (find_one_run _ _ _ _ _ Hdb Hr), Hu. }
  unfold get_public_profile, get_vcard, bind. by rewrite Hb.
Qed.

(** ** Reading, writing and raising *)

Section Effects.
Context (E : env).

Lemma keeps_ret {A} I (a : A) : keeps I (ret a).
Proof. by intros w. Qed.

Lemma keeps_raise {A} I e : keeps I (raise (A:=A) e).
Proof. by intros w. Qed.

Lemma keeps_bind {A B} I (c : M A) (k : A → M B) :
  keeps I c → (∀ a, keeps I (k a)) → keeps I (bind c k).
Proof.
  intros Hc Hk w Hw. unfold bind. specialize (Hc w Hw).
  destruct (c w) as [[a|e] w']; simpl in *; [by apply Hk|done].
Qed.

Lemma keeps_try_except {A} I (c h : M A) :
  keeps I c → keeps I h → keeps I (try_except c h).
Proof.
  intros Hc Hh w Hw. unfold try_except. specialize (Hc w Hw).
  destruct (c w) as [[a|e] w']; simpl in *; [done|by apply Hh].
Qed.

Lemma keeps_now I : keeps I (now E).
Proof. by intros w. Qed.

Lemma keeps_generate I : keeps I (generate E).
Proof. by intros w. Qed.

Lemma keeps_getitem I c : keeps I (getitem c).
Proof. intros [d t m n] Hw. unfold getitem. simpl in *. by destruct d. Qed.

Lemma keeps_subscript I d k : keeps I (subscript d k).
Proof. intros w Hw. unfold subscript. by destruct (d !! k). Qed.

Lemma keeps_ObjectId I v : keeps I (ObjectId E v).
Proof.
  intros w Hw. destruct v as [|b|s|o|t]; try done.
  simpl. by destruct (parse_oid s).
Qed.

(** A call keeps what its action on the collections keeps. *)
Lemma keeps_call {A} (I : option store → Prop) (f : store → result A * store) :
  (∀ s, I (Some s) → I (Some (f s).2)) → keeps I (call E f).
Proof.
  intros Hf [d t m n] Hw. unfold call. simpl in *.
  destruct d as [s|]; [|done].
  destruct (raises E n); [done|].
  specialize (Hf s Hw). by destruct (f s).
Qed.

Lemma keeps_find_one I c q : keeps I (find_one E c q).
Proof. by apply keeps_call. Qed.

Lemma keeps_find I c q : keeps I (find E c q).
Proof. by apply keeps_call. Qed.

Lemma keeps_find_all I c : keeps I (find_all E c).
Proof. by apply keeps_call. Qed.

(** Reading is keeping every property. *)
Lemma read_only_keeps {A} (c : M A) : read_only c ↔ ∀ I, keeps I c.
Proof.
  split.
  - intros Hc I w Hw. by rewrite Hc.
  - intros Hc w. by apply (Hc (λ d, d = db w)).
Qed.
End Effects.

(** One step of a proof that a handler keeps a property: the rule of
    the construct at the head, or a case split on the test. *)
Ltac keeps_step :=
  first
    [ apply keeps_bind; [|intros ?]
    | apply keeps_try_except
    | apply keeps_ret | apply keeps_raise | apply keeps_now
    | apply keeps_generate | apply keeps_getitem | apply keeps_subscript
    | apply keeps_ObjectId | apply keeps_find_one | apply keeps_find
    | apply keeps_find_all
    | match goal with
      | |- keeps _ (if ?b then _ else _) => destruct b
      | |- keeps _ (match ?x with _ => _ end) => destruct x
      end ].

Section ReadOnly.
Context (E : env).

Lemma fetch_profile_bundle_by_slug_keeps I slug :
  keeps I (fetch_profile_bundle_by_slug E slug).
Proof. unfold fetch_profile_bundle_by_slug. repeat keeps_step. Qed.

Lemma get_vcard_keeps I slug : keeps I (get_vcard E slug).
Proof.
  unfold get_vcard, vcard_filename.
  apply keeps_bind; [apply fetch_profile_bundle_by_slug_keeps|intros ?].
  repeat keeps_step.
Qed.

Lemma get_public_profile_keeps I slug : keeps I (get_public_profile E slug).
Proof.
  unfold get_public_profile.
  apply keeps_bind; [apply fetch_profile_bundle_by_slug_keeps|intros ?].
  repeat keeps_step.
Qed.

Lemma get_me_keeps I user : keeps I (get_me E user).
Proof. unfold get_me. repeat keeps_step. Qed.

Lemma admin_list_users_keeps I admin : keeps I (admin_list_users E admin).
Proof. unfold admin_list_users. repeat keeps_step. Qed.

Lemma admin_get_user_keeps I uid admin : keeps I (admin_get_user E uid admin).
Proof. unfold admin_get_user. repeat keeps_step. Qed.

Lemma require_admin_keeps I user : keeps I (require_admin user).
Proof. unfold require_admin. repeat keeps_step. Qed.
End ReadOnly.

(** A handler that only reads leaves the collections as its dependency
    left them. *)
Lemma Depends_read_only {A B} (dep : M A) (handler : A → M B) :
  (∀ a, read_only (handler a)) →
  ∀ w, db (Depends dep handler w).2 = db (dep w).2.
Proof.
  intros Hh w. unfold Depends, bind.
  destruct (dep w) as [[a|e] w']; [apply Hh|done].
Qed.

(** X1. The handlers that read never write: whatever the slug, the
    id, the acting user they are given and the state of the store
    (failing or not, configured or not), the collections after the
    body of [fetch_profile_bundle_by_slug], [get_public_profile],
    [get_vcard], [get_me], [require_admin], [admin_list_users] or
    [admin_get_user] are the collections before it.  The two public
    routes have no dependency, so for them this is the whole request.
    The other three run behind [get_current_user], which creates the
    demo data on a store without the demo user: their whole request
    leaves the collections exactly as the resolution of the acting user
    leaves them. *)
Theorem read_routes_read_only (E : env) (slug uid : string) (user : doc)
    (w : world) :
  read_only (fetch_profile_bundle_by_slug E slug)
  ∧ read_only (get_public_profile E slug)
  ∧ read_only (get_vcard E slug)
  ∧ read_only (get_me E user)
  ∧ read_only (require_admin user)
  ∧ read_only (admin_list_users E user)
  ∧ read_only (admin_get_user E uid user)
  ∧ db (Depends (get_current_user E) (get_me E) w).2 = db (get_current_user E w).2
  ∧ db (Depends (Depends (get_current_user E) require_admin)
          (admin_list_users E) w).2
    = db (get_current_user E w).2
  ∧ db (Depends (Depends (get_current_user E) require_admin)
          (admin_get_user E uid) w).2
    = db (get_current_user E w).2.
Proof.
  assert (∀ u, read_only (require_admin u)) as Hgate
    by (intros u; apply read_only_keeps; intros I; apply require_admin_keeps).
  repeat apply conj.
  - apply read_only_keeps; intros I. apply fetch_profile_bundle_by_slug_keeps.
  - apply read_only_keeps; intros I. apply get_public_profile_keeps.
  - apply read_only_keeps; intros I. apply get_vcard_keeps.
  - apply read_only_keeps; intros I. apply get_me_keeps.
  - apply Hgate.
  - apply read_only_keeps; intros I. apply admin_list_users_keeps.
  - apply read_only_keeps; intros I. apply admin_get_user_keeps.
  - apply Depends_read_only. intros u.
    apply read_only_keeps; intros I. apply get_me_keeps.
  - rewrite Depends_read_only; [by apply Depends_read_only|]. intros u.
    apply read_only_keeps; intros I. apply admin_list_users_keeps.
  - rewrite Depends_read_only; [by apply Depends_read_only|]. intros u.
    apply read_only_keeps; intros I. apply admin_get_user_keeps.
Qed.

(** ** The writers keep [_id] unique *)

Section UniqueIds.
Context (E : env).
Implicit Types (d upd : doc) (l : list doc) (q : string * value) (s : store).

Lemma well_formed_nil : well_formed [].
Proof. split; [constructor|]. by intros ?%elem_of_nil. Qed.

Lemma well_formed_sublist l l' :
  l' `sublist_of` l → well_formed l → well_formed l'.
Proof.
  intros Hsub [Hnd Hids].
  assert (doc_ids l' `sublist_of` doc_ids l) as Hs by by apply fmap_sublist.
  split; [by eapply sublist_NoDup|].
  intros Hin. apply Hids. by eapply elem_of_sublist.
Qed.

Lemma drop_first_sublist q l : drop_first q l `sublist_of` l.
Proof.
  induction l as [|x l IH]; [done|]. simpl.
  case_decide; [by apply sublist_cons|by apply sublist_skip].
Qed.

Lemma doc_ids_set_first q upd l :
  upd !! "_id" = None → doc_ids (set_first q upd l) = doc_ids l.
Proof.
  intros Hupd. unfold doc_ids. induction l as [|x l IH]; [done|]. simpl.
  case_decide; rewrite !fmap_cons; [|by rewrite IH].
  by rewrite lookup_union_r.
Qed.

Lemma well_formed_snoc l d i :
  well_formed l → d !! "_id" = Some i → Some i ∉ doc_ids l →
  well_formed (l ++ [d]).
Proof.
  intros [Hnd Hids] Hi Hfresh. unfold well_formed, doc_ids in *.
  rewrite fmap_app. simpl. rewrite Hi. split.
  - apply NoDup_app. split; [done|]. split; [|apply NoDup_singleton].
    intros x Hx ->%list_elem_of_singleton. done.
  - rewrite elem_of_app, list_elem_of_singleton. by intros [?|?].
Qed.

(** A change of one collection keeps the store well formed when it
    keeps that collection well formed. *)
Lemma unique_ids_alter (f : list doc → list doc) c s :
  f [] = [] →
  (∀ l, well_formed l → well_formed (f l)) →
  unique_ids (Some s) → unique_ids (Some (alter f c s)).
Proof.
  intros Hnil Hf Hs s' c' [= <-].
  rewrite lookup_total_alter_nil by done.
  case_decide; [apply Hf|]; by apply Hs.
Qed.

Lemma store_insert_keeps c d i s :
  d !! "_id" = Some i →
  unique_ids (Some s) → unique_ids (Some (store_insert c d s).2).
Proof.
  intros Hi Hs. unfold store_insert. case_bool_decide as Hin; [done|].
  intros s' c' [= <-]. destruct (decide (c = c')) as [<-|Hne].
  - rewrite lookup_total_insert_eq.
    apply well_formed_snoc with i; [by apply Hs|done|by rewrite <- Hi].
  - rewrite lookup_total_insert_ne by done. by apply Hs.
Qed.

(** The rule of [bind] when what follows relies on the value. *)
Lemma keeps_bind_val {A B} I (Q : A → Prop) (c : M A) (k : A → M B) :
  keeps I c →
  (∀ w a w', c w = (Ok a, w') → Q a) →
  (∀ a, Q a → keeps I (k a)) →
  keeps I (bind c k).
Proof.
  intros Hc HQ Hk w Hw. unfold bind. specialize (Hc w Hw). specialize (HQ w).
  destruct (c w) as [[a|e] w']; simpl in *; [|done].
  by apply (Hk a (HQ a w' eq_refl)).
Qed.

Lemma with_id_has_id d w d' w' :
  with_id E d w = (Ok d', w') → is_Some (d' !! "_id").
Proof.
  unfold with_id. destruct (d !! "_id") as [i|] eqn:Hi.
  - intros [= <- _]. by rewrite Hi.
  - intros [= <- _]. by rewrite lookup_insert_eq.
Qed.

Lemma with_id_keeps I d : keeps I (with_id E d).
Proof. unfold with_id. repeat keeps_step. Qed.

Lemma insert_one_keeps c d : keeps unique_ids (insert_one E c d).
Proof.
  unfold insert_one.
  apply keeps_bind_val with (Q := λ d', is_Some (d' !! "_id")).
  - apply with_id_keeps.
  - apply with_id_has_id.
  - intros d' [i Hi]. apply keeps_call. intros s. by apply store_insert_keeps with i.
Qed.

Lemma with_ids_have_ids ds w ds' w' :
  with_ids E ds w = (Ok ds', w') → Forall (λ d, is_Some (d !! "_id")) ds'.
Proof.
  revert w ds' w'. induction ds as [|d ds IH]; intros w ds' w'.
  - by intros [= <- _].
  - simpl. unfold bind.
    destruct (with_id E d w) as [[d1|e] w1] eqn:Hd; [|done].
    destruct (with_ids E ds w1) as [[ds1|e] w2] eqn:Hds; [|done].
    intros [= <- _]. constructor; [by eapply with_id_has_id|by eapply IH].
Qed.

Lemma with_ids_keeps I ds : keeps I (with_ids E ds).
Proof.
  induction ds as [|d ds IH]; simpl; [apply keeps_ret|].
  apply keeps_bind; [apply with_id_keeps|intros d1].
  apply keeps_bind; [apply IH|intros ds1]. apply keeps_ret.
Qed.

Lemma store_insert_many_keeps c ds s :
  Forall (λ d, is_Some (d !! "_id")) ds →
  unique_ids (Some s) → unique_ids (Some (store_insert_many c ds s).2).
Proof.
  intros Hds. revert s. induction Hds as [|d ds [i Hi] _ IH]; intros s Hs; [done|].
  simpl. pose proof (store_insert_keeps c d i s Hi Hs) as Hs1.
  destruct (store_insert c d s) as [[v|e] s1]; simpl in *; [by apply IH|done].
Qed.

Lemma insert_many_keeps c ds : keeps unique_ids (insert_many E c ds).
Proof.
  unfold insert_many.
  apply keeps_bind_val with (Q := Forall (λ d, is_Some (d !! "_id"))).
  - apply with_ids_keeps.
  - apply with_ids_have_ids.
  - intros ds' Hds'. apply keeps_call. intros s. by apply store_insert_many_keeps.
Qed.

Lemma update_one_keeps c q upd :
  upd !! "_id" = None → keeps unique_ids (update_one E c q upd).
Proof.
  intros Hupd. apply keeps_call. intros s. simpl.
  apply unique_ids_alter; [done|]. intros l Hl.
  unfold well_formed. by rewrite doc_ids_set_first.
Qed.

Lemma delete_one_keeps c q : keeps unique_ids (delete_one E c q).
Proof.
  apply keeps_call. intros s. simpl. apply unique_ids_alter; [done|].
  intros l. apply well_formed_sublist, drop_first_sublist.
Qed.

Lemma delete_many_keeps c q : keeps unique_ids (delete_many E c q).
Proof.
  apply keeps_call. intros s. simpl. apply unique_ids_alter; [done|].
  intros l. apply well_formed_sublist, sublist_filter.
Qed.

(** The [update_doc] of [admin_update_user] does not name [_id]. *)
Lemma admin_update_doc_no_id (payload : AdminUserUpdate.t) t :
  (<["updated_at" := VDate t]>
     (dict_not_none (AdminUserUpdate.model_dump payload)) : doc) !! "_id" = None.
Proof.
  rewrite lookup_insert_ne by done. apply dict_not_none_None.
  intros v Hv. apply (list_elem_of_fmap_2 fst) in Hv. revert Hv.
  by_computation.
Qed.

Lemma update_profile_keeps payload user : keeps unique_ids (update_profile E payload user).
Proof.
  unfold update_profile.
  repeat first [apply insert_one_keeps | apply update_one_keeps | keeps_step].
  apply profile_update_doc_no_id.
Qed.

Lemma create_social_link_keeps payload user :
  keeps unique_ids (create_social_link E payload user).
Proof.
  unfold create_social_link. repeat first [apply insert_one_keeps | keeps_step].
Qed.

Lemma delete_social_link_keeps sid user :
  keeps unique_ids (delete_social_link E sid user).
Proof.
  unfold delete_social_link. repeat first [apply delete_one_keeps | keeps_step].
Qed.

Lemma admin_update_user_keeps uid payload admin :
  keeps unique_ids (admin_update_user E uid payload admin).
Proof.
  unfold admin_update_user.
  repeat first [apply update_one_keeps | keeps_step].
  apply admin_update_doc_no_id.
Qed.

Lemma admin_delete_user_keeps uid admin :
  keeps unique_ids (admin_delete_user E uid admin).
Proof.
  unfold admin_delete_user.
  repeat first [apply delete_one_keeps | apply delete_many_keeps | keeps_step].
Qed.

Lemma ensure_demo_user_keeps : keeps unique_ids (ensure_demo_user E).
Proof.
  intros [d t m n] Hw. unfold ensure_demo_user.
  destruct d as [s|]; cbn [db]; [|done].
  match goal with
  | |- unique_ids (db (?c ?w).2) =>
      cut (keeps unique_ids c); [intros Hk; exact (Hk w Hw)|]
  end.
  repeat first [apply insert_one_keeps | apply insert_many_keeps | keeps_step].
Qed.
End UniqueIds.

Lemma sample_unique_ids : unique_ids (db Sample.w0).
Proof.
  intros s c [= <-]. unfold Sample.s0. simpl.
  destruct (decide (c = "user")) as [->|?];
    [rewrite lookup_total_insert_eq; split; by_computation|].
  rewrite lookup_total_insert_ne by done.
  destruct (decide (c = "profile")) as [->|?];
    [rewrite lookup_total_insert_eq; split; by_computation|].
  rewrite lookup_total_insert_ne by done.
  destruct (decide (c = "sociallink")) as [->|?];
    [rewrite lookup_total_insert_eq; split; by_computation|].
  rewrite lookup_total_insert_ne, lookup_total_empty by done.
  apply well_formed_nil.
Qed.

(** X2. Every route that writes keeps the store well formed: if each
    document of each collection has an [_id] of its own before the
    request, the same holds after it, whether the route returns or
    raises and whether or not the store fails on the way. *)
Theorem writers_keep_unique_ids (E : env) (w : world) (sid : string) (user : doc)
    (profile : ProfileUpdate.t) (link : SocialLinkCreate.t)
    (update : AdminUserUpdate.t) :
  unique_ids (db w) →
  unique_ids (db (ensure_demo_user E w).2)
  ∧ unique_ids (db (update_profile E profile user w).2)
  ∧ unique_ids (db (create_social_link E link user w).2)
  ∧ unique_ids (db (delete_social_link E sid user w).2)
  ∧ unique_ids (db (admin_update_user E sid update user w).2)
  ∧ unique_ids (db (admin_delete_user E sid user w).2).
Proof.
  intros Hw. repeat apply conj.
  - by apply ensure_demo_user_keeps.
  - by apply update_profile_keeps.
  - by apply create_social_link_keeps.
  - by apply delete_social_link_keeps.
  - by apply admin_update_user_keeps.
  - by apply admin_delete_user_keeps.
Qed.

Lemma writers_keep_unique_ids_witness :
  unique_ids (db (ensure_demo_user Sample.E Sample.w0).2)
  ∧ unique_ids
      (db (update_profile Sample.E (ProfileUpdate.Build None None None (Some "Hi"))
             Sample.anon Sample.w0).2)
  ∧ unique_ids
      (db (create_social_link Sample.E
             (SocialLinkCreate.Build "github" "https://github.com/jane")
             Sample.anon Sample.w0).2)
  ∧ unique_ids (db (delete_social_link Sample.E Sample.jane_link_id Sample.anon Sample.w0).2)
  ∧ unique_ids
      (db (admin_update_user Sample.E Sample.jane_link_id
             (AdminUserUpdate.Build None None (Some true) None)
             Sample.anon Sample.w0).2)
  ∧ unique_ids (db (admin_delete_user Sample.E Sample.jane_link_id Sample.anon Sample.w0).2).
Proof.
  apply (writers_keep_unique_ids Sample.E Sample.w0 Sample.jane_link_id Sample.anon
           (ProfileUpdate.Build None None None (Some "Hi"))
           (SocialLinkCreate.Build "github" "https://github.com/jane")
           (AdminUserUpdate.Build None None (Some true) None)).
  exact sample_unique_ids.
Defined.

(** ** What a failed request leaves behind *)

Section AllOrNothing.
Context (E : env).

Lemma read_only_all_or_nothing {A} (c : M A) : read_only c → all_or_nothing c.
Proof. intros Hc w _. apply Hc. Qed.

Lemma all_or_nothing_bind_read {A B} (c : M A) (k : A → M B) :
  read_only c → (∀ a, all_or_nothing (k a)) → all_or_nothing (bind c k).
Proof.
  intros Hc Hk w. unfold bind. specialize (Hc w).
  destruct (c w) as [[a|e] w']; simpl in *; [|done].
  intros He. rewrite <- Hc. by apply Hk.
Qed.

Lemma all_or_nothing_bind_tail {A B} (c : M A) (k : A → M B) :
  all_or_nothing c → (∀ a, never_raises (k a)) → all_or_nothing (bind c k).
Proof.
  intros Hc Hk w. unfold bind. specialize (Hc w).
  destruct (c w) as [[a|e] w']; simpl in *; [|eauto].
  intros [e He]. destruct (Hk a w') as [b Hb]. congruence.
Qed.

Lemma all_or_nothing_call {A} (f : store → result A * store) :
  (∀ s e, (f s).1 = Raise e → (f s).2 = s) → all_or_nothing (call E f).
Proof.
  intros Hf [d t m n]. unfold call. simpl.
  destruct d as [s|]; [|done]. destruct (raises E n); [done|].
  specialize (Hf s). destruct (f s) as [[a|e] s']; simpl in *.
  - by intros [e [=]].
  - intros _. f_equal. by apply (Hf e).
Qed.

Lemma never_raises_ret {A} (a : A) : never_raises (ret a).
Proof. intros w. by exists a. Qed.

Lemma update_one_all_or_nothing c q upd : all_or_nothing (update_one E c q upd).
Proof. by apply all_or_nothing_call. Qed.

Lemma delete_one_all_or_nothing c q : all_or_nothing (delete_one E c q).
Proof. by apply all_or_nothing_call. Qed.

Lemma insert_one_all_or_nothing c d : all_or_nothing (insert_one E c d).
Proof.
  unfold insert_one. apply all_or_nothing_bind_read.
  - apply read_only_keeps. intros I. apply with_id_keeps.
  - intros d'. apply all_or_nothing_call. intros s e. unfold store_insert.
    by case_bool_decide.
Qed.
End AllOrNothing.

(** One step of a proof that a handler is all-or-nothing: a reading
    prefix, the final write, or a case split on the test. *)
Ltac all_or_nothing_step :=
  first
    [ apply insert_one_all_or_nothing
    | apply update_one_all_or_nothing
    | apply delete_one_all_or_nothing
    | apply all_or_nothing_bind_read;
      [solve [apply read_only_keeps; intros ?; repeat keeps_step]|intros ?]
    | apply all_or_nothing_bind_tail; [|intros ?; apply never_raises_ret]
    | apply read_only_all_or_nothing, read_only_keeps; intros ?;
      solve [repeat keeps_step]
    | match goal with
      | |- all_or_nothing (if ?b then _ else _) => destruct b
      end ].

(** A handler that is all-or-nothing, when it raises, leaves the
    collections as its dependency left them. *)
Lemma Depends_all_or_nothing {A B} (dep : M A) (handler : A → M B) :
  (∀ a, all_or_nothing (handler a)) →
  ∀ w e, (Depends dep handler w).1 = Raise e →
         db (Depends dep handler w).2 = db (dep w).2.
Proof.
  intros Hh w e. unfold Depends, bind.
  destruct (dep w) as [[a|e'] w']; [|done].
  intros He. apply Hh. eauto.
Qed.

(** X3. The three handlers of a user that write make their only write
    last: when the body of [update_profile], [create_social_link] or
    [delete_social_link] raises, for whatever reason, the collections
    are what they were when the body started, and those of the whole
    request are what the resolution of the acting user
    ([get_current_user], which may have created the demo data) left.
    A call to the store that raises is taken to have changed nothing
    (see [call]). *)
Theorem user_writes_all_or_nothing (E : env) (w : world) (sid : string) (user : doc)
    (profile : ProfileUpdate.t) (link : SocialLinkCreate.t) (e : exn) :
  ((update_profile E profile user w).1 = Raise e →
   db (update_profile E profile user w).2 = db w)
  ∧ ((create_social_link E link user w).1 = Raise e →
     db (create_social_link E link user w).2 = db w)
  ∧ ((delete_social_link E sid user w).1 = Raise e →
     db (delete_social_link E sid user w).2 = db w)
  ∧ ((Depends (get_current_user E) (update_profile E profile) w).1 = Raise e →
     db (Depends (get_current_user E) (update_profile E profile) w).2
     = db (get_current_user E w).2)
  ∧ ((Depends (get_current_user E) (create_social_link E link) w).1 = Raise e →
     db (Depends (get_current_user E) (create_social_link E link) w).2
     = db (get_current_user E w).2)
  ∧ ((Depends (get_current_user E) (delete_social_link E sid) w).1 = Raise e →
     db (Depends (get_current_user E) (delete_social_link E sid) w).2
     = db (get_current_user E w).2).
Proof.
  assert (∀ u, all_or_nothing (update_profile E profile u)) as Hp
    by (intros u; unfold update_profile; repeat all_or_nothing_step).
  assert (∀ u, all_or_nothing (create_social_link E link u)) as Hc
    by (intros u; unfold create_social_link; repeat all_or_nothing_step).
  assert (∀ u, all_or_nothing (delete_social_link E sid u)) as Hd
    by (intros u; unfold delete_social_link; repeat all_or_nothing_step).
  repeat apply conj; intros He.
  - apply Hp; eauto.
  - apply Hc; eauto.
  - apply Hd; eauto.
  - by apply (Depends_all_or_nothing _ _ Hp w e).
  - by apply (Depends_all_or_nothing _ _ Hc w e).
  - by apply (Depends_all_or_nothing _ _ Hd w e).
Qed.

Lemma user_writes_all_or_nothing_witness :
  db (update_profile Sample.E_down (ProfileUpdate.Build None None None (Some "Hi"))
        Sample.jane Sample.w0).2 = db Sample.w0
  ∧ db (delete_social_link Sample.E "not-an-id" Sample.jane Sample.w0).2
    = db Sample.w0
  ∧ db (Depends (get_current_user Sample.E) (delete_social_link Sample.E "not-an-id")
          (World (Some ∅) 0 0 0)).2
    = db (get_current_user Sample.E (World (Some ∅) 0 0 0)).2.
Proof.
  repeat apply conj.
  - apply (proj1 (user_writes_all_or_nothing Sample.E_down Sample.w0 "x" Sample.jane
                    (ProfileUpdate.Build None None None (Some "Hi"))
                    (SocialLinkCreate.Build "a" "b") PyMongoError)).
    by_computation.
  - apply (proj1 (proj2 (proj2 (user_writes_all_or_nothing Sample.E Sample.w0
                                  "not-an-id" Sample.jane
                                  (ProfileUpdate.Build None None None None)
                                  (SocialLinkCreate.Build "a" "b") InvalidId)))).
    by_computation.
  - apply (proj2 (proj2 (proj2 (proj2 (proj2
             (user_writes_all_or_nothing Sample.E (World (Some ∅) 0 0 0)
                "not-an-id" Sample.jane (ProfileUpdate.Build None None None None)
                (SocialLinkCreate.Build "a" "b") InvalidId)))))).
    by_computation.
Defined.

(** X4. [admin_delete_user] is not all-or-nothing: when the store
    fails right after the user document is deleted, the request is
    answered by that failure (a 500) and the user is gone while the
    profile and the links of that user are all still there. *)
Theorem admin_delete_user_interrupted (E : env) (uid : string) (admin : doc)
    (w : world) (s : store) (o : oid) :
  db w = Some s →
  parse_oid uid = Some o →
  first_match ("_id", VOid o) (s !!! "user") ≠ None →
  raises E (calls w) = false →
  raises E (S (calls w)) = true →
  ∃ s',
    (admin_delete_user E uid admin w).1 = Raise PyMongoError
    ∧ db (admin_delete_user E uid admin w).2 = Some s'
    ∧ s' !!! "user" = drop_first ("_id", VOid o) (s !!! "user")
    ∧ s' !!! "profile" = s !!! "profile"
    ∧ s' !!! "sociallink" = s !!! "sociallink".
Proof.
  intros Hdb Ho Hfound H0 H1.
  assert (admin_delete_user E uid admin w
          = (Raise PyMongoError,
             World (Some (alter (drop_first ("_id", VOid o)) "user" s))
               (ticks w) (made w) (S (S (calls w))))) as Hrun.
  { unfold admin_delete_user, bind at 1, try_except, bind at 1.
    rewrite (getitem_run _ _ _ Hdb). unfold bind at 1.
    rewrite (ObjectId_str_run _ _ _ _ Ho).
    unfold delete_one at 1. rewrite (call_run _ _ _ _ Hdb H0).
    rewrite bool_decide_eq_false_2 by by rewrite first_match_count.
    destruct w as [d t m n]; simpl in *; subst d.
    unfold bind, getitem, delete_many, call; simpl. by rewrite H1. }
  rewrite Hrun. simpl.
  eexists. split; [reflexivity|]. split; [reflexivity|].
  rewrite !lookup_total_alter_nil by done. simpl. done.
Qed.

Lemma admin_delete_user_interrupted_witness :
  let E1 := Env (str_datetime Sample.E) (utcnow Sample.E) (new_oid Sample.E)
              (λ n, bool_decide (n = 1%nat)) in
  ∃ s',
    (admin_delete_user E1 Sample.jane_id Sample.admin Sample.w0).1
    = Raise PyMongoError
    ∧ db (admin_delete_user E1 Sample.jane_id Sample.admin Sample.w0).2 = Some s'
    ∧ s' !!! "user"
      = drop_first ("_id", VOid (Oid Sample.jane_id)) (Sample.s0 !!! "user")
    ∧ s' !!! "profile" = Sample.s0 !!! "profile"
    ∧ s' !!! "sociallink" = Sample.s0 !!! "sociallink".
Proof.
  apply (admin_delete_user_interrupted
           (Env (str_datetime Sample.E) (utcnow Sample.E) (new_oid Sample.E)
              (λ n, bool_decide (n = 1%nat)))
           Sample.jane_id Sample.admin Sample.w0 Sample.s0 (Oid Sample.jane_id)).
  - reflexivity.
  - reflexivity.
  - by_computation.
  - reflexivity.
  - reflexivity.
Defined.

(** ** Who may call, and what happens without a store *)

(** What a request to a route behind [require_admin] comes to, once
    the acting user is found. *)
Lemma admin_request_run {A} (E : env) (w : world) (s : store) (u : doc)
    (handler : doc → M A) :
  db w = Some s →
  raises E (calls w) = false →
  first_match ("email", VStr "demo@flamesblue.com") (s !!! "user") = Some u →
  Depends (Depends (get_current_user E) require_admin) handler w
  = if truthy (get u "is_admin") then handler u (called w)
    else (Raise (HTTPException 403 "Admin only"), called w).
Proof.
  intros Hdb Hr Hu.
  assert (u ≠ ∅) as Hne.
  { destruct (first_match_Some _ _ _ Hu) as [_ Hm]. intros ->.
    unfold matches, get in Hm. by rewrite lookup_empty in Hm. }
  assert (ensure_demo_user E w = (Ok (Some u), called w)) as Hdemo.
  { unfold ensure_demo_user. rewrite Hdb. unfold bind.
    rewrite (getitem_run _ _ _ Hdb), (find_one_run _ _ _ _ _ Hdb Hr), Hu.
    simpl. by rewrite (bool_decide_eq_false_2 _ Hne). }
  assert (get_current_user E w = (Ok u, called w)) as Hrun.
  { unfold get_current_user, bind. rewrite Hdemo. simpl.
    by rewrite (bool_decide_eq_false_2 _ Hne). }
  unfold Depends, bind. rewrite Hrun.
  unfold require_admin, get, get_default.
  destruct (u !! "is_admin") as [v|]; simpl; [|done].
  by destruct (truthy v).
Qed.

(** X5. The admin gate, on the whole request.  The acting user is the
    first user that carries the demo e-mail.  When its [is_admin] field
    is true, a request to a route behind [require_admin] runs the
    handler on that user; when it is not (false, null or missing), the
    request is answered 403 "Admin only" after that one lookup: the
    handler is not run and the collections are unchanged.  Nothing of
    the path or of the payload takes part in the decision. *)
Theorem require_admin_gate {A} (E : env) (w : world) (s : store) (u : doc)
    (handler : doc → M A) :
  db w = Some s →
  raises E (calls w) = false →
  first_match ("email", VStr "demo@flamesblue.com") (s !!! "user") = Some u →
  let request := Depends (Depends (get_current_user E) require_admin) handler in
  (truthy (get u "is_admin") = true → request w = handler u (called w))
  ∧ (truthy (get u "is_admin") = false →
     request w = (Raise (HTTPException 403 "Admin only"), called w)
     ∧ http_status (request w).1 = 403
     ∧ db (request w).2 = Some s
     ∧ calls (request w).2 = S (calls w)).
Proof.
  intros Hdb Hr Hu request. subst request.
  rewrite (admin_request_run E w s u handler Hdb Hr Hu).
  split; intros ->; [done|]. by repeat apply conj.
Qed.

Lemma require_admin_gate_witness :
  let demoted : doc := <["is_admin" := VBool false]> Sample.admin in
  let s2 : store := {["user" := [Sample.jane; demoted]]} in
  let w2 := World (Some s2) 0 0 0 in
  Depends (Depends (get_current_user Sample.E) require_admin)
    (admin_list_users Sample.E) Sample.w0
  = admin_list_users Sample.E Sample.admin (called Sample.w0)
  ∧ (Depends (Depends (get_current_user Sample.E) require_admin)
       (admin_delete_user Sample.E Sample.jane_id) w2
     = (Raise (HTTPException 403 "Admin only"), called w2)
     ∧ http_status
         (Depends (Depends (get_current_user Sample.E) require_admin)
            (admin_delete_user Sample.E Sample.jane_id) w2).1 = 403
     ∧ db (Depends (Depends (get_current_user Sample.E) require_admin)
             (admin_delete_user Sample.E Sample.jane_id) w2).2 = Some s2
     ∧ calls (Depends (Depends (get_current_user Sample.E) require_admin)
                (admin_delete_user Sample.E Sample.jane_id) w2).2 = S (calls w2)).
Proof.
  intros demoted s2 w2. split.
  - apply (proj1 (require_admin_gate Sample.E Sample.w0 Sample.s0 Sample.admin
                    (admin_list_users Sample.E) eq_refl eq_refl
                    ltac:(by_computation))).
    by_computation.
  - apply (proj2 (require_admin_gate Sample.E w2 s2 demoted
                    (admin_delete_user Sample.E Sample.jane_id) eq_refl eq_refl
                    ltac:(by_computation))).
    by_computation.
Defined.

(** X6. Without a configured store ([db] is [None]) every data route
    is answered 500 and nothing is attempted: the protected routes stop
    in [get_current_user] before their handler runs, the public routes
    fail on [db["user"]]; only [root] answers. *)
Theorem unconfigured_store {A} (E : env) (slug : string) (handler : doc → M A)
    (w : world) :
  db w = None →
  Depends (get_current_user E) handler w
  = (Raise (HTTPException 500 "Database not configured"), w)
  ∧ get_public_profile E slug w = (Raise TypeError, w)
  ∧ get_vcard E slug w = (Raise TypeError, w)
  ∧ http_status (get_public_profile E slug w).1 = 500
  ∧ http_status (get_vcard E slug w).1 = 500
  ∧ root w = (Ok (JMessage "Digital Business Card API (demo)"), w).
Proof.
  intros Hdb.
  assert (fetch_profile_bundle_by_slug E slug w = (Raise TypeError, w)) as Hb.
  { unfold fetch_profile_bundle_by_slug, bind. by rewrite (getitem_unset _ _ Hdb). }
  assert (get_public_profile E slug w = (Raise TypeError, w)) as Hp.
  { unfold get_public_profile, bind. by rewrite Hb. }
  assert (get_vcard E slug w = (Raise TypeError, w)) as Hv.
  { unfold get_vcard, bind. by rewrite Hb. }
  rewrite Hp, Hv. repeat apply conj; try done.
  unfold Depends, get_current_user, bind, ensure_demo_user. by rewrite Hdb.
Qed.

Lemma unconfigured_store_witness :
  Depends (get_current_user Sample.E) (get_me Sample.E) (World None 0 0 0)
  = (Raise (HTTPException 500 "Database not configured"), World None 0 0 0)
  ∧ get_public_profile Sample.E "jane" (World None 0 0 0)
    = (Raise TypeError, World None 0 0 0)
  ∧ get_vcard Sample.E "jane" (World None 0 0 0) = (Raise TypeError, World None 0 0 0)
  ∧ http_status (get_public_profile Sample.E "jane" (World None 0 0 0)).1 = 500
  ∧ http_status (get_vcard Sample.E "jane" (World None 0 0 0)).1 = 500
  ∧ root (World None 0 0 0)
    = (Ok (JMessage "Digital Business Card API (demo)"), World None 0 0 0).
Proof.
  apply (unconfigured_store Sample.E "jane" (get_me Sample.E) (World None 0 0 0)).
  reflexivity.
Defined.

(** X7. When a user carries the demo e-mail, [ensure_demo_user] is one
    lookup: it returns the first such user, whether or not that user is
    an admin, creates nothing, and [get_current_user] hands that user
    to the handler. *)
Theorem ensure_demo_user_present {A} (E : env) (w : world) (s : store) (u : doc)
    (handler : doc → M A) :
  db w = Some s →
  raises E (calls w) = false →
  first_match ("email", VStr "demo@flamesblue.com") (s !!! "user") = Some u →
  ensure_demo_user E w = (Ok (Some u), called w)
  ∧ db (called w) = Some s
  ∧ Depends (get_current_user E) handler w = handler u (called w).
Proof.
  intros Hdb Hr Hu.
  assert (u ≠ ∅) as Hne.
  { destruct (first_match_Some _ _ _ Hu) as [_ Hm]. intros ->.
    unfold matches, get in Hm. by rewrite lookup_empty in Hm. }
  assert (ensure_demo_user E w = (Ok (Some u), called w)) as Hrun.
  { unfold ensure_demo_user. rewrite Hdb. unfold bind.
    rewrite (getitem_run _ _ _ Hdb), (find_one_run _ _ _ _ _ Hdb Hr), Hu.
    simpl. by rewrite (bool_decide_eq_false_2 _ Hne). }
  split; [done|]. split; [done|].
  unfold Depends, get_current_user, bind. rewrite Hrun. simpl.
  by rewrite (bool_decide_eq_false_2 _ Hne).
Qed.

Lemma ensure_demo_user_present_witness :
  ensure_demo_user Sample.E Sample.w0 = (Ok (Some Sample.admin), called Sample.w0)
  ∧ db (called Sample.w0) = Some Sample.s0
  ∧ Depends (get_current_user Sample.E) (get_me Sample.E) Sample.w0
    = get_me Sample.E Sample.admin (called Sample.w0).
Proof.
  apply (ensure_demo_user_present Sample.E Sample.w0 Sample.s0 Sample.admin
           (get_me Sample.E)).
  - reflexivity.
  - reflexivity.
  - by_computation.
Defined.

(** ** The public routes *)

Section PublicRoutes.
Context (E : env).

Lemma fetch_profile_bundle_by_slug_run slug w s u :
  db w = Some s →
  healthy E →
  first_match ("profile_slug", VStr slug) (s !!! "user") = Some u →
  fetch_profile_bundle_by_slug E slug w
  = (Ok (Some {| Bundle.user := serialize_user E u;
                 Bundle.profile :=
                   profile_json (first_match ("user_id", uid_of E u) (s !!! "profile"));
                 Bundle.social_links :=
                   link_json E <$> filter (matches ("user_id", uid_of E u))
                                      (s !!! "sociallink") |}),
     called (called (called w))).
Proof.
  intros Hdb Hh Hu.
  assert (u ≠ ∅) as Hne.
  { destruct (first_match_Some _ _ _ Hu) as [_ Hslug]. intros ->.
    unfold matches, get in Hslug. by rewrite lookup_empty in Hslug. }
  unfold fetch_profile_bundle_by_slug, bind.
  rewrite (getitem_run _ _ _ Hdb), (find_one_run _ _ _ _ _ Hdb (Hh _)), Hu.
  simpl. rewrite (bool_decide_eq_false_2 _ Hne). simpl.
  rewrite (getitem_run _ (called w) s Hdb),
    (find_one_run _ _ _ (called w) s Hdb (Hh _)).
  by rewrite (getitem_run _ (called (called w)) s Hdb),
    (find_run _ _ _ (called (called w)) s Hdb (Hh _)).
Qed.

Lemma get_me_run user w s :
  db w = Some s →
  healthy E →
  get_me E user w
  = (Ok (JBundle
           {| Bundle.user := serialize_user E user;
              Bundle.profile :=
                profile_json (first_match ("user_id", uid_of E user) (s !!! "profile"));
              Bundle.social_links :=
                link_json E <$> filter (matches ("user_id", uid_of E user))
                                   (s !!! "sociallink") |}),
     called (called w)).
Proof.
  intros Hdb Hh. unfold get_me, bind.
  rewrite (getitem_run _ _ _ Hdb), (find_one_run _ _ _ _ _ Hdb (Hh _)).
  by rewrite (getitem_run _ (called w) s Hdb), (find_run _ _ _ (called w) s Hdb (Hh _)).
Qed.
End PublicRoutes.

Lemma unknown_slug_not_found_witness :
  get_public_profile Sample.E "nobody" Sample.w0
  = (Raise (HTTPException 404 "Profile not found"), called Sample.w0)
  ∧ get_vcard Sample.E "nobody" Sample.w0
    = (Raise (HTTPException 404 "Profile not found"), called Sample.w0).
Proof.
  apply (unknown_slug_not_found Sample.E "nobody" Sample.w0 Sample.s0).
  - reflexivity.
  - reflexivity.
  - by_computation.
Defined.

(** X9. The public profile of a slug is the bundle that [get_me] serves
    to the user who carries that slug: the two routes assemble the same
    user, profile and links. *)
Theorem public_profile_is_own_bundle (E : env) (slug : string) (w w' : world)
    (s : store) (u : doc) :
  db w = Some s →
  db w' = Some s →
  healthy E →
  first_match ("profile_slug", VStr slug) (s !!! "user") = Some u →
  (get_public_profile E slug w).1 = (get_me E u w').1
  ∧ ∃ b, (get_me E u w').1 = Ok (JBundle b).
Proof.
  intros Hdb Hdb' Hh Hu.
  unfold get_public_profile, bind.
  rewrite (fetch_profile_bundle_by_slug_run E slug w s u Hdb Hh Hu).
  rewrite (get_me_run E u w' s Hdb' Hh). eauto.
Qed.

Lemma public_profile_is_own_bundle_witness :
  (get_public_profile Sample.E "jane" Sample.w0).1
  = (get_me Sample.E Sample.jane (called Sample.w0)).1
  ∧ ∃ b, (get_me Sample.E Sample.jane (called Sample.w0)).1 = Ok (JBundle b).
Proof.
  apply (public_profile_is_own_bundle Sample.E "jane" Sample.w0 (called Sample.w0)
           Sample.s0 Sample.jane).
  - reflexivity.
  - reflexivity.
  - intros n; reflexivity.
  - by_computation.
Defined.

(** X10. A user document whose [name] is not a string (the field is
    missing or null, or it holds a bool, an id or a date) is served by
    the JSON route but not by the vCard route: the file name is
    computed with [name.replace(' ', '_')], which raises a [TypeError]
    on a date and an [AttributeError] on the others, so the request
    ends in a 500. *)
Theorem get_vcard_without_name (E : env) (slug : string) (w w' : world)
    (b : Bundle.t) :
  fetch_profile_bundle_by_slug E slug w = (Ok (Some b), w') →
  (∀ n, User.name (Bundle.user b) ≠ VStr n) →
  get_vcard E slug w
  = (Raise (if User.name (Bundle.user b) is VDate _ then TypeError
            else AttributeError), w')
  ∧ http_status (get_vcard E slug w).1 = 500
  ∧ get_public_profile E slug w = (Ok (JBundle b), w').
Proof.
  intros Hb Hname.
  assert (get_vcard E slug w
          = (Raise (if User.name (Bundle.user b) is VDate _ then TypeError
                    else AttributeError), w')) as Hv.
  { unfold get_vcard, bind, vcard_filename. rewrite Hb.
    destruct (User.name (Bundle.user b)) as [|x|n|o|t] eqn:Hn; try done.
    by destruct (Hname n). }
  rewrite Hv. repeat apply conj; [done| |].
  - by destruct (User.name (Bundle.user b)).
  - unfold get_public_profile, bind. by rewrite Hb.
Qed.

Lemma get_vcard_without_name_witness :
  let bundle_of (s : store) (u : doc) :=
    {| Bundle.user := serialize_user Sample.E u;
       Bundle.profile :=
         profile_json (first_match ("user_id", uid_of Sample.E u) (s !!! "profile"));
       Bundle.social_links :=
         link_json Sample.E <$> filter (matches ("user_id", uid_of Sample.E u))
                                  (s !!! "sociallink") |} in
  let dated : doc := <["name" := VDate 1704067200]> Sample2.nameless in
  let s2 : store := {["user" := [dated]]} in
  let w2 := World (Some s2) 0 0 0 in
  (let b := bundle_of Sample2.s1 Sample2.nameless in
   let w' := called (called (called Sample2.w1)) in
   get_vcard Sample.E "nameless" Sample2.w1
   = (Raise (if User.name (Bundle.user b) is VDate _ then TypeError
             else AttributeError), w')
   ∧ http_status (get_vcard Sample.E "nameless" Sample2.w1).1 = 500
   ∧ get_public_profile Sample.E "nameless" Sample2.w1 = (Ok (JBundle b), w'))
  ∧ (let b := bundle_of s2 dated in
     let w' := called (called (called w2)) in
     get_vcard Sample.E "nameless" w2
     = (Raise (if User.name (Bundle.user b) is VDate _ then TypeError
               else AttributeError), w')
     ∧ http_status (get_vcard Sample.E "nameless" w2).1 = 500
     ∧ get_public_profile Sample.E "nameless" w2 = (Ok (JBundle b), w')).
Proof.
  intros bundle_of dated s2 w2. split.
  - apply (get_vcard_without_name Sample.E "nameless" Sample2.w1
             (called (called (called Sample2.w1)))
             (bundle_of Sample2.s1 Sample2.nameless)).
    + apply fetch_profile_bundle_by_slug_run.
      * reflexivity.
      * intros n; reflexivity.
      * by_computation.
    + intros n. by_computation.
  - apply (get_vcard_without_name Sample.E "nameless" w2
             (called (called (called w2))) (bundle_of s2 dated)).
    + apply fetch_profile_bundle_by_slug_run.
      * reflexivity.
      * intros n; reflexivity.
      * by_computation.
    + intros n. by_computation.
Defined.

(** ** The shape of a vCard *)

(** X11. Every vCard starts with [BEGIN:VCARD] and [VERSION:3.0], ends
    with [END:VCARD], and has seven lines plus one for each of: a
    phone number that is not empty, an e-mail that is not empty, a link
    whose platform is ["website"], ["link"] or ["url"]; so between
    seven and ten lines. *)
Theorem vcard_lines_shape (E : env) (b : Bundle.t) :
  let n :=
    ((if truthy (Profile.phone_number (Bundle.profile b)) then 1 else 0)
     + (if truthy (User.email (Bundle.user b)) then 1 else 0)
     + (if head (filter is_website (Bundle.social_links b)) is Some _ then 1 else 0))%nat in
  vcard_lines E b !! 0%nat = Some "BEGIN:VCARD"
  ∧ vcard_lines E b !! 1%nat = Some "VERSION:3.0"
  ∧ last (vcard_lines E b) = Some "END:VCARD"
  ∧ Datatypes.length (vcard_lines E b) = (7 + n)%nat
  ∧ (7 ≤ Datatypes.length (vcard_lines E b) ≤ 10)%nat.
Proof.
  unfold vcard_lines.
  destruct (truthy (Profile.phone_number (Bundle.profile b))),
    (truthy (User.email (Bundle.user b))),
    (head (filter is_website (Bundle.social_links b))); simpl;
    repeat split; lia.
Qed.

(** X12. Only the first link whose platform is one of ["website"],
    ["link"] and ["url"] matters to the vCard, and these three texts
    are matched exactly: the links before it (any other platform,
    ["Website"] with a capital among them) and all the links after it
    (of these three platforms or not) change nothing, and its URL is
    the one in the vCard; when no link has one of the three platforms
    the vCard is that of a bundle with no link at all. *)
Theorem vcard_lines_first_website (E : env) (user : User.t) (profile : Profile.t)
    (pre post : list Link.t) (l : Link.t) :
  Forall (λ x, ¬ is_website x) pre →
  is_website l →
  vcard_lines E (Bundle.Build user profile (pre ++ l :: post))
  = vcard_lines E (Bundle.Build user profile [l])
  ∧ "URL:" +:+ py_str E (Link.url l)
    ∈ vcard_lines E (Bundle.Build user profile (pre ++ l :: post))
  ∧ vcard_lines E (Bundle.Build user profile pre)
    = vcard_lines E (Bundle.Build user profile []).
Proof.
  intros Hpre Hl.
  assert (filter is_website pre = []) as Hnil.
  { induction Hpre as [|x pre Hx _ IH]; [done|]. by rewrite filter_cons_False. }
  unfold vcard_lines. simpl.
  rewrite filter_app, Hnil, !filter_cons_True by done. simpl.
  split; [done|]. split; [|done].
  rewrite !elem_of_app. left. right. apply list_elem_of_singleton. done.
Qed.

Lemma vcard_lines_first_website_witness :
  let user := User.Build "1" (VStr "N") VNone false VNone in
  let profile := Profile.Build VNone VNone VNone VNone VNone in
  let upper := Link.Build "a" (VStr "Website") (VStr "https://upper.example") in
  let first := Link.Build "b" (VStr "link") (VStr "https://first.example") in
  let second := Link.Build "c" (VStr "website") (VStr "https://second.example") in
  vcard_lines Sample.E (Bundle.Build user profile ([upper] ++ first :: [second]))
  = vcard_lines Sample.E (Bundle.Build user profile [first])
  ∧ "URL:" +:+ py_str Sample.E (Link.url first)
    ∈ vcard_lines Sample.E (Bundle.Build user profile ([upper] ++ first :: [second]))
  ∧ vcard_lines Sample.E (Bundle.Build user profile [upper])
    = vcard_lines Sample.E (Bundle.Build user profile []).
Proof.
  apply (vcard_lines_first_website Sample.E
           (User.Build "1" (VStr "N") VNone false VNone)
           (Profile.Build VNone VNone VNone VNone VNone)
           [Link.Build "a" (VStr "Website") (VStr "https://upper.example")]
           [Link.Build "c" (VStr "website") (VStr "https://second.example")]
           (Link.Build "b" (VStr "link") (VStr "https://first.example"))).
  - by_computation.
  - by_computation.
Defined.

Section FileName.

Lemma replace_no_old (old new : ascii) (s : string) (i : nat) :
  new ≠ old → String.get i (replace old new s) ≠ Some old.
Proof.
  intros Hne. revert i. induction s as [|a s IH]; intros i; [done|].
  destruct i as [|i]; simpl; [|apply IH].
  destruct (Ascii.eqb a old) eqn:Ha; [by intros [= ?]|].
  intros [= ->]. by rewrite Ascii.eqb_refl in Ha.
Qed.

Lemma replace_length (old new : ascii) (s : string) :
  String.length (replace old new s) = String.length s.
Proof. induction s as [|a s IH]; simpl; congruence. Qed.

Lemma get_append_suffix (s t : string) (c : ascii) (i : nat) :
  (∀ j, String.get j s ≠ Some c) → (∀ j, String.get j t ≠ Some c) →
  String.get i (s +:+ t) ≠ Some c.
Proof.
  intros Hs Ht. revert i. induction s as [|a s IH]; intros i; [apply Ht|].
  destruct i as [|i]; simpl.
  - apply (Hs 0%nat).
  - apply IH. intros j. apply (Hs (S j)).
Qed.

Lemma length_append (s t : string) :
  String.length (s +:+ t) = (String.length s + String.length t)%nat.
Proof. induction s as [|a s IH]; [done|]. cbn. by rewrite <- IH. Qed.
End FileName.

(** X13. For a user whose name is a string the suggested file name
    never raises, holds no space at all, and is four characters longer
    than the name. *)
Theorem vcard_filename_no_space (b : Bundle.t) (n : string) (w : world) :
  User.name (Bundle.user b) = VStr n →
  ∃ f, vcard_filename b w = (Ok f, w)
       ∧ (∀ i, String.get i f ≠ Some " "%char)
       ∧ String.length f = (String.length n + 4)%nat.
Proof.
  intros Hn. unfold vcard_filename. rewrite Hn. eexists. split; [reflexivity|].
  split.
  - intros i. apply get_append_suffix.
    + intros j. by apply replace_no_old.
    + intros j. by do 5 (destruct j as [|j]; [done|]).
  - by rewrite length_append, replace_length.
Qed.

Lemma vcard_filename_no_space_witness :
  ∃ f, vcard_filename
         (Bundle.Build (User.Build "1" (VStr "Mary Ann Doe") VNone false VNone)
            (Profile.Build VNone VNone VNone VNone VNone) []) Sample.w0
       = (Ok f, Sample.w0)
       ∧ (∀ i, String.get i f ≠ Some " "%char)
       ∧ String.length f = (String.length "Mary Ann Doe" + 4)%nat.
Proof.
  apply (vcard_filename_no_space
           (Bundle.Build (User.Build "1" (VStr "Mary Ann Doe") VNone false VNone)
              (Profile.Build VNone VNone VNone VNone VNone) [])
           "Mary Ann Doe" Sample.w0).
  reflexivity.
Defined.

(** ** Social links *)

Section SocialLinks.
Context (E : env).
Implicit Types (payload : SocialLinkCreate.t) (user d : doc) (w : world) (s : store).

Lemma created_link_id payload user w :
  created_link E payload user w !! "_id" = Some (VOid (new_oid E (made w))).
Proof. apply lookup_insert_eq. Qed.

Lemma created_link_user_id payload user w :
  get (created_link E payload user w) "user_id" = uid_of E user.
Proof.
  unfold get, created_link. simpl.
  by rewrite lookup_insert_ne, lookup_insert_eq by done.
Qed.

Lemma created_link_json payload user w :
  link_json E (created_link E payload user w)
  = Link.Build (oid_hex (new_oid E (made w)))
      (VStr (SocialLinkCreate.platform payload))
      (VStr (SocialLinkCreate.url payload)).
Proof.
  unfold link_json, get, created_link. simpl.
  rewrite lookup_insert_eq.
  by rewrite !lookup_insert_ne, !lookup_insert_eq by done.
Qed.

Lemma create_social_link_run payload user w s :
  db w = Some s →
  raises E (calls w) = false →
  Some (VOid (new_oid E (made w))) ∉ doc_ids (s !!! "sociallink") →
  create_social_link E payload user w
  = (Ok (JId (oid_hex (new_oid E (made w)))),
     World
       (Some (<["sociallink" :=
                  (s !!! "sociallink") ++ [created_link E payload user w]]> s))
       (S (ticks w)) (S (made w)) (S (calls w))).
Proof.
  intros Hdb Hr Hfresh.
  destruct w as [o t m n]; simpl in *; subst o.
  unfold create_social_link, bind, now, getitem; simpl.
  unfold insert_one, bind, with_id. simpl.
  rewrite !lookup_insert_ne by done. rewrite lookup_empty.
  unfold bind, generate, ret, call, store_insert; simpl.
  rewrite Hr, lookup_insert_eq.
  by rewrite (bool_decide_eq_false_2 _ Hfresh).
Qed.
End SocialLinks.

Section LinkLists.
Implicit Types (d : doc) (l : list doc) (q : string * value) (i : value).

Lemma matches_id_has_id d i :
  d !! "_id" ≠ None → matches ("_id", i) d → d !! "_id" = Some i.
Proof.
  unfold matches, get. simpl. destruct (d !! "_id") as [j|]; [|done].
  simpl. by intros _ ->.
Qed.

(** No document of [l] has the id [i]: the filter on it selects
    nothing. *)
Lemma no_match_of_fresh l i :
  i ≠ VNone → Some i ∉ doc_ids l → Forall (λ x, ¬ matches ("_id", i) x) l.
Proof.
  intros Hi Hfresh. apply Forall_forall. intros x Hx Hm. apply Hfresh.
  unfold matches, get in Hm. simpl in Hm.
  destruct (x !! "_id") as [j|] eqn:Hj; simpl in Hm; [subst j|congruence].
  rewrite <- Hj. by apply (list_elem_of_fmap_2 (λ d, d !! "_id")).
Qed.

Lemma filter_none q l : Forall (λ x, ¬ matches q x) l → filter (matches q) l = [].
Proof.
  induction 1 as [|x l Hx _ IH]; [done|]. by rewrite filter_cons_False.
Qed.

Lemma drop_first_none q l : Forall (λ x, ¬ matches q x) l → drop_first q l = l.
Proof.
  induction 1 as [|x l Hx _ IH]; [done|]. simpl. by rewrite decide_False, IH.
Qed.

Lemma drop_first_snoc q l d :
  Forall (λ x, ¬ matches q x) l → matches q d → drop_first q (l ++ [d]) = l.
Proof.
  induction 1 as [|x l Hx _ IH]; intros Hd; simpl.
  - by rewrite decide_True.
  - by rewrite decide_False, IH.
Qed.

Lemma drop_first_length q l d :
  first_match q l = Some d →
  Datatypes.length l = S (Datatypes.length (drop_first q l)).
Proof.
  induction l as [|x l IH]; [done|]. rewrite first_match_cons. simpl.
  case_decide; [done|]. intros Hd. simpl. by rewrite (IH Hd).
Qed.

(** In a well-formed collection [delete_one] on an [_id] removes every
    document that has it: there is only one. *)
Lemma drop_first_unique l i :
  well_formed l →
  drop_first ("_id", i) l = filter (λ x, ¬ matches ("_id", i) x) l.
Proof.
  intros [Hnd Hids]. induction l as [|x l IH]; [done|].
  unfold doc_ids in *. rewrite fmap_cons in *.
  apply NoDup_cons in Hnd as [Hx Hnd].
  apply not_elem_of_cons in Hids as [Hxid Hids].
  simpl. destruct (decide (matches ("_id", i) x)) as [Hm|Hm].
  - rewrite filter_cons_False by tauto.
    apply matches_id_has_id in Hm; [|done]. rewrite Hm in Hx.
    assert (i ≠ VNone ∨ i = VNone) as [Hi| ->] by (destruct i; eauto).
    + pose proof (no_match_of_fresh l i Hi Hx) as Hall.
      symmetry. clear -Hall. induction Hall as [|y l Hy _ IH]; [done|].
        by rewrite filter_cons_True, IH.
    + symmetry. clear IH Hnd. induction l as [|y l IH]; [done|].
      rewrite fmap_cons in *.
      apply not_elem_of_cons in Hids as [Hyid Hids].
      apply not_elem_of_cons in Hx as [Hy Hx].
      rewrite filter_cons_True, IH; [done..|].
      intros Hy'. apply matches_id_has_id in Hy'; [congruence|done].
  - rewrite filter_cons_True by done. by rewrite IH.
Qed.
End LinkLists.

(** X14. A link that is created shows up: [create_social_link] answers
    with the text of the new id, and the acting user's bundle is the
    bundle of before with one more link at the end, carrying that id,
    the platform and the URL as they were sent (nothing is validated or
    de-duplicated). *)
Theorem create_social_link_listed (E : env) (payload : SocialLinkCreate.t)
    (user : doc) (w : world) (s : store) :
  db w = Some s →
  healthy E →
  Some (VOid (new_oid E (made w))) ∉ doc_ids (s !!! "sociallink") →
  let new_id := oid_hex (new_oid E (made w)) in
  let after := (create_social_link E payload user w).2 in
  (create_social_link E payload user w).1 = Ok (JId new_id)
  ∧ ∃ b,
      (get_me E user w).1 = Ok (JBundle b)
      ∧ (get_me E user after).1
        = Ok (JBundle
                (Bundle.Build (Bundle.user b) (Bundle.profile b)
                   (Bundle.social_links b
                    ++ [Link.Build new_id
                          (VStr (SocialLinkCreate.platform payload))
                          (VStr (SocialLinkCreate.url payload))]))).
Proof.
  intros Hdb Hh Hfresh new_id after. subst after.
  rewrite (create_social_link_run E payload user w s Hdb (Hh _) Hfresh). simpl.
  split; [done|].
  rewrite (get_me_run E user w s Hdb Hh).
  erewrite get_me_run; [|reflexivity|done]. simpl.
  eexists. split; [reflexivity|].
  rewrite lookup_total_insert_ne by done. rewrite lookup_total_insert_eq.
  rewrite filter_app, fmap_app.
  rewrite filter_cons_True by apply created_link_user_id.
  rewrite filter_nil. simpl. by rewrite created_link_json.
Qed.

Lemma create_social_link_listed_witness :
  let payload := SocialLinkCreate.Build "github" "https://github.com/jane" in
  let new_id := oid_hex (new_oid Sample.E (made Sample.w0)) in
  let after := (create_social_link Sample.E payload Sample.jane Sample.w0).2 in
  (create_social_link Sample.E payload Sample.jane Sample.w0).1 = Ok (JId new_id)
  ∧ ∃ b,
      (get_me Sample.E Sample.jane Sample.w0).1 = Ok (JBundle b)
      ∧ (get_me Sample.E Sample.jane after).1
        = Ok (JBundle
                (Bundle.Build (Bundle.user b) (Bundle.profile b)
                   (Bundle.social_links b
                    ++ [Link.Build new_id
                          (VStr (SocialLinkCreate.platform payload))
                          (VStr (SocialLinkCreate.url payload))]))).
Proof.
  apply (create_social_link_listed Sample.E
           (SocialLinkCreate.Build "github" "https://github.com/jane")
           Sample.jane Sample.w0 Sample.s0).
  - reflexivity.
  - intros n; reflexivity.
  - by_computation.
Defined.

(** X15. Deleting the link that was just created, under the id that
    [create_social_link] answered, undoes the creation: the delete
    answers [{"status": "deleted"}] and every collection is what it was
    before the link was created. *)
Theorem create_then_delete_social_link (E : env) (payload : SocialLinkCreate.t)
    (user : doc) (w : world) (s : store) :
  db w = Some s →
  healthy E →
  Some (VOid (new_oid E (made w))) ∉ doc_ids (s !!! "sociallink") →
  parse_oid (oid_hex (new_oid E (made w))) = Some (new_oid E (made w)) →
  let created := create_social_link E payload user w in
  let deleted :=
    delete_social_link E (oid_hex (new_oid E (made w))) user created.2 in
  deleted.1 = Ok (JStatus "deleted")
  ∧ ∃ s', db deleted.2 = Some s' ∧ ∀ c, s' !!! c = s !!! c.
Proof.
  intros Hdb Hh Hfresh Hparse created deleted. subst deleted created.
  rewrite (create_social_link_run E payload user w s Hdb (Hh _) Hfresh). simpl.
  pose proof (created_link_id E payload user w) as Hi.
  pose proof (created_link_user_id E payload user w) as Huid.
  remember (created_link E payload user w) as d eqn:Hdd. clear Hdd.
  remember (new_oid E (made w)) as o eqn:Ho. clear Ho.
  pose proof (no_match_of_fresh (s !!! "sociallink") (VOid o) ltac:(done) Hfresh)
    as Hnone.
  assert (matches ("_id", VOid o) d) as Hd.
  { unfold matches, get. cbn [fst snd]. by rewrite Hi. }
  assert (d ≠ ∅) as Hne.
  { intros ->. by rewrite lookup_empty in Hi. }
  unfold delete_social_link, bind, getitem. cbn [db].
  rewrite (ObjectId_str_run _ _ _ _ Hparse).
  unfold find_one, call. cbn [db calls]. rewrite (Hh _).
  rewrite lookup_total_insert_eq.
  rewrite (first_match_snoc _ _ _ (f_equal head (filter_none _ _ Hnone)) Hd).
  cbn [truthy_doc the default negb]. rewrite (bool_decide_eq_false_2 _ Hne).
  rewrite (bool_decide_eq_true_2 _ Huid).
  cbn [negb orb set_db called db ticks made calls].
  rewrite (ObjectId_str_run _ _ _ _ Hparse).
  unfold delete_one, call. cbn [db calls]. rewrite (Hh _).
  cbn [fst snd set_db called db ticks made calls ret].
  split; [done|]. eexists. split; [reflexivity|].
  intros c. rewrite lookup_total_alter_nil by done. case_decide as Hc.
  - subst c. rewrite lookup_total_insert_eq. by apply drop_first_snoc.
  - by rewrite lookup_total_insert_ne.
Qed.

Lemma create_then_delete_social_link_witness :
  let payload := SocialLinkCreate.Build "github" "https://github.com/jane" in
  let created := create_social_link Sample.E payload Sample.jane Sample.w0 in
  let deleted :=
    delete_social_link Sample.E (oid_hex (new_oid Sample.E (made Sample.w0)))
      Sample.jane created.2 in
  deleted.1 = Ok (JStatus "deleted")
  ∧ ∃ s', db deleted.2 = Some s' ∧ ∀ c, s' !!! c = Sample.s0 !!! c.
Proof.
  apply (create_then_delete_social_link Sample.E
           (SocialLinkCreate.Build "github" "https://github.com/jane")
           Sample.jane Sample.w0 Sample.s0).
  - reflexivity.
  - intros n; reflexivity.
  - by_computation.
  - by_computation.
Defined.

(** X16. The owner deletes a link: [delete_social_link] answers
    [{"status": "deleted"}] after one lookup and one delete, the link
    collection is one document shorter, it holds no document with that
    id any more and every other document in its place, and the other
    collections are untouched. *)
Theorem delete_social_link_own (E : env) (sid : string) (user : doc) (w : world)
    (s : store) (o : oid) (d : doc) :
  db w = Some s →
  healthy E →
  well_formed (s !!! "sociallink") →
  parse_oid sid = Some o →
  first_match ("_id", VOid o) (s !!! "sociallink") = Some d →
  get d "user_id" = uid_of E user →
  ∃ s',
    delete_social_link E sid user w
    = (Ok (JStatus "deleted"), World (Some s') (ticks w) (made w) (S (S (calls w))))
    ∧ s' !!! "sociallink"
      = filter (λ x, ¬ matches ("_id", VOid o) x) (s !!! "sociallink")
    ∧ Datatypes.length (s !!! "sociallink")
      = S (Datatypes.length (s' !!! "sociallink"))
    ∧ first_match ("_id", VOid o) (s' !!! "sociallink") = None
    ∧ ∀ c, c ≠ "sociallink" → s' !! c = s !! c.
Proof.
  intros Hdb Hh Hwf Ho Hd Huid.
  assert (d ≠ ∅) as Hne.
  { destruct (first_match_Some _ _ _ Hd) as [_ Hm]. intros ->.
    unfold matches, get in Hm. by rewrite lookup_empty in Hm. }
  exists (alter (drop_first ("_id", VOid o)) "sociallink" s).
  split.
  - destruct w as [db0 t m n]; simpl in *; subst db0.
    unfold delete_social_link, bind, getitem. cbn [db].
    rewrite (ObjectId_str_run _ _ _ _ Ho).
    unfold find_one, call. cbn [db calls]. rewrite (Hh _), Hd.
    cbn [truthy_doc the default negb]. rewrite (bool_decide_eq_false_2 _ Hne).
    rewrite (bool_decide_eq_true_2 _ Huid).
    cbn [negb orb set_db called db ticks made calls].
    rewrite (ObjectId_str_run _ _ _ _ Ho).
    unfold delete_one, call. cbn [db calls]. by rewrite (Hh _).
  - rewrite lookup_total_alter_nil, decide_True by done.
    split; [by apply drop_first_unique|].
    split; [by eapply drop_first_length|].
    split.
    + rewrite drop_first_unique by done.
      destruct (first_match _ (filter _ _)) as [x|] eqn:Hx; [|done].
      apply first_match_Some in Hx as [Hin Hm].
      by apply list_elem_of_filter in Hin as [Hnm _].
    + intros c Hc. by rewrite lookup_alter_ne.
Qed.

Lemma delete_social_link_own_witness :
  ∃ s',
    delete_social_link Sample.E Sample.jane_link_id Sample.jane Sample.w0
    = (Ok (JStatus "deleted"),
       World (Some s') (ticks Sample.w0) (made Sample.w0) (S (S (calls Sample.w0))))
    ∧ s' !!! "sociallink"
      = filter (λ x, ¬ matches ("_id", VOid (Oid Sample.jane_link_id)) x)
          (Sample.s0 !!! "sociallink")
    ∧ Datatypes.length (Sample.s0 !!! "sociallink")
      = S (Datatypes.length (s' !!! "sociallink"))
    ∧ first_match ("_id", VOid (Oid Sample.jane_link_id)) (s' !!! "sociallink") = None
    ∧ ∀ c, c ≠ "sociallink" → s' !! c = Sample.s0 !! c.
Proof.
  apply (delete_social_link_own Sample.E Sample.jane_link_id Sample.jane Sample.w0
           Sample.s0 (Oid Sample.jane_link_id) Sample.jane_link).
  - reflexivity.
  - intros n; reflexivity.
  - split; by_computation.
  - reflexivity.
  - by_computation.
  - by_computation.
Defined.

(** ** One profile per user *)

Section Counting.
Implicit Types (d upd : doc) (l : list doc) (q : string * value).

Lemma count_matches_cons q d l :
  count_matches q (d :: l)
  = ((if decide (matches q d) then 1 else 0) + count_matches q l)%nat.
Proof. unfold count_matches. rewrite filter_cons. by case_decide. Qed.

Lemma count_matches_app q l1 l2 :
  count_matches q (l1 ++ l2) = (count_matches q l1 + count_matches q l2)%nat.
Proof. unfold count_matches. by rewrite filter_app, length_app. Qed.

Lemma count_matches_first q l : count_matches q l = 0%nat ↔ first_match q l = None.
Proof.
  unfold count_matches, first_match. by destruct (filter (matches q) l).
Qed.

(** [$set] on fields other than the one filtered on changes no count. *)
Lemma count_matches_set_first q q' upd l :
  upd !! q.1 = None → count_matches q (set_first q' upd l) = count_matches q l.
Proof.
  intros Hupd. induction l as [|x l IH]; [done|]. simpl.
  case_decide; rewrite !count_matches_cons; [|by rewrite IH].
  f_equal. destruct (decide (matches q x)) as [Hx|Hx].
  - by rewrite decide_True by by apply matches_union.
  - by rewrite decide_False by by rewrite matches_union.
Qed.
End Counting.

(** X17. [update_profile] never gives a user a second profile: on a
    healthy, well-formed store the number of profile documents of the
    acting user goes from zero to one or stays what it was, and the
    number of profile documents of every other owner is unchanged. *)
Theorem update_profile_one_profile (E : env) (payload : ProfileUpdate.t) (user : doc)
    (w : world) (s : store) :
  db w = Some s →
  healthy E →
  well_formed (s !!! "profile") →
  Some (VOid (new_oid E (made w))) ∉ doc_ids (s !!! "profile") →
  ∃ s',
    (update_profile E payload user w).1 = Ok (JStatus "ok")
    ∧ db (update_profile E payload user w).2 = Some s'
    ∧ count_matches ("user_id", uid_of E user) (s' !!! "profile")
      = Nat.max 1 (count_matches ("user_id", uid_of E user) (s !!! "profile"))
    ∧ ∀ v, v ≠ uid_of E user →
           count_matches ("user_id", v) (s' !!! "profile")
           = count_matches ("user_id", v) (s !!! "profile").
Proof.
  intros Hdb Hh Hwf Hfresh.
  destruct (first_match ("user_id", uid_of E user) (s !!! "profile")) as [d|] eqn:Hd.
  - destruct (first_match_Some _ _ _ Hd) as [Hin _].
    destruct (d !! "_id") as [i|] eqn:Hi; last first.
    { destruct Hwf as [_ []]. rewrite <- Hi.
      by apply (list_elem_of_fmap_2 (λ d, d !! "_id")). }
    rewrite (update_profile_run_existing E payload user w s d i
               Hdb (Hh _) (Hh _) Hd Hi). simpl.
    eexists. split; [done|]. split; [reflexivity|].
    rewrite lookup_total_alter_nil, decide_True by done.
    split.
    + rewrite count_matches_set_first by apply profile_update_doc_no_user_id.
      assert (count_matches ("user_id", uid_of E user) (s !!! "profile") ≠ 0%nat)
        by (rewrite count_matches_first; congruence).
      lia.
    + intros v _. apply count_matches_set_first, profile_update_doc_no_user_id.
  - rewrite (update_profile_run_create E payload user w s
               Hdb (Hh _) (Hh _) Hd Hfresh). simpl.
    eexists. split; [done|]. split; [reflexivity|].
    rewrite lookup_total_insert_eq.
    split.
    + rewrite count_matches_app, (proj2 (count_matches_first _ _) Hd).
      rewrite count_matches_cons, decide_True; [done|].
      unfold matches, get. simpl. by rewrite created_profile_user_id.
    + intros v Hv. rewrite count_matches_app, count_matches_cons.
      rewrite decide_False; [unfold count_matches; simpl; lia|].
      unfold matches, get. simpl. rewrite created_profile_user_id. simpl. congruence.
Qed.

Lemma update_profile_one_profile_witness :
  ∃ s',
    (update_profile Sample.E (ProfileUpdate.Build (Some "CTO") None None None)
       Sample.anon Sample.w0).1 = Ok (JStatus "ok")
    ∧ db (update_profile Sample.E (ProfileUpdate.Build (Some "CTO") None None None)
            Sample.anon Sample.w0).2 = Some s'
    ∧ count_matches ("user_id", uid_of Sample.E Sample.anon) (s' !!! "profile")
      = Nat.max 1 (count_matches ("user_id", uid_of Sample.E Sample.anon)
                     (Sample.s0 !!! "profile"))
    ∧ ∀ v, v ≠ uid_of Sample.E Sample.anon →
           count_matches ("user_id", v) (s' !!! "profile")
           = count_matches ("user_id", v) (Sample.s0 !!! "profile").
Proof.
  apply (update_profile_one_profile Sample.E
           (ProfileUpdate.Build (Some "CTO") None None None)
           Sample.anon Sample.w0 Sample.s0).
  - reflexivity.
  - intros n; reflexivity.
  - split; by_computation.
  - by_computation.
Defined.

(** X18. An empty profile update is not a no-op (unlike the empty
    admin update): when the payload provides nothing, the profile that
    exists is rewritten with a new [updated_at] and nothing else, and
    when none exists a profile is created that holds only its id, its
    owner and the two timestamps. *)
Theorem update_profile_empty_payload (E : env) (user : doc) (w : world) (s : store) :
  db w = Some s →
  healthy E →
  well_formed (s !!! "profile") →
  Some (VOid (new_oid E (made w))) ∉ doc_ids (s !!! "profile") →
  let t := utcnow E (ticks w) in
  let after := update_profile E (ProfileUpdate.Build None None None None) user w in
  ∃ s',
    after.1 = Ok (JStatus "ok")
    ∧ db after.2 = Some s'
    ∧ match first_match ("user_id", uid_of E user) (s !!! "profile") with
      | Some d =>
          first_match ("user_id", uid_of E user) (s' !!! "profile")
          = Some (<["updated_at" := VDate t]> d)
      | None =>
          s' !!! "profile"
          = (s !!! "profile")
            ++ [<["_id" := VOid (new_oid E (made w))]>
                  (<["created_at" := VDate t]>
                     (<["user_id" := uid_of E user]>
                        {["updated_at" := VDate t]}))]
      end.
Proof.
  intros Hdb Hh Hwf Hfresh t after. subst after.
  assert (∀ t', profile_update_doc (ProfileUpdate.Build None None None None) t'
                = {["updated_at" := VDate t']}) as Hupd by done.
  destruct (first_match ("user_id", uid_of E user) (s !!! "profile")) as [d|] eqn:Hd.
  - destruct (first_match_Some _ _ _ Hd) as [Hin _].
    destruct (d !! "_id") as [i|] eqn:Hi; last first.
    { destruct Hwf as [_ []]. rewrite <- Hi.
      by apply (list_elem_of_fmap_2 (λ d, d !! "_id")). }
    rewrite (update_profile_run_existing E _ user w s d i
               Hdb (Hh _) (Hh _) Hd Hi). simpl.
    eexists. split; [done|]. split; [reflexivity|].
    rewrite lookup_total_alter_nil, decide_True by done.
    rewrite (first_match_set_first_by_id _ _ _ d i Hwf); [|by rewrite Hupd|done..].
    by rewrite Hupd, insert_union_singleton_l.
  - rewrite (update_profile_run_create E _ user w s
               Hdb (Hh _) (Hh _) Hd Hfresh). simpl.
    eexists. split; [done|]. split; [reflexivity|].
    by rewrite lookup_total_insert_eq.
Qed.

Lemma update_profile_empty_payload_witness :
  let t := utcnow Sample.E (ticks Sample.w0) in
  let after :=
    update_profile Sample.E (ProfileUpdate.Build None None None None)
      Sample.jane Sample.w0 in
  ∃ s',
    after.1 = Ok (JStatus "ok")
    ∧ db after.2 = Some s'
    ∧ match first_match ("user_id", uid_of Sample.E Sample.jane)
              (Sample.s0 !!! "profile") with
      | Some d =>
          first_match ("user_id", uid_of Sample.E Sample.jane) (s' !!! "profile")
          = Some (<["updated_at" := VDate t]> d)
      | None =>
          s' !!! "profile"
          = (Sample.s0 !!! "profile")
            ++ [<["_id" := VOid (new_oid Sample.E (made Sample.w0))]>
                  (<["created_at" := VDate t]>
                     (<["user_id" := uid_of Sample.E Sample.jane]>
                        {["updated_at" := VDate t]}))]
      end.
Proof.
  apply (update_profile_empty_payload Sample.E Sample.jane Sample.w0 Sample.s0).
  - reflexivity.
  - intros n; reflexivity.
  - split; by_computation.
  - by_computation.
Defined.

(** ** The admin routes on users *)

(** Reduction of the projections of a world, and of nothing else. *)
Ltac world_cbn :=
  cbn [db ticks made calls tick mint called set_db fst snd].


Section AdminUsers.
Context (E : env).
Implicit Types (d upd : doc) (l : list doc) (q : string * value) (s : store).

Lemma first_match_None_Forall q l :
  first_match q l = None → Forall (λ x, ¬ matches q x) l.
Proof.
  induction l as [|x l IH]; [done|]. rewrite first_match_cons.
  case_decide; [done|]. intros Hl. constructor; [done|by apply IH].
Qed.

Lemma set_first_none q upd l :
  Forall (λ x, ¬ matches q x) l → set_first q upd l = l.
Proof.
  induction 1 as [|x l Hx _ IH]; [done|]. simpl. by rewrite decide_False, IH.
Qed.

(** The document reached by [update_one] is the one that the same
    filter finds afterwards, updated. *)
Lemma first_match_set_first_same q upd l d :
  upd !! q.1 = None →
  first_match q l = Some d →
  first_match q (set_first q upd l) = Some (upd ∪ d).
Proof.
  intros Hupd. induction l as [|x l IH]; [done|].
  rewrite first_match_cons. simpl.
  destruct (decide (matches q x)) as [Hx|Hx].
  - intros [= ->]. rewrite first_match_cons.
    by rewrite decide_True by by apply matches_union.
  - intros Hd. rewrite first_match_cons, decide_False by done. by apply IH.
Qed.

(** In a well-formed collection a document is the one found under its
    own [_id]. *)
Lemma first_match_unique l d i :
  well_formed l → d ∈ l → d !! "_id" = Some i →
  first_match ("_id", i) l = Some d.
Proof.
  intros [Hnd Hids] Hin Hi. induction l as [|x l IH]; [by apply elem_of_nil in Hin|].
  unfold doc_ids in *. rewrite fmap_cons in *.
  apply NoDup_cons in Hnd as [Hx Hnd].
  apply not_elem_of_cons in Hids as [Hxid Hids].
  rewrite first_match_cons.
  apply elem_of_cons in Hin as [<-|Hin].
  - rewrite decide_True; [done|]. unfold matches, get. simpl. by rewrite Hi.
  - rewrite decide_False; [by apply IH|].
    intros Hm. apply matches_id_has_id in Hm; [|done].
    apply Hx. rewrite Hm, <- Hi. by apply (list_elem_of_fmap_2 (λ d, d !! "_id")).
Qed.

Lemma dict_not_none_lookup (items : list (string * value)) k v :
  NoDup items.*1 → (k, v) ∈ items →
  dict_not_none items !! k = if decide (v = VNone) then None else Some v.
Proof.
  intros Hnd Hin. case_decide as Hv.
  - apply dict_not_none_None. intros v' Hin'. subst v.
    apply (elem_of_list_to_map (M := gmap string)) in Hin, Hin'; try done.
    congruence.
  - by apply dict_not_none_Some.
Qed.

(** What the [update_doc] of [admin_update_user] holds. *)
Lemma admin_update_doc_fields (payload : AdminUserUpdate.t) t :
  let upd : doc :=
    <["updated_at" := VDate t]> (dict_not_none (AdminUserUpdate.model_dump payload)) in
  upd !! "name" = VStr <$> AdminUserUpdate.name payload
  ∧ upd !! "email" = VStr <$> AdminUserUpdate.email payload
  ∧ upd !! "is_admin" = VBool <$> AdminUserUpdate.is_admin payload
  ∧ upd !! "profile_slug" = VStr <$> AdminUserUpdate.profile_slug payload
  ∧ upd !! "password_hash" = None.
Proof.
  intros upd. subst upd. rewrite !lookup_insert_ne by done.
  assert (NoDup (AdminUserUpdate.model_dump payload).*1) as Hnd by by_computation.
  repeat apply conj.
  - rewrite (dict_not_none_lookup _ "name" (opt_str (AdminUserUpdate.name payload)) Hnd)
      by (apply list_elem_of_In; simpl; tauto).
    by destruct (AdminUserUpdate.name payload).
  - rewrite (dict_not_none_lookup _ "email"
               (opt_str (AdminUserUpdate.email payload)) Hnd)
      by (apply list_elem_of_In; simpl; tauto).
    by destruct (AdminUserUpdate.email payload).
  - rewrite (dict_not_none_lookup _ "is_admin"
               (opt_bool (AdminUserUpdate.is_admin payload)) Hnd)
      by (apply list_elem_of_In; simpl; tauto).
    by destruct (AdminUserUpdate.is_admin payload).
  - rewrite (dict_not_none_lookup _ "profile_slug"
               (opt_str (AdminUserUpdate.profile_slug payload)) Hnd)
      by (apply list_elem_of_In; simpl; tauto).
    by destruct (AdminUserUpdate.profile_slug payload).
  - apply dict_not_none_None. intros v Hv.
    apply (list_elem_of_fmap_2 fst) in Hv. revert Hv. by_computation.
Qed.

Lemma admin_update_user_run uid payload admin w s o d :
  db w = Some s →
  healthy E →
  parse_oid uid = Some o →
  first_match ("_id", VOid o) (s !!! "user") = Some d →
  dict_not_none (AdminUserUpdate.model_dump payload) ≠ ∅ →
  let upd : doc :=
    <["updated_at" := VDate (utcnow E (ticks w))]>
      (dict_not_none (AdminUserUpdate.model_dump payload)) in
  admin_update_user E uid payload admin w
  = (Ok (JUser (serialize_user E (upd ∪ d))),
     World (Some (alter (set_first ("_id", VOid o) upd) "user" s))
       (S (ticks w)) (made w) (S (S (calls w)))).
Proof.
  intros Hdb Hh Ho Hd Hne upd.
  destruct w as [db0 t m n]; simpl in *; subst db0.
  unfold admin_update_user. rewrite (bool_decide_eq_false_2 _ Hne).
  unfold bind at 1, now. world_cbn.
  unfold bind at 1, try_except, bind at 1, getitem. world_cbn.
  unfold bind at 1. rewrite (ObjectId_str_run _ _ _ _ Ho).
  unfold update_one, call. world_cbn. rewrite (Hh _). world_cbn.
  unfold count_first. rewrite Hd. rewrite bool_decide_eq_false_2 by done.
  unfold bind. world_cbn. rewrite (ObjectId_str_run _ _ _ _ Ho).
  unfold find_one, call. world_cbn. rewrite (Hh _).
  rewrite lookup_total_alter_nil, decide_True by done.
  rewrite (first_match_set_first_same _ _ _ d); [done| |done].
  apply admin_update_doc_no_id.
Qed.
End AdminUsers.

(** X19. A successful admin update answers with the user as it is now
    stored: the id is the one that was asked for, each of [name],
    [email], [is_admin] and [profile_slug] has the value that was sent
    or, when none was sent, the value it had; the stored credential is
    not touched and no user is added or removed. *)
Theorem admin_update_user_effect (E : env) (uid : string)
    (payload : AdminUserUpdate.t) (admin : doc) (w : world) (s : store) (o : oid)
    (d : doc) :
  db w = Some s →
  healthy E →
  parse_oid uid = Some o →
  first_match ("_id", VOid o) (s !!! "user") = Some d →
  dict_not_none (AdminUserUpdate.model_dump payload) ≠ ∅ →
  ∃ u d' s',
    (admin_update_user E uid payload admin w).1 = Ok (JUser u)
    ∧ db (admin_update_user E uid payload admin w).2 = Some s'
    ∧ first_match ("_id", VOid o) (s' !!! "user") = Some d'
    ∧ u = serialize_user E d'
    ∧ User.id u = oid_hex o
    ∧ User.name u = from_option VStr (get d "name") (AdminUserUpdate.name payload)
    ∧ User.email u = from_option VStr (get d "email") (AdminUserUpdate.email payload)
    ∧ User.is_admin u
      = from_option id (truthy (get d "is_admin")) (AdminUserUpdate.is_admin payload)
    ∧ User.profile_slug u
      = from_option VStr (get d "profile_slug") (AdminUserUpdate.profile_slug payload)
    ∧ get d' "password_hash" = get d "password_hash"
    ∧ Datatypes.length (s' !!! "user") = Datatypes.length (s !!! "user").
Proof.
  intros Hdb Hh Ho Hd Hne.
  rewrite (admin_update_user_run E uid payload admin w s o d Hdb Hh Ho Hd Hne).
  cbn [fst snd db].
  destruct (admin_update_doc_fields payload (utcnow E (ticks w)))
    as (Hname & Hemail & Hadmin & Hslug & Hpw).
  pose proof (admin_update_doc_no_id payload (utcnow E (ticks w))) as Hid.
  set (upd := <["updated_at" := VDate (utcnow E (ticks w))]> _) in *.
  destruct (first_match_Some _ _ _ Hd) as [_ Hm].
  unfold matches in Hm. simpl in Hm.
  eexists _, (upd ∪ d), _. split; [reflexivity|]. split; [reflexivity|].
  rewrite lookup_total_alter_nil, decide_True by done.
  split; [by apply first_match_set_first_same|]. split; [done|].
  unfold serialize_user, get, get_default. simpl.
  rewrite !lookup_union, Hid, Hname, Hemail, Hadmin, Hslug, Hpw.
  repeat apply conj.
  - unfold get in Hm. destruct (d !! "_id"); simpl in *; by subst.
  - by destruct (AdminUserUpdate.name payload), (d !! "name").
  - by destruct (AdminUserUpdate.email payload), (d !! "email").
  - by destruct (AdminUserUpdate.is_admin payload), (d !! "is_admin").
  - by destruct (AdminUserUpdate.profile_slug payload), (d !! "profile_slug").
  - by destruct (d !! "password_hash").
  - apply set_first_length.
Qed.

Lemma admin_update_user_effect_witness :
  let payload := AdminUserUpdate.Build (Some "Jane Roe") None (Some true) None in
  ∃ u d' s',
    (admin_update_user Sample.E Sample.jane_id payload Sample.admin Sample.w0).1
    = Ok (JUser u)
    ∧ db (admin_update_user Sample.E Sample.jane_id payload Sample.admin Sample.w0).2
      = Some s'
    ∧ first_match ("_id", VOid (Oid Sample.jane_id)) (s' !!! "user") = Some d'
    ∧ u = serialize_user Sample.E d'
    ∧ User.id u = oid_hex (Oid Sample.jane_id)
    ∧ User.name u
      = from_option VStr (get Sample.jane "name") (AdminUserUpdate.name payload)
    ∧ User.email u
      = from_option VStr (get Sample.jane "email") (AdminUserUpdate.email payload)
    ∧ User.is_admin u
      = from_option id (truthy (get Sample.jane "is_admin"))
          (AdminUserUpdate.is_admin payload)
    ∧ User.profile_slug u
      = from_option VStr (get Sample.jane "profile_slug")
          (AdminUserUpdate.profile_slug payload)
    ∧ get d' "password_hash" = get Sample.jane "password_hash"
    ∧ Datatypes.length (s' !!! "user") = Datatypes.length (Sample.s0 !!! "user").
Proof.
  apply (admin_update_user_effect Sample.E Sample.jane_id
           (AdminUserUpdate.Build (Some "Jane Roe") None (Some true) None)
           Sample.admin Sample.w0 Sample.s0 (Oid Sample.jane_id) Sample.jane).
  - reflexivity.
  - intros n; reflexivity.
  - reflexivity.
  - by_computation.
  - by_computation.
Defined.

(** X20. A well-formed id that no user has is answered 404 "User not
    found" by the three admin routes on a user, and the collections are
    left exactly as they were: the update sets nothing, and the delete
    does not reach its cleanup, so profiles and links that carry this
    id as [user_id] stay. *)
Theorem admin_unknown_user (E : env) (uid : string) (payload : AdminUserUpdate.t)
    (admin : doc) (w : world) (s : store) (o : oid) :
  db w = Some s →
  healthy E →
  parse_oid uid = Some o →
  first_match ("_id", VOid o) (s !!! "user") = None →
  dict_not_none (AdminUserUpdate.model_dump payload) ≠ ∅ →
  (admin_get_user E uid admin w).1 = Raise (HTTPException 404 "User not found")
  ∧ (admin_update_user E uid payload admin w).1
    = Raise (HTTPException 404 "User not found")
  ∧ (admin_delete_user E uid admin w).1 = Raise (HTTPException 404 "User not found")
  ∧ db (admin_get_user E uid admin w).2 = Some s
  ∧ db (admin_update_user E uid payload admin w).2 = Some s
  ∧ db (admin_delete_user E uid admin w).2 = Some s.
Proof.
  intros Hdb Hh Ho Hnone Hne.
  pose proof (first_match_None_Forall _ _ Hnone) as Hall.
  destruct w as [db0 t m n]; simpl in *; subst db0.
  assert (admin_get_user E uid admin (World (Some s) t m n)
          = (Raise (HTTPException 404 "User not found"), World (Some s) t m (S n)))
    as ->.
  { unfold admin_get_user, bind at 1, try_except, bind at 1, getitem. world_cbn.
    unfold bind at 1. rewrite (ObjectId_str_run _ _ _ _ Ho).
    unfold find_one, call. world_cbn. by rewrite (Hh _), Hnone. }
  assert (admin_update_user E uid payload admin (World (Some s) t m n)
          = (Raise (HTTPException 404 "User not found"),
             World (Some s) (S t) m (S n))) as ->.
  { unfold admin_update_user. rewrite (bool_decide_eq_false_2 _ Hne).
    unfold bind at 1, now. world_cbn.
    unfold bind at 1, try_except, bind at 1, getitem. world_cbn.
    unfold bind at 1. rewrite (ObjectId_str_run _ _ _ _ Ho).
    unfold update_one, call. world_cbn. rewrite (Hh _). world_cbn.
    unfold count_first. rewrite Hnone. rewrite bool_decide_eq_true_2 by done.
    unfold raise. world_cbn. rewrite alter_id; [done|]. intros l Hl.
    apply set_first_none. by rewrite (lookup_total_correct _ _ _ Hl) in Hall. }
  assert (admin_delete_user E uid admin (World (Some s) t m n)
          = (Raise (HTTPException 404 "User not found"), World (Some s) t m (S n)))
    as ->.
  { unfold admin_delete_user, bind at 1, try_except, bind at 1, getitem. world_cbn.
    unfold bind at 1. rewrite (ObjectId_str_run _ _ _ _ Ho).
    unfold delete_one, call. world_cbn. rewrite (Hh _). world_cbn.
    unfold count_first. rewrite Hnone. rewrite bool_decide_eq_true_2 by done.
    unfold raise. world_cbn. rewrite alter_id; [done|]. intros l Hl.
    apply drop_first_none. by rewrite (lookup_total_correct _ _ _ Hl) in Hall. }
  done.
Qed.

Lemma admin_unknown_user_witness :
  let payload := AdminUserUpdate.Build None (Some "x@acme.com") None None in
  let uid := "5f00000000000000000000ff" in
  (admin_get_user Sample.E uid Sample.admin Sample.w0).1
  = Raise (HTTPException 404 "User not found")
  ∧ (admin_update_user Sample.E uid payload Sample.admin Sample.w0).1
    = Raise (HTTPException 404 "User not found")
  ∧ (admin_delete_user Sample.E uid Sample.admin Sample.w0).1
    = Raise (HTTPException 404 "User not found")
  ∧ db (admin_get_user Sample.E uid Sample.admin Sample.w0).2 = Some Sample.s0
  ∧ db (admin_update_user Sample.E uid payload Sample.admin Sample.w0).2
    = Some Sample.s0
  ∧ db (admin_delete_user Sample.E uid Sample.admin Sample.w0).2 = Some Sample.s0.
Proof.
  apply (admin_unknown_user Sample.E "5f00000000000000000000ff"
           (AdminUserUpdate.Build None (Some "x@acme.com") None None)
           Sample.admin Sample.w0 Sample.s0 (Oid "5f00000000000000000000ff")).
  - reflexivity.
  - intros n; reflexivity.
  - reflexivity.
  - by_computation.
  - by_computation.
Defined.

(** X21. Every user that [admin_list_users] lists can be fetched under
    the id it is listed with: on a well-formed user collection,
    [admin_get_user] on that id answers the very entry of the list. *)
Theorem admin_list_then_get (E : env) (admin : doc) (w : world) (s : store)
    (d : doc) (o : oid) :
  db w = Some s →
  healthy E →
  well_formed (s !!! "user") →
  d ∈ s !!! "user" →
  d !! "_id" = Some (VOid o) →
  parse_oid (oid_hex o) = Some o →
  (admin_list_users E admin w).1 = Ok (JUsers (serialize_user E <$> s !!! "user"))
  ∧ serialize_user E d ∈ serialize_user E <$> s !!! "user"
  ∧ (admin_get_user E (User.id (serialize_user E d)) admin w).1
    = Ok (JUser (serialize_user E d)).
Proof.
  intros Hdb Hh Hwf Hin Hi Ho.
  pose proof (first_match_unique _ _ _ Hwf Hin Hi) as Hd.
  assert (d ≠ ∅) as Hne by (intros ->; by rewrite lookup_empty in Hi).
  assert (User.id (serialize_user E d) = oid_hex o) as ->.
  { unfold serialize_user, get. simpl. by rewrite Hi. }
  destruct w as [db0 t m n]; simpl in *; subst db0.
  repeat apply conj.
  - unfold admin_list_users, bind, getitem. world_cbn.
    unfold find_all, call. world_cbn. by rewrite (Hh _).
  - by apply list_elem_of_fmap_2.
  - unfold admin_get_user, bind at 1, try_except, bind at 1, getitem. world_cbn.
    unfold bind at 1. rewrite (ObjectId_str_run _ _ _ _ Ho).
    unfold find_one, call. world_cbn. rewrite (Hh _), Hd.
    unfold bind. cbn [truthy_doc the default negb].
    by rewrite (bool_decide_eq_false_2 _ Hne).
Qed.

Lemma admin_list_then_get_witness :
  (admin_list_users Sample.E Sample.admin Sample.w0).1
  = Ok (JUsers (serialize_user Sample.E <$> Sample.s0 !!! "user"))
  ∧ serialize_user Sample.E Sample.anon
    ∈ serialize_user Sample.E <$> Sample.s0 !!! "user"
  ∧ (admin_get_user Sample.E (User.id (serialize_user Sample.E Sample.anon))
       Sample.admin Sample.w0).1
    = Ok (JUser (serialize_user Sample.E Sample.anon)).
Proof.
  apply (admin_list_then_get Sample.E Sample.admin Sample.w0 Sample.s0 Sample.anon
           (Oid Sample.anon_id)).
  - reflexivity.
  - intros n; reflexivity.
  - split; by_computation.
  - by_computation.
  - by_computation.
  - reflexivity.
Defined.

(** X22. [admin_update_user] is not all-or-nothing either: when the
    store takes the update and then fails on the read that follows, the
    request is answered by that failure (a 500) although the user has
    been updated. *)
Theorem admin_update_user_interrupted (E : env) (uid : string)
    (payload : AdminUserUpdate.t) (admin : doc) (w : world) (s : store) (o : oid)
    (d : doc) :
  db w = Some s →
  parse_oid uid = Some o →
  first_match ("_id", VOid o) (s !!! "user") = Some d →
  dict_not_none (AdminUserUpdate.model_dump payload) ≠ ∅ →
  raises E (calls w) = false →
  raises E (S (calls w)) = true →
  let upd : doc :=
    <["updated_at" := VDate (utcnow E (ticks w))]>
      (dict_not_none (AdminUserUpdate.model_dump payload)) in
  ∃ s',
    (admin_update_user E uid payload admin w).1 = Raise PyMongoError
    ∧ http_status (admin_update_user E uid payload admin w).1 = 500
    ∧ db (admin_update_user E uid payload admin w).2 = Some s'
    ∧ first_match ("_id", VOid o) (s' !!! "user") = Some (upd ∪ d).
Proof.
  intros Hdb Ho Hd Hne H0 H1 upd.
  assert (admin_update_user E uid payload admin w
          = (Raise PyMongoError,
             World (Some (alter (set_first ("_id", VOid o) upd) "user" s))
               (S (ticks w)) (made w) (S (S (calls w))))) as ->.
  { destruct w as [db0 t m n]; simpl in *; subst db0.
    unfold admin_update_user. rewrite (bool_decide_eq_false_2 _ Hne).
    unfold bind at 1, now. world_cbn.
    unfold bind at 1, try_except, bind at 1, getitem. world_cbn.
    unfold bind at 1. rewrite (ObjectId_str_run _ _ _ _ Ho).
    unfold update_one, call. world_cbn. rewrite H0. world_cbn.
    unfold count_first. rewrite Hd. rewrite bool_decide_eq_false_2 by done.
    unfold bind. world_cbn. rewrite (ObjectId_str_run _ _ _ _ Ho).
    unfold find_one, call. world_cbn. by rewrite H1. }
  eexists. split; [done|]. split; [done|]. split; [reflexivity|].
  rewrite lookup_total_alter_nil, decide_True by done.
  apply first_match_set_first_same; [apply admin_update_doc_no_id|done].
Qed.

Lemma admin_update_user_interrupted_witness :
  let E1 := Env (str_datetime Sample.E) (utcnow Sample.E) (new_oid Sample.E)
              (λ n, bool_decide (n = 1%nat)) in
  let payload := AdminUserUpdate.Build None None (Some true) None in
  let upd : doc :=
    <["updated_at" := VDate (utcnow E1 (ticks Sample.w0))]>
      (dict_not_none (AdminUserUpdate.model_dump payload)) in
  ∃ s',
    (admin_update_user E1 Sample.jane_id payload Sample.admin Sample.w0).1
    = Raise PyMongoError
    ∧ http_status
        (admin_update_user E1 Sample.jane_id payload Sample.admin Sample.w0).1 = 500
    ∧ db (admin_update_user E1 Sample.jane_id payload Sample.admin Sample.w0).2
      = Some s'
    ∧ first_match ("_id", VOid (Oid Sample.jane_id)) (s' !!! "user")
      = Some (upd ∪ Sample.jane).
Proof.
  apply (admin_update_user_interrupted
           (Env (str_datetime Sample.E) (utcnow Sample.E) (new_oid Sample.E)
              (λ n, bool_decide (n = 1%nat)))
           Sample.jane_id (AdminUserUpdate.Build None None (Some true) None)
           Sample.admin Sample.w0 Sample.s0 (Oid Sample.jane_id) Sample.jane).
  - reflexivity.
  - reflexivity.
  - by_computation.
  - by_computation.
  - reflexivity.
  - reflexivity.
Defined.

(** ** The demo user *)



Section Bootstrap.
Context (E : env).
Implicit Types (d : doc) (w : world) (s : store).

Lemma bind_ok {A B} (c : M A) (k : A → M B) w a w' :
  c w = (Ok a, w') → bind c k w = k a w'.
Proof. unfold bind. by intros ->. Qed.

Lemma insert_one_run c d w s :
  d !! "_id" = None →
  db w = Some s →
  raises E (calls w) = false →
  Some (VOid (new_oid E (made w))) ∉ doc_ids (s !!! c) →
  insert_one E c d w
  = (Ok (VOid (new_oid E (made w))),
     World (Some (<[c := (s !!! c) ++ [<["_id" := VOid (new_oid E (made w))]> d]]> s))
       (ticks w) (S (made w)) (S (calls w))).
Proof.
  intros Hd Hdb Hr Hfresh. destruct w as [db0 t m n]; simpl in *; subst db0.
  unfold insert_one, bind, with_id. rewrite Hd.
  unfold bind, generate, ret, call, store_insert. world_cbn.
  rewrite Hr, lookup_insert_eq. rewrite (bool_decide_eq_false_2 _ Hfresh).
  unfold get. by rewrite lookup_insert_eq.
Qed.

Lemma doc_ids_snoc (l : list doc) d : doc_ids (l ++ [d]) = doc_ids l ++ [d !! "_id"].
Proof. unfold doc_ids. by rewrite fmap_app. Qed.

Lemma with_ids_run (ds : list doc) w :
  Forall (λ d, d !! "_id" = None) ds →
  with_ids E ds w
  = (Ok (imap (λ k d, <["_id" := VOid (new_oid E (made w + k))]> d) ds),
     World (db w) (ticks w) (made w + Datatypes.length ds) (calls w)).
Proof.
  intros Hds. revert w. induction Hds as [|d ds Hd _ IH]; intros w.
  - destruct w. simpl. by rewrite Nat.add_0_r.
  - cbn [with_ids]. unfold bind at 1, with_id. rewrite Hd.
    unfold bind at 1, generate, ret. unfold bind at 1. rewrite IH.
    destruct w as [db0 t m n]. world_cbn. unfold ret. simpl.
    rewrite Nat.add_0_r, Nat.add_succ_r. do 3 f_equal.
    apply imap_ext. intros k x _. simpl. by rewrite Nat.add_succ_r.
Qed.

Lemma store_insert_run c d i s :
  d !! "_id" = Some i →
  Some i ∉ doc_ids (s !!! c) →
  store_insert c d s = (Ok i, <[c := (s !!! c) ++ [d]]> s).
Proof.
  intros Hi Hfresh. unfold store_insert. rewrite Hi.
  rewrite (bool_decide_eq_false_2 _ Hfresh). unfold get. by rewrite Hi.
Qed.

Lemma ensure_demo_user_run w s :
  db w = Some s →
  healthy E →
  first_match ("email", VStr "demo@flamesblue.com") (s !!! "user") = None →
  let o k := new_oid E (made w + k) in
  Some (VOid (o 0%nat)) ∉ doc_ids (s !!! "user") →
  Some (VOid (o 1%nat)) ∉ doc_ids (s !!! "profile") →
  Some (VOid (o 2%nat)) ∉ doc_ids (s !!! "sociallink") →
  Some (VOid (o 3%nat)) ∉ doc_ids (s !!! "sociallink") →
  Some (VOid (o 4%nat)) ∉ doc_ids (s !!! "sociallink") →
  o 2%nat ≠ o 3%nat → o 2%nat ≠ o 4%nat → o 3%nat ≠ o 4%nat →
  ∃ u p l1 l2 l3 s',
    ensure_demo_user E w
    = (Ok (Some u),
       World (Some s') (ticks w + 10) (made w + 5) (calls w + 5))
    ∧ s' !!! "user" = (s !!! "user") ++ [u]
    ∧ s' !!! "profile" = (s !!! "profile") ++ [p]
    ∧ s' !!! "sociallink" = (s !!! "sociallink") ++ [l1; l2; l3]
    ∧ (∀ c, c ∉ ["user"; "profile"; "sociallink"] → s' !! c = s !! c)
    ∧ u !! "_id" = Some (VOid (o 0%nat))
    ∧ get u "email" = VStr "demo@flamesblue.com"
    ∧ get u "is_admin" = VBool true
    ∧ get u "profile_slug" = VStr "flames-blue"
    ∧ get p "user_id" = VStr (oid_hex (o 0%nat))
    ∧ Forall (λ l, get l "user_id" = VStr (oid_hex (o 0%nat))) [l1; l2; l3]
    ∧ (λ l, get l "platform") <$> [l1; l2; l3]
      = [VStr "website"; VStr "linkedin"; VStr "github"].
Proof.
  intros Hdb Hh Hnone o Hu Hp H2 H3 H4 H23 H24 H34.
  destruct w as [db0 t m n]; simpl in *; subst db0.
  unfold ensure_demo_user. world_cbn.
  unfold bind at 1, getitem at 1; world_cbn.
  unfold bind at 1, find_one at 1, call at 1; world_cbn.
  rewrite (Hh _), Hnone. world_cbn. cbn [truthy_doc negb].
  unfold bind at 1, getitem at 1; world_cbn.
  unfold bind at 1, now at 1; world_cbn.
  unfold bind at 1, now at 1; world_cbn.
  unfold bind at 1.
  erewrite insert_one_run;
    [|apply not_elem_of_list_to_map; simpl; by_computation
     |reflexivity|apply Hh|world_cbn; by rewrite <- (Nat.add_0_r m)].
  world_cbn.
  unfold bind at 1, getitem at 1; world_cbn.
  unfold bind at 1, now at 1; world_cbn.
  unfold bind at 1, now at 1; world_cbn.
  unfold bind at 1.
  erewrite insert_one_run;
    [|apply not_elem_of_list_to_map; simpl; by_computation
     |reflexivity|apply Hh
     |world_cbn; rewrite lookup_total_insert_ne by done;
      by replace (S m) with (m + 1)%nat by lia].
  world_cbn. rewrite (lookup_total_insert_ne _ "user" "profile") by done.
  unfold bind at 1, getitem at 1; world_cbn.
  do 6 (unfold bind at 1, now at 1; world_cbn).
  unfold bind at 1, insert_many at 1, bind at 1.
  rewrite with_ids_run; last first.
  { repeat constructor; apply not_elem_of_list_to_map; simpl; by_computation. }
  world_cbn. cbn [imap Datatypes.length]. unfold compose.
  replace (S (S m) + 0)%nat with (m + 2)%nat by lia.
  replace (S (S m) + 1)%nat with (m + 3)%nat by lia.
  replace (S (S m) + 2)%nat with (m + 4)%nat by lia.
  fold (o 2%nat) (o 3%nat) (o 4%nat).
  unfold call at 1. world_cbn. rewrite (Hh _).
  cbn [store_insert_many].
  erewrite (store_insert_run "sociallink" _ (VOid (o 2%nat)));
    [|apply lookup_insert_eq|by rewrite !lookup_total_insert_ne by done].
  rewrite !(lookup_total_insert_ne _ _ "sociallink") by done.
  erewrite (store_insert_run "sociallink" _ (VOid (o 3%nat)));
    [|apply lookup_insert_eq|]; last first.
  { rewrite lookup_total_insert_eq, doc_ids_snoc, lookup_insert_eq.
    rewrite elem_of_app, list_elem_of_singleton. intros [?|[=]]; congruence. }
  rewrite lookup_total_insert_eq.
  erewrite (store_insert_run "sociallink" _ (VOid (o 4%nat)));
    [|apply lookup_insert_eq|]; last first.
  { rewrite lookup_total_insert_eq, !doc_ids_snoc, !lookup_insert_eq.
    rewrite !elem_of_app, !list_elem_of_singleton.
    intros [[?|[=]]|[=]]; congruence. }
  rewrite lookup_total_insert_eq, !insert_insert_eq. world_cbn.
  unfold bind at 1, getitem at 1; world_cbn.
  unfold bind at 1, ObjectId at 1, ret at 1.
  unfold find_one, call. world_cbn. rewrite (Hh _).
  rewrite !(lookup_total_insert_ne _ _ "user") by done.
  rewrite lookup_total_insert_eq.
  assert (new_oid E m = o 0%nat) as Ho0 by (unfold o; by rewrite Nat.add_0_r).
  assert (new_oid E (S m) = o 1%nat) as Ho1 by (unfold o; by rewrite Nat.add_1_r).
  rewrite !Ho0, !Ho1.
  erewrite first_match_snoc; last first.
  { unfold matches, get. cbn [fst snd]. by rewrite lookup_insert_eq. }
  { assert (VOid (o 0%nat) ≠ VNone) as Hv by done.
    apply (f_equal head
             (filter_none _ _ (no_match_of_fresh (s !!! "user") _ Hv Hu))). }
  eexists _, _, _, _, _, _. split.
  { world_cbn. rewrite !Nat.add_succ_r, !Nat.add_0_r. reflexivity. }
  rewrite !(lookup_total_insert_ne _ _ "user") by done.
  rewrite !(lookup_total_insert_ne _ _ "profile") by done.
  rewrite !lookup_total_insert_eq, <- !app_assoc.
  split; [done|]. split; [done|]. split; [done|].
  split.
  { intros c Hc.
    apply not_elem_of_cons in Hc as [? Hc].
    apply not_elem_of_cons in Hc as [? Hc].
    apply not_elem_of_cons in Hc as [? _].
    by rewrite !lookup_insert_ne. }
  split; [apply lookup_insert_eq|].
  unfold get. cbn [list_to_map foldr uncurry fst snd fmap list_fmap].
  repeat apply conj; repeat constructor;
    by repeat (rewrite lookup_insert_ne by done); rewrite ?lookup_insert_eq.
Qed.
End Bootstrap.

(** X23. The bootstrap of the demo data.  On a healthy store where no
    user carries the demo e-mail, and with five generated ids that are
    new, [ensure_demo_user] reads the clock ten times, makes five ids
    and five store calls, appends one admin user, one profile and three
    links (website, linkedin, github) owned by that user, touches no
    other collection, and returns the user as stored.  It is idempotent:
    run again in the world it leaves, it returns the same user after a
    single lookup and writes nothing. *)
Theorem ensure_demo_user_bootstrap (E : env) (w : world) (s : store) :
  db w = Some s →
  healthy E →
  first_match ("email", VStr "demo@flamesblue.com") (s !!! "user") = None →
  let o k := new_oid E (made w + k) in
  Some (VOid (o 0%nat)) ∉ doc_ids (s !!! "user") →
  Some (VOid (o 1%nat)) ∉ doc_ids (s !!! "profile") →
  Some (VOid (o 2%nat)) ∉ doc_ids (s !!! "sociallink") →
  Some (VOid (o 3%nat)) ∉ doc_ids (s !!! "sociallink") →
  Some (VOid (o 4%nat)) ∉ doc_ids (s !!! "sociallink") →
  o 2%nat ≠ o 3%nat → o 2%nat ≠ o 4%nat → o 3%nat ≠ o 4%nat →
  ∃ u p l1 l2 l3 s',
    let w' := World (Some s') (ticks w + 10) (made w + 5) (calls w + 5) in
    ensure_demo_user E w = (Ok (Some u), w')
    ∧ s' !!! "user" = (s !!! "user") ++ [u]
    ∧ s' !!! "profile" = (s !!! "profile") ++ [p]
    ∧ s' !!! "sociallink" = (s !!! "sociallink") ++ [l1; l2; l3]
    ∧ (∀ c, c ∉ ["user"; "profile"; "sociallink"] → s' !! c = s !! c)
    ∧ get u "email" = VStr "demo@flamesblue.com"
    ∧ get u "is_admin" = VBool true
    ∧ get u "profile_slug" = VStr "flames-blue"
    ∧ Forall (λ x, get x "user_id" = uid_of E u) [p; l1; l2; l3]
    ∧ (λ l, get l "platform") <$> [l1; l2; l3]
      = [VStr "website"; VStr "linkedin"; VStr "github"]
    ∧ ensure_demo_user E w' = (Ok (Some u), called w').
Proof.
  intros Hdb Hh Hnone o Hu Hp H2 H3 H4 H23 H24 H34.
  destruct (ensure_demo_user_run E w s Hdb Hh Hnone Hu Hp H2 H3 H4 H23 H24 H34)
    as (u & p & l1 & l2 & l3 & s' & Hrun & Husers & Hprofiles & Hlinks & Hframe
        & Hid & Hemail & Hadmin & Hslug & Hpuid & Hluid & Hplat).
  exists u, p, l1, l2, l3, s'. cbn zeta.
  assert (uid_of E u = VStr (oid_hex (o 0%nat))) as Huid.
  { unfold uid_of, get. by rewrite Hid. }
  assert (u ≠ ∅) as Hne by (intros ->; by rewrite lookup_empty in Hid).
  repeat apply conj; try done.
  - rewrite Huid. by constructor.
  - unfold ensure_demo_user. world_cbn.
    unfold bind at 1, getitem at 1. world_cbn.
    unfold bind at 1, find_one at 1, call at 1. world_cbn. rewrite (Hh _).
    rewrite Husers, (first_match_snoc _ _ _ Hnone Hemail).
    cbn [truthy_doc negb]. by rewrite (bool_decide_eq_false_2 _ Hne).
Qed.

Lemma ensure_demo_user_bootstrap_witness :
  let w := World (Some ∅) 0 0 0 in
  ∃ u p l1 l2 l3 s',
    let w' := World (Some s') (ticks w + 10) (made w + 5) (calls w + 5) in
    ensure_demo_user Sample.E w = (Ok (Some u), w')
    ∧ s' !!! "user" = ((∅ : store) !!! "user") ++ [u]
    ∧ s' !!! "profile" = ((∅ : store) !!! "profile") ++ [p]
    ∧ s' !!! "sociallink" = ((∅ : store) !!! "sociallink") ++ [l1; l2; l3]
    ∧ (∀ c, c ∉ ["user"; "profile"; "sociallink"] → s' !! c = (∅ : store) !! c)
    ∧ get u "email" = VStr "demo@flamesblue.com"
    ∧ get u "is_admin" = VBool true
    ∧ get u "profile_slug" = VStr "flames-blue"
    ∧ Forall (λ x, get x "user_id" = uid_of Sample.E u) [p; l1; l2; l3]
    ∧ (λ l, get l "platform") <$> [l1; l2; l3]
      = [VStr "website"; VStr "linkedin"; VStr "github"]
    ∧ ensure_demo_user Sample.E w' = (Ok (Some u), called w').
Proof.
  apply (ensure_demo_user_bootstrap Sample.E (World (Some ∅) 0 0 0) ∅).
  - reflexivity.
  - intros n; reflexivity.
  - by_computation.
  - by_computation.
  - by_computation.
  - by_computation.
  - by_computation.
  - by_computation.
  - by_computation.
  - by_computation.
  - by_computation.
Defined.
